(** * Site Sector plugin: wedge geometry, row classification, KML export

    A shallow embedding of [site_sector.py] and of the part of
    [site_sector_dialog.py] that builds the configuration dictionary.

    Conventions of the embedding.
    - A Python [str] is a [string]: the bytes of its UTF-8 encoding.  Where
      the code classifies characters by the Unicode database (the digits of
      [re]'s [\d] and of [int()] in the frequency key), the code points are
      decoded by [PyStr.codepoints]; [str.strip()] knows the white space
      of Unicode by its bytes.  [str.lower()], which the code applies to
      the name of the export format and to the digits of a colour, is that
      of ASCII text; slices and [replace] work on bytes.
    - A Python [int] is a [Z].
    - A Python [float] is a [float]: a binary64 value, that is a rational
      that [round64] returns, one of the two infinities, or NaN.  Arithmetic
      rounds to nearest, ties to even.  The sign of zero is not kept.
    - A Python [dict] with string keys is a [gmap string _].
    - A computation returns a value ([Ok]), raises an exception ([Raise]),
      or, where it runs a loop that need not end, is cut off after the
      number of iterations given as [fuel] ([Unfinished]). *)

From Stdlib Require Import ZArith QArith Qround Qabs Lqa String Ascii List
  Sorted Permutation Lia.
From stdpp Require Import base strings gmap list pretty.

Open Scope string_scope.
Open Scope Z_scope.

(** ** Python string primitives *)

Module PyStr.

(** [c.isdigit()] for an ASCII character, and the digit's value. *)
Definition isdigit (c : ascii) : bool :=
  match Ascii.is_nat c with Some _ => true | None => false end.

Definition digit_val (c : ascii) : Z :=
  match Ascii.is_nat c with Some d => Z.of_nat d | None => 0 end.

Fixpoint all_digits (s : string) : bool :=
  match s with
  | "" => true
  | String c s' => isdigit c && all_digits s'
  end.

(** [int(s)] for a string of ASCII decimal digits, most significant
    first. *)
Fixpoint int_digits (acc : Z) (s : string) : Z :=
  match s with
  | "" => acc
  | String c s' => int_digits (10 * acc + digit_val c) s'
  end.

(** The code points of a [str], decoded from its UTF-8 bytes.  [lead b] is
    what a byte that starts a character gives: the code point itself for an
    ASCII byte, or the number of continuation bytes to read and the bits of
    the lead.  A Python string is well formed; a byte that cannot be decoded
    here is passed on as U+FFFD. *)
Definition lead (b : N) : option N * nat * N :=
  (if b <? 128 then (Some b, O, 0)
   else if (192 <=? b) && (b <? 224) then (None, 1%nat, b - 192)
   else if (224 <=? b) && (b <? 240) then (None, 2%nat, b - 224)
   else if (240 <=? b) && (b <? 248) then (None, 3%nat, b - 240)
   else (Some 65533, O, 0))%N.

Definition continuation (b : N) : bool := ((128 <=? b) && (b <? 192))%N.

Fixpoint decode_utf8 (pending : nat) (acc : N) (s : string) : list N :=
  match s with
  | "" => match pending with O => [] | S _ => [65533%N] end
  | String a s' =>
      let b := N_of_ascii a in
      match pending with
      | S k =>
          if continuation b then
            let acc' := (acc * 64 + (b - 128))%N in
            match k with
            | O => acc' :: decode_utf8 O 0 s'
            | S _ => decode_utf8 k acc' s'
            end
          else
            let '(emit, p, a0) := lead b in
            65533%N :: (option_list emit ++ decode_utf8 p a0 s')%list
      | O =>
          let '(emit, p, a0) := lead b in
          (option_list emit ++ decode_utf8 p a0 s')%list
      end
  end.

Definition codepoints (s : string) : list N := decode_utf8 O 0 s.

(** A string of ASCII characters only. *)
Fixpoint is_ascii (s : string) : bool :=
  match s with
  | "" => true
  | String a s' => (N_of_ascii a <? 128)%N && is_ascii s'
  end.

(** White space as [str.strip()] sees it: the 29 characters for which
    [str.isspace()] holds, by their UTF-8 bytes.  Ten are ASCII; U+0085
    and U+00A0 take two bytes; U+1680, U+2000 to U+200A, U+2028, U+2029,
    U+202F, U+205F and U+3000 take three. *)
Definition isspace (c : ascii) : bool :=
  match c with
  | "009" | "010" | "011" | "012" | "013"
  | "028" | "029" | "030" | "031" | " " => true
  | _ => false
  end%char.

Definition isspace2 (a b : ascii) : bool :=
  (let a := N_of_ascii a in
   let b := N_of_ascii b in
   (a =? 194) && ((b =? 133) || (b =? 160)))%N.

Definition isspace3 (a b c : ascii) : bool :=
  (let a := N_of_ascii a in
   let b := N_of_ascii b in
   let c := N_of_ascii c in
   (a =? 225) && (b =? 154) && (c =? 128)
   || (a =? 226) && (b =? 128)
      && ((128 <=? c) && (c <=? 138) || (c =? 168) || (c =? 169)
          || (c =? 175))
   || (a =? 226) && (b =? 129) && (c =? 159)
   || (a =? 227) && (b =? 128) && (c =? 128))%N.

Fixpoint lstrip (s : string) : string :=
  match s with
  | String a s1 =>
      if isspace a then lstrip s1
      else
        match s1 with
        | String b s2 =>
            if isspace2 a b then lstrip s2
            else
              match s2 with
              | String c s3 => if isspace3 a b c then lstrip s3 else s
              | "" => s
              end
        | "" => s
        end
  | "" => ""
  end.

(** [rstrip] keeps the characters up to the point from which only white
    space follows. *)
Fixpoint rstrip (s : string) : string :=
  match s with
  | "" => ""
  | String c s' =>
      match lstrip s with
      | "" => ""
      | _ => String c (rstrip s')
      end
  end.

Definition strip (s : string) : string := rstrip (lstrip s).

(** [s.lstrip(c)] for a one-character argument. *)
Fixpoint lstrip_char (c : ascii) (s : string) : string :=
  match s with
  | String a s' => if decide (a = c) then lstrip_char c s' else s
  | "" => ""
  end.

(** [s.replace(c, by)] for a one-character pattern. *)
Fixpoint replace_char (c : ascii) (by_ : string) (s : string) : string :=
  match s with
  | "" => ""
  | String a s' =>
      (if decide (a = c) then by_ else String a "") +:+ replace_char c by_ s'
  end.

(** [s[i:j]] for [0 <= i <= j]; like Python's slice it is cut short at the
    end of the string. *)
Definition slice (i j : nat) (s : string) : string :=
  substring i (j - i) s.

Definition lower_char (c : ascii) : ascii :=
  let n := nat_of_ascii c in
  if (65 <=? n)%nat && (n <=? 90)%nat then ascii_of_nat (n + 32) else c.

Fixpoint lower (s : string) : string :=
  match s with
  | "" => ""
  | String c s' => String (lower_char c) (lower s')
  end.

(** [str(n)] for an [int]. *)
Definition str_int (n : Z) : string := pretty n.

(** [int(s)] for a string: optional surrounding white space, an optional
    sign, then at least one digit; [None] stands for [ValueError]. *)
Definition int_unsigned (s : string) : option Z :=
  match s with
  | "" => None
  | _ => if all_digits s then Some (int_digits 0 s) else None
  end.

Definition int_str (s : string) : option Z :=
  match strip s with
  | String "-" d => Z.opp <$> int_unsigned d
  | String "+" d => int_unsigned d
  | d => int_unsigned d
  end.

(** [format(n, '02X')]: upper-case hexadecimal, zero-padded to two
    characters, the sign counted in the width. *)
Definition hex_digit (d : Z) : ascii :=
  if d <? 10 then ascii_of_nat (Z.to_nat d + 48)
  else ascii_of_nat (Z.to_nat d + 55).

Fixpoint hex_go (fuel : nat) (n : Z) (acc : string) : string :=
  match fuel with
  | O => acc
  | S f =>
      let acc' := String (hex_digit (n mod 16)) acc in
      if n / 16 =? 0 then acc' else hex_go f (n / 16) acc'
  end.

Definition hex_upper (n : Z) : string :=
  hex_go (S (Z.to_nat (Z.log2 n))) n "".

Definition format_02X (n : Z) : string :=
  if n <? 0 then "-" +:+ hex_upper (- n)
  else if n <? 16 then "0" +:+ hex_upper n
  else hex_upper n.

End PyStr.

(** ** Exceptions and outcomes *)

Inductive exn :=
  | ValueError | KeyError | TypeError | AttributeError | IndexError
  | IOError | OverflowError | ZeroDivisionError.

Global Instance exn_eq_dec : EqDecision exn.
Proof. solve_decision. Defined.

(** What a call comes to: a value, an exception, or no answer within the
    fuel it was given. *)
Inductive result (A : Type) :=
  | Ok (a : A)
  | Raise (e : exn)
  | Unfinished.
Arguments Ok {A} a.
Arguments Raise {A} e.
Arguments Unfinished {A}.

Global Instance result_ret : MRet result := λ A a, Ok a.
Global Instance result_bind : MBind result := λ A B f m,
  match m with Ok a => f a | Raise e => Raise e | Unfinished => Unfinished end.

(** Whether a computation returned, and the value it returned ([d] when it
    did not); used to run the model on concrete inputs. *)
Definition is_ok {A : Type} (r : result A) : bool :=
  match r with Ok _ => true | _ => false end.

Definition ok_value {A : Type} (d : A) (r : result A) : A :=
  match r with Ok a => a | _ => d end.

(** ** Floats

    A binary64 value.  [Finite x] stands for the float of value [x]; the
    floats the operations below return hold a rational in lowest terms that
    has at most 53 significant bits and an exponent in the binary64
    range. *)

Inductive float :=
  | Finite (x : Q)
  | Inf (negative : bool)
  | NaN.

(** To the nearest integer, a tie to the even one. *)
Definition round_half_even (x : Q) : Z :=
  let f := Qfloor x in
  match (x - inject_Z f ?= 1 # 2)%Q with
  | Lt => f
  | Gt => f + 1
  | Eq => if Z.even f then f else f + 1
  end.

Definition pow2 (e : Z) : Q :=
  if 0 <=? e then inject_Z (2 ^ e) else (1 / inject_Z (2 ^ (- e)))%Q.

(** [floor (log2 |x|)] for [x] other than 0: with [n / d] the absolute value
    of [x], it is [log2 n - log2 d] or one less. *)
Definition ilog2 (x : Q) : Z :=
  let k := Z.log2 (Z.abs (Qnum x)) - Z.log2 (Z.pos (Qden x)) in
  if Qle_bool (pow2 k) (Qabs x) then k else k - 1.

(** The binary64 value nearest to the real number [x]: 53 significant bits,
    the least exponent [-1074] (below it the subnormal numbers and zero), an
    infinity from [2 ^ 1024] on. *)
Definition round64 (x : Q) : float :=
  if Qeq_bool x 0 then Finite 0
  else
    let e := Z.max (ilog2 x - 52) (-1074) in
    let m := round_half_even (x / pow2 e) in
    let y := Qred (inject_Z m * pow2 e) in
    if Qle_bool (pow2 1024) (Qabs y) then Inf (negb (Qle_bool 0 x))
    else Finite y.

(** The float of an [int] in the mixed arithmetic of the code
    ([base_rad - rank * 20], [opacity / 100.0]): the nearest float.  The
    ints the code converts are an index of a list times 20 and the value of
    a slider; both are far below [2 ^ 1023], under which every [int] has a
    float ([float_of_int_finite] below), so the [OverflowError] of the
    conversion does not arise. *)
Definition float_of_int (n : Z) : float := round64 (inject_Z n).

Definition fneg (a : float) : float :=
  match a with
  | Finite x => Finite (- x)
  | Inf s => Inf (negb s)
  | NaN => NaN
  end.

(** [a + b] *)
Definition fadd (a b : float) : float :=
  match a, b with
  | NaN, _ | _, NaN => NaN
  | Inf s, Inf t => if Bool.eqb s t then Inf s else NaN
  | Inf s, Finite _ => Inf s
  | Finite _, Inf t => Inf t
  | Finite x, Finite y => round64 (x + y)
  end.

(** [a - b] *)
Definition fsub (a b : float) : float := fadd a (fneg b).

(** [a * b] *)
Definition fmul (a b : float) : float :=
  match a, b with
  | NaN, _ | _, NaN => NaN
  | Inf s, Inf t => Inf (xorb s t)
  | Inf s, Finite y | Finite y, Inf s =>
      if Qeq_bool y 0 then NaN else Inf (xorb s (negb (Qle_bool 0 y)))
  | Finite x, Finite y => round64 (x * y)
  end.

(** [a / d] for a positive constant [d]: the code divides by [2],
    [111320.0] and [100.0] only. *)
Definition fdivc (a : float) (d : Q) : float :=
  match a with
  | Finite x => round64 (x / d)
  | Inf s => Inf s
  | NaN => NaN
  end.

(** [a <= b] and [a < b]: false as soon as one side is NaN. *)
Definition fle (a b : float) : bool :=
  match a, b with
  | NaN, _ | _, NaN => false
  | Finite x, Finite y => Qle_bool x y
  | Inf true, _ => true
  | _, Inf false => true
  | Inf false, _ => false
  | Finite _, Inf true => false
  end.

Definition flt (a b : float) : bool :=
  match a, b with
  | NaN, _ | _, NaN => false
  | Finite x, Finite y => negb (Qle_bool y x)
  | Inf s, Inf t => s && negb t
  | Inf s, Finite _ => s
  | Finite _, Inf t => negb t
  end.

(** [int(x)] for a float: truncation toward zero; an infinity and NaN have
    no integer. *)
Definition Qtrunc (q : Q) : Z := Z.quot (Qnum q) (Z.pos (Qden q)).

Definition int_float (x : float) : result Z :=
  match x with
  | Finite q => Ok (Qtrunc q)
  | Inf _ => Raise OverflowError
  | NaN => Raise ValueError
  end.

(** [max(a, b)]: the first argument unless the second is strictly larger
    (so a NaN first argument is returned). *)
Definition py_max (a b : float) : float := if flt a b then b else a.

(** ** The Python runtime the plugin relies on

    The Unicode database, [float()] of a string, the [math] module on finite
    arguments, [str()] of a float or of a geometry and the iteration order
    of a [set] are not code of the plugin: they are the fields of a class,
    and every property below holds for each instance.
    - [unicode_decimal c] is the value of the code point [c] when it is a
      decimal digit (category Nd), which is what [\d] matches and [int()]
      reads; on ASCII these are the ten digits.
    - [py_float s] is [float(s)], [None] when it raises [ValueError].
    - [set_list l] is [list(s)] for the set [s] built by adding the elements
      of [l] one after the other: some enumeration, without repetition, of
      the elements of [l]. *)

Record QgsPointXY := { pt_x : float; pt_y : float }.

Class Runtime := {
  unicode_decimal : N → option Z;
  unicode_decimal_ascii : ∀ c : N,
    (c < 128)%N →
    unicode_decimal c
    = if ((48 <=? c) && (c <=? 57))%N then Some (Z.of_N c - 48) else None;
  py_float : string → option float;
  radians_fin : Q → Q;
  cos_fin : Q → Q;
  sin_fin : Q → Q;
  str_float : float → string;
  str_geom : list QgsPointXY → string;
  set_list : list string → list string;
  set_list_NoDup : ∀ l, NoDup (set_list l);
  set_list_elem : ∀ l x, x ∈ set_list l ↔ x ∈ l
}.

(** ** Frequency key extractor *)

Section FrequencyKeyDef.
Context `{Runtime}.

(** A decimal digit of the Unicode database, and its value. *)
Definition is_decimal (c : N) : bool :=
  match unicode_decimal c with Some _ => true | None => false end.

Definition decimal_val (c : N) : Z := default 0 (unicode_decimal c).

(** [int(n)] for a run of decimal digits, most significant first. *)
Fixpoint int_decimal (acc : Z) (run : list N) : Z :=
  match run with
  | [] => acc
  | c :: run' => int_decimal (10 * acc + decimal_val c) run'
  end.

(** [re.findall(r'\d+', s)]: the scan goes left to right, [run] is the
    greedy match in progress, emitted when a non-digit or the end of the
    string stops it. *)
Definition flush (run : list N) : list (list N) :=
  match run with [] => [] | _ => [run] end.

Fixpoint findall_digits_from (run s : list N) : list (list N) :=
  match s with
  | [] => flush run
  | c :: s' =>
      if is_decimal c then findall_digits_from (run ++ [c]) s'
      else flush run ++ findall_digits_from [] s'
  end.

Definition re_findall_digits (s : string) : list (list N) :=
  findall_digits_from [] (PyStr.codepoints s).

(** [max(int(n) for n in nums) if nums else 99999] *)
Definition extract_numeric_freq (band_string : string) : Z :=
  match int_decimal 0 <$> re_findall_digits band_string with
  | [] => 99999
  | n :: ns => foldl Z.max n ns
  end.
End FrequencyKeyDef.

(** ** Wedge geometry builder *)

Section Wedge.
Context `{Runtime}.

(** [math.radians], [math.cos], [math.sin]: NaN gives NaN, and the cosine
    and the sine of an infinity raise [ValueError] (math domain error). *)
Definition math_radians (x : float) : float :=
  match x with Finite q => Finite (radians_fin q) | _ => x end.

Definition math_cos (x : float) : result float :=
  match x with
  | Finite q => Ok (Finite (cos_fin q))
  | Inf _ => Raise ValueError
  | NaN => Ok NaN
  end.

Definition math_sin (x : float) : result float :=
  match x with
  | Finite q => Ok (Finite (sin_fin q))
  | Inf _ => Raise ValueError
  | NaN => Ok NaN
  end.

(** The vertex the loop body appends for [curr_angle]. *)
Definition arc_point (lon lat radius_deg curr_angle : float)
    : result QgsPointXY :=
  let rad := math_radians (fsub (Finite 90) curr_angle) in
  c ← math_cos rad;
  s ← math_sin rad;
  Ok {| pt_x := fadd lon (fmul radius_deg c);
        pt_y := fadd lat (fmul radius_deg s) |}.

(** [while curr_angle <= end_angle: points.append(vertex(curr_angle));
    curr_angle += 3], cut off after [fuel] tests of the condition. *)
Fixpoint sweep {A : Type} (vertex : float → result A) (fuel : nat)
    (end_angle curr_angle : float) (points : list A) : result (list A) :=
  match fuel with
  | O => Unfinished
  | S fuel' =>
      if fle curr_angle end_angle
      then pt ← vertex curr_angle;
           sweep vertex fuel' end_angle (fadd curr_angle (Finite 3))
             (points ++ [pt])%list
      else Ok points
  end.

Definition create_wedge_geom (fuel : nat) (lon lat azim beam radius_m : float)
    : result (list QgsPointXY) :=
  let radius_deg := fdivc radius_m 111320 in
  let points := [{| pt_x := lon; pt_y := lat |}] in
  let start_angle := fsub azim (fdivc beam 2) in
  let end_angle := fadd azim (fdivc beam 2) in
  let curr_angle := start_angle in
  points ← sweep (arc_point lon lat radius_deg) fuel end_angle curr_angle
              points;
  Ok (points ++ [{| pt_x := lon; pt_y := lat |}])%list.
End Wedge.

(** The value of [curr_angle] at the [k]-th test of the loop condition. *)
Definition sweep_angle (start_angle : float) (k : nat) : float :=
  Nat.iter k (λ a, fadd a (Finite 3)) start_angle.
Arguments sweep_angle : simpl never.

(** The values of [curr_angle] for which the loop body runs, in order, as
    far as [fuel] tests of the condition show them. *)
Fixpoint emitted_angles (fuel : nat) (end_angle curr_angle : float)
    : list float :=
  match fuel with
  | O => []
  | S fuel' =>
      if fle curr_angle end_angle
      then curr_angle
           :: emitted_angles fuel' end_angle (fadd curr_angle (Finite 3))
      else []
  end.

Definition wedge_angles (fuel : nat) (azim beam : float) : list float :=
  emitted_angles fuel (fadd azim (fdivc beam 2)) (fsub azim (fdivc beam 2)).

(** ** Values and rows *)

(** What a [row_data] dictionary holds: the cells of the CSV row ([str], or
    [None] where the line was short) and the derived entries. *)
Inductive pyval :=
  | PStr (s : string)
  | PNone
  | PFloat (x : float)
  | PGeom (ring : list QgsPointXY).

(** A row of [csv.DictReader]: column name to cell, [None] for a cell the
    line did not have. *)
Abbreviation RawRow := (gmap string (option string)).
Abbreviation RowData := (gmap string pyval).

Definition of_cell (c : option string) : pyval :=
  match c with Some s => PStr s | None => PNone end.

(** [str(c)] for a cell. *)
Definition str_cell (c : option string) : string :=
  match c with Some s => s | None => "None" end.

(** [d[k]] *)
Definition getitem {V : Type} (d : gmap string V) (k : string) : result V :=
  match d !! k with Some v => Ok v | None => Raise KeyError end.

(** [l.index(x)], [None] when [x not in l]. *)
Fixpoint list_index (x : string) (l : list string) : option nat :=
  match l with
  | [] => None
  | y :: l' => if decide (x = y) then Some O else S <$> list_index x l'
  end.

(** [sorted(l, key=key)]: a stable sort, here by insertion from the right. *)
Fixpoint insert_by_key {A : Type} (key : A → Z) (x : A) (l : list A) : list A :=
  match l with
  | [] => [x]
  | y :: l' => if key x <=? key y then x :: l else y :: insert_by_key key x l'
  end.

Definition py_sorted {A : Type} (key : A → Z) (l : list A) : list A :=
  foldr (insert_by_key key) [] l.

(** ** Configuration: the dictionary returned by [get_inputs] *)

Definition SELECT_COLUMN : string := "-- Select Column --".
Definition USE_MANUAL : string := "-- Use Manual --".

Record Cols := {
  col_site : string; col_lat : string; col_lon : string; col_azim : string;
  col_radius : string; col_beam : string; col_band : string; col_pci : string
}.

Record Manual := { manual_radius : float; manual_beam : float }.

Record BandParams := { band_colors : gmap string string; band_opacity : Z }.

Record PciParams := {
  mod_type : Z; pci_colors : list string; pci_opacity : Z
}.

Record Inputs := {
  file_path : string;
  cols : Cols;
  manual : Manual;
  active_tab : Z;
  band_params : BandParams;
  pci_params : PciParams;
  format : string;
  save_path : string
}.

(** ** Radius-decrement band ranking and the row classifier *)

Section Rows.
Context `{Runtime}.

(** [float(c)] for a cell. *)
Definition float_cell (c : option string) : result float :=
  match c with
  | None => Raise TypeError
  | Some s =>
      match py_float s with Some x => Ok x | None => Raise ValueError end
  end.

(** The first pass over the file: [if val := row.get(band):
    unique_bands_temp.add(str(val).strip())], the values in the order they
    are added. *)
Definition band_values (band_col : string) (rows : list RawRow)
    : list string :=
  omap (λ row : RawRow,
          match row !! band_col with
          | Some (Some val) =>
              match val with "" => None | _ => Some (PyStr.strip val) end
          | _ => None
          end) rows.

Definition rank_bands (band_col : string) (rows : list RawRow)
    : list string :=
  py_sorted extract_numeric_freq (set_list (band_values band_col rows)).

(** The radius branch of the [try] body. *)
Definition resolve_radius (inputs : Inputs) (sorted_bands_list : list string)
    (row : RawRow) : result float :=
  let rad_col := col_radius (cols inputs) in
  if decide (rad_col = USE_MANUAL) then
    let base_rad := manual_radius (manual inputs) in
    let band_val :=
      PyStr.strip
        (str_cell (default (Some "") (row !! col_band (cols inputs)))) in
    match list_index band_val sorted_bands_list with
    | Some rank =>
        Ok (py_max (fsub base_rad (float_of_int (Z.of_nat rank * 20)))
              (Finite 10))
    | None => Ok base_rad
    end
  else c ← getitem row rad_col; float_cell c.

Definition resolve_beam (inputs : Inputs) (row : RawRow) : result float :=
  let beam_col := col_beam (cols inputs) in
  if decide (beam_col = USE_MANUAL) then Ok (manual_beam (manual inputs))
  else c ← getitem row beam_col; float_cell c.

(** The target classification of the [try] body. *)
Definition resolve_target (inputs : Inputs) (is_pci_mode : bool)
    (row : RawRow) : result string :=
  if negb is_pci_mode then
    c ← getitem row (col_band (cols inputs));
    Ok (PyStr.strip (str_cell c))
  else
    c ← getitem row (col_pci (cols inputs));
    pci_val ← float_cell c;
    n ← int_float pci_val;
    if mod_type (pci_params inputs) =? 0 then Raise ZeroDivisionError
    else Ok (PyStr.str_int (n `mod` mod_type (pci_params inputs))).

(** The body of the [try] statement for one row; [fuel] bounds the loop of
    [create_wedge_geom]. *)
Definition process_row (fuel : nat) (inputs : Inputs) (is_pci_mode : bool)
    (sorted_bands_list : list string) (row : RawRow) : result RowData :=
  radius ← resolve_radius inputs sorted_bands_list row;
  beam ← resolve_beam inputs row;
  let row_data : RowData := of_cell <$> row in
  site ← getitem row (col_site (cols inputs));
  let row_data := <["_site" := PStr (str_cell site)]> row_data in
  c ← getitem row (col_lat (cols inputs));
  lat ← float_cell c;
  let row_data := <["_lat" := PFloat lat]> row_data in
  c ← getitem row (col_lon (cols inputs));
  lon ← float_cell c;
  let row_data := <["_lon" := PFloat lon]> row_data in
  c ← getitem row (col_azim (cols inputs));
  azim ← float_cell c;
  let row_data := <["_azim" := PFloat azim]> row_data in
  let row_data := <["_radius" := PFloat radius]> row_data in
  let row_data := <["_beam" := PFloat beam]> row_data in
  target ← resolve_target inputs is_pci_mode row;
  let row_data := <["_target_val" := PStr target]> row_data in
  geom ← create_wedge_geom fuel lon lat azim beam radius;
  Ok (<["_geom" := PGeom geom]> row_data).

(** [except (ValueError, KeyError, TypeError): continue] *)
Definition caught (e : exn) : bool :=
  match e with ValueError | KeyError | TypeError => true | _ => false end.

Inductive scan_outcome :=
  | ScanCancelled
  | ScanRaised (e : exn)
  | ScanUnfinished
  | ScanDone (data_list : list RowData).

(** [for i, row in enumerate(reader)], from row [i] on. *)
Fixpoint scan_rows (fuel : nat) (inputs : Inputs) (is_pci_mode : bool)
    (sorted_bands_list : list string) (was_canceled : nat → bool)
    (i : nat) (rows : list RawRow) (data_list : list RowData)
    : scan_outcome :=
  match rows with
  | [] => ScanDone data_list
  | row :: rest =>
      if was_canceled i then ScanCancelled
      else
        match process_row fuel inputs is_pci_mode sorted_bands_list row with
        | Ok row_data =>
            scan_rows fuel inputs is_pci_mode sorted_bands_list was_canceled
              (S i) rest (data_list ++ [row_data])
        | Raise e =>
            if caught e then
              scan_rows fuel inputs is_pci_mode sorted_bands_list
                was_canceled (S i) rest data_list
            else ScanRaised e
        | Unfinished => ScanUnfinished
        end
  end.
End Rows.

(** ** The marked-up (KML) export *)

(** [hex_to_kml_color], local to [export_to_kml].  [opacity_pct] is the
    value of a spin box, an [int] from 0 to 100.  The alpha byte
    [int((opacity_pct / 100.0) * 255)] is computed here in exact arithmetic;
    on the range of the spin box the float computation of the code gives the
    same integer ([alpha_in_floats] below). *)
Definition hex_to_kml_color (hex_str : string) (opacity_pct : Z) : string :=
  let h := PyStr.lstrip_char "#" hex_str in
  let r := PyStr.slice 0 2 h in
  let g := PyStr.slice 2 4 h in
  let b := PyStr.slice 4 6 h in
  let alpha :=
    PyStr.format_02X (Qtrunc ((inject_Z opacity_pct / 100) * 255)%Q) in
  PyStr.lower (alpha +:+ b +:+ g +:+ r).

(** The alpha byte as the code computes it, in floats. *)
Definition alpha_float (opacity_pct : Z) : result Z :=
  int_float (fmul (fdivc (float_of_int opacity_pct) 100) (Finite 255)).

(** One [<Placemark>] with a polygon, as [export_to_kml] writes it: the
    text of its [<name>], the [<Data>] name/value pairs, the value of the
    [Modulo_Result] entry (PCI mode only), the [<PolyStyle>] colour and the
    text of [<coordinates>]. *)
Record SectorPlacemark := {
  pm_name : string;
  pm_data : list (string * string);
  pm_modulo_result : option string;
  pm_poly_color : string;
  pm_coordinates : string
}.

(** The document: its [<name>] and the polygon placemarks.  The legend image
    and the point placemark of each site, written before them, are not part
    of this record. *)
Record KmlDocument := {
  kml_name : string;
  kml_sectors : list SectorPlacemark
}.

Definition GRAY : string := "#888888".

Section KmlExport.
Context `{Runtime}.

(** [str(v)] *)
Definition py_str (v : pyval) : string :=
  match v with
  | PStr s => s
  | PNone => "None"
  | PFloat x => str_float x
  | PGeom ring => str_geom ring
  end.

(** [escape_xml], local to [export_to_kml]. *)
Definition escape_xml (text : pyval) : string :=
  PyStr.replace_char ">" "&gt;"
    (PyStr.replace_char "<" "&lt;"
       (PyStr.replace_char "&" "&amp;" (py_str text))).

(** [" ".join(parts)] *)
Fixpoint join_space (parts : list string) : string :=
  match parts with
  | [] => ""
  | [p] => p
  | p :: rest => p +:+ " " +:+ join_space rest
  end.

(** [colors_map.get(v, "#888888")]: only a [str] can be a key of the map. *)
Definition colors_map_get (colors_map : gmap string string) (v : pyval)
    : string :=
  match v with
  | PStr t => default GRAY (colors_map !! t)
  | _ => GRAY
  end.

(** The body of [for row_data in data] that writes the polygons. *)
Definition sector_placemark (params : Inputs) (headers : list string)
    (colors_map : gmap string string) (is_pci_mode : bool)
    (opacity_val : Z) (row_data : RowData) : result SectorPlacemark :=
  target_val ← getitem row_data "_target_val";
  let hex_col := colors_map_get colors_map target_val in
  let kml_col := hex_to_kml_color hex_col opacity_val in
  geom ← getitem row_data "_geom";
  poly ← match geom with
         | PGeom ring => Ok ring
         | _ => Raise AttributeError
         end;
  let coord_str :=
    join_space
      (map (λ pt, str_float (pt_x pt) +:+ "," +:+ str_float (pt_y pt)
                    +:+ ",0") poly) in
  let site_name :=
    escape_xml
      (default (PStr "Unknown") (row_data !! col_site (cols params))) in
  let target_lbl :=
    if is_pci_mode then PStr ("Mod_" +:+ py_str target_val)
    else target_val in
  Ok {| pm_name := site_name +:+ "_" +:+ escape_xml target_lbl;
        pm_data :=
          map (λ h, (escape_xml (PStr h),
                     escape_xml (default (PStr "") (row_data !! h))))
            headers;
        pm_modulo_result :=
          if is_pci_mode then Some (py_str target_val) else None;
        pm_poly_color := kml_col;
        pm_coordinates := coord_str |}.

Definition export_to_kml (data : list RowData) (params : Inputs)
    (headers : list string) (colors_map : gmap string string)
    (is_pci_mode : bool) : result KmlDocument :=
  let doc_name :=
    if is_pci_mode then "Site Sector PCI Audit" else "Site Sector" in
  let opacity_val :=
    if is_pci_mode then pci_opacity (pci_params params)
    else band_opacity (band_params params) in
  sectors ← mapM (sector_placemark params headers colors_map is_pci_mode
                    opacity_val) data;
  Ok {| kml_name := doc_name; kml_sectors := sectors |}.
End KmlExport.

(** ** The run *)

(** [l[i]] for a Python list: a negative index counts from the end. *)
Definition list_getitem {A : Type} (l : list A) (i : Z) : result A :=
  let j := if i <? 0 then i + Z.of_nat (length l) else i in
  if j <? 0 then Raise IndexError
  else match l !! Z.to_nat j with Some a => Ok a | None => Raise IndexError end.

(** [pat in s] for strings. *)
Definition str_in (pat s : string) : bool :=
  match index 0 pat s with Some _ => true | None => false end.

(** [l.sort(key=key)] with a key that can raise: the keys are computed
    first, then the list is sorted on them. *)
Definition sort_by_key {A : Type} (key : A → result Z) (l : list A)
    : result (list A) :=
  decorated ← mapM (λ x, k ← key x; Ok (k, x)) l;
  Ok (snd <$> py_sorted fst decorated).

Record Feature := {
  fet_attributes : list (string * string);
  fet_gen_radius : pyval;
  fet_gen_beam : pyval;
  fet_mod : option Z;
  fet_geometry : pyval
}.

(** A renderer category: value, colour, opacity, label. *)
Record Category := {
  cat_value : string; cat_color : string; cat_opacity : float;
  cat_label : string
}.

Record Layer := {
  layer_name : string;
  layer_fields : list string;
  layer_features : list Feature;
  layer_target_field : string;
  layer_categories : list Category
}.

(** What a run does to the outside: message boxes (title and text), the
    layer handed to the project, files written. *)
Inductive event :=
  | MsgWarning (title text : string)
  | MsgCritical (title : string)
  | MsgInformation (title text : string)
  | AddMapLayer (vl : Layer)
  | WriteVectorFile (driver path : string)
  | SaveNamedStyle (shp_path : string)
  | WriteKml (path : string) (doc : KmlDocument)
  | OpenUrl (path : string).

(** A CSV file as [csv.DictReader] presents it. *)
Record CsvFile := { fieldnames : list string; csv_rows : list RawRow }.

Section Run.
Context `{Runtime}.

(** [row_data['_target_val']], which the classifier stored as a [str]. *)
Definition target_val (row_data : RowData) : result string :=
  v ← getitem row_data "_target_val";
  match v with PStr t => Ok t | _ => Raise TypeError end.

(** [int(t)] for a string. *)
Definition int_of_target (t : string) : result Z :=
  match PyStr.int_str t with Some n => Ok n | None => Raise ValueError end.

(** The sort key of a target: [extract_numeric_freq(x)] or [int(x)]. *)
Definition target_key (is_pci_mode : bool) (t : string) : result Z :=
  if negb is_pci_mode then Ok (extract_numeric_freq t) else int_of_target t.

Definition make_feature (inputs : Inputs) (is_pci_mode : bool)
    (all_headers : list string) (row_data : RowData) : result Feature :=
  attrs ← mapM (λ h, v ← getitem row_data h; Ok (h, py_str v)) all_headers;
  radius ← getitem row_data "_radius";
  beam ← getitem row_data "_beam";
  md ← (if is_pci_mode
        then t ← target_val row_data; n ← int_of_target t; Ok (Some n)
        else Ok None);
  geom ← getitem row_data "_geom";
  Ok {| fet_attributes := attrs; fet_gen_radius := radius;
        fet_gen_beam := beam; fet_mod := md; fet_geometry := geom |}.

(** The colour of one target in the symbology loop. *)
Definition col_hex_of (inputs : Inputs) (is_pci_mode : bool)
    (target : string) : result string :=
  if negb is_pci_mode then
    Ok (default GRAY (band_colors (band_params inputs) !! target))
  else
    idx ← int_of_target target;
    if idx <? 6 then list_getitem (pci_colors (pci_params inputs)) idx
    else Ok GRAY.

Definition make_category (inputs : Inputs) (is_pci_mode : bool)
    (opacity_float : float) (target : string) : result Category :=
  col_hex ← col_hex_of inputs is_pci_mode target;
  Ok {| cat_value := target; cat_color := col_hex;
        cat_opacity := opacity_float;
        cat_label := if is_pci_mode then "Mod " +:+ target else target |}.

Definition mod_field (inputs : Inputs) : string :=
  "Mod_" +:+ PyStr.str_int (mod_type (pci_params inputs)).
End Run.

(** ** The dialog: the widgets [get_inputs] reads *)

(** [combos] holds the current text of the eight column combo boxes. *)
Record Dialog := {
  file_widget : string;
  combos : Cols;
  txt_radius : string; txt_beam : string;
  tabs : Z;
  combo_mod : Z;
  dynamic_color_widgets : gmap string string;
  btn_pci_colors : list string;
  spin_opacity_band : Z;
  spin_opacity_pci : Z;
  combo_format : string;
  save_widget : string
}.

(** The state [setup_ui] leaves: default texts, the six PCI colour buttons
    of [_setup_pci_tab] with [Qt.red, Qt.yellow, Qt.blue, Qt.green,
    Qt.magenta, Qt.cyan]. *)
Definition setup_ui : Dialog := {|
  file_widget := "";
  combos := {| col_site := SELECT_COLUMN; col_lat := SELECT_COLUMN;
               col_lon := SELECT_COLUMN; col_azim := SELECT_COLUMN;
               col_radius := USE_MANUAL; col_beam := USE_MANUAL;
               col_band := SELECT_COLUMN; col_pci := SELECT_COLUMN |};
  txt_radius := "200"; txt_beam := "65";
  tabs := 0;
  combo_mod := 0;
  dynamic_color_widgets := ∅;
  btn_pci_colors :=
    ["#ff0000"; "#ffff00"; "#0000ff"; "#00ff00"; "#ff00ff"; "#00ffff"];
  spin_opacity_band := 50;
  spin_opacity_pci := 60;
  combo_format := "ESRI Shapefile (.shp)";
  save_widget := ""
|}.

(** What the user can do before accepting the dialog.  A spin box keeps its
    value inside its range [0, 100]; the two tabs and the two entries of the
    audit-mode combo box are chosen by index 0 or 1; a colour button of the
    PCI tab is one of the six created by [_setup_pci_tab]. *)
Inductive user_action :=
  | ChooseFile (path : string)
  | ChooseColumns (c : Cols)
  | TypeManual (radius beam : string)
  | ChooseTab (second : bool)
  | ChooseMod (mod6 : bool)
  | PickBandColors (colors : gmap string string)
  | PickPciColor (i : nat) (color : string)
  | SpinOpacityBand (v : Z)
  | SpinOpacityPci (v : Z)
  | ChooseExport (fmt path : string).

Definition clamp_percent (v : Z) : Z := Z.max 0 (Z.min 100 v).

Definition dialog_step (d : Dialog) (a : user_action) : Dialog :=
  match a with
  | ChooseFile path =>
      {| file_widget := path; combos := combos d;
         txt_radius := txt_radius d; txt_beam := txt_beam d;
         tabs := tabs d; combo_mod := combo_mod d;
         dynamic_color_widgets := dynamic_color_widgets d;
         btn_pci_colors := btn_pci_colors d;
         spin_opacity_band := spin_opacity_band d;
         spin_opacity_pci := spin_opacity_pci d;
         combo_format := combo_format d; save_widget := save_widget d |}
  | ChooseColumns c =>
      {| file_widget := file_widget d; combos := c;
         txt_radius := txt_radius d; txt_beam := txt_beam d;
         tabs := tabs d; combo_mod := combo_mod d;
         dynamic_color_widgets := dynamic_color_widgets d;
         btn_pci_colors := btn_pci_colors d;
         spin_opacity_band := spin_opacity_band d;
         spin_opacity_pci := spin_opacity_pci d;
         combo_format := combo_format d; save_widget := save_widget d |}
  | TypeManual radius beam =>
      {| file_widget := file_widget d; combos := combos d;
         txt_radius := radius; txt_beam := beam; tabs := tabs d;
         combo_mod := combo_mod d;
         dynamic_color_widgets := dynamic_color_widgets d;
         btn_pci_colors := btn_pci_colors d;
         spin_opacity_band := spin_opacity_band d;
         spin_opacity_pci := spin_opacity_pci d;
         combo_format := combo_format d; save_widget := save_widget d |}
  | ChooseTab second =>
      {| file_widget := file_widget d; combos := combos d;
         txt_radius := txt_radius d; txt_beam := txt_beam d;
         tabs := (if second then 1 else 0); combo_mod := combo_mod d;
         dynamic_color_widgets := dynamic_color_widgets d;
         btn_pci_colors := btn_pci_colors d;
         spin_opacity_band := spin_opacity_band d;
         spin_opacity_pci := spin_opacity_pci d;
         combo_format := combo_format d; save_widget := save_widget d |}
  | ChooseMod mod6 =>
      {| file_widget := file_widget d; combos := combos d;
         txt_radius := txt_radius d; txt_beam := txt_beam d;
         tabs := tabs d; combo_mod := (if mod6 then 1 else 0);
         dynamic_color_widgets := dynamic_color_widgets d;
         btn_pci_colors := btn_pci_colors d;
         spin_opacity_band := spin_opacity_band d;
         spin_opacity_pci := spin_opacity_pci d;
         combo_format := combo_format d; save_widget := save_widget d |}
  | PickBandColors colors =>
      {| file_widget := file_widget d; combos := combos d;
         txt_radius := txt_radius d; txt_beam := txt_beam d;
         tabs := tabs d; combo_mod := combo_mod d;
         dynamic_color_widgets := colors;
         btn_pci_colors := btn_pci_colors d;
         spin_opacity_band := spin_opacity_band d;
         spin_opacity_pci := spin_opacity_pci d;
         combo_format := combo_format d; save_widget := save_widget d |}
  | PickPciColor i color =>
      {| file_widget := file_widget d; combos := combos d;
         txt_radius := txt_radius d; txt_beam := txt_beam d;
         tabs := tabs d; combo_mod := combo_mod d;
         dynamic_color_widgets := dynamic_color_widgets d;
         btn_pci_colors := <[i := color]> (btn_pci_colors d);
         spin_opacity_band := spin_opacity_band d;
         spin_opacity_pci := spin_opacity_pci d;
         combo_format := combo_format d; save_widget := save_widget d |}
  | SpinOpacityBand v =>
      {| file_widget := file_widget d; combos := combos d;
         txt_radius := txt_radius d; txt_beam := txt_beam d;
         tabs := tabs d; combo_mod := combo_mod d;
         dynamic_color_widgets := dynamic_color_widgets d;
         btn_pci_colors := btn_pci_colors d;
         spin_opacity_band := clamp_percent v;
         spin_opacity_pci := spin_opacity_pci d;
         combo_format := combo_format d; save_widget := save_widget d |}
  | SpinOpacityPci v =>
      {| file_widget := file_widget d; combos := combos d;
         txt_radius := txt_radius d; txt_beam := txt_beam d;
         tabs := tabs d; combo_mod := combo_mod d;
         dynamic_color_widgets := dynamic_color_widgets d;
         btn_pci_colors := btn_pci_colors d;
         spin_opacity_band := spin_opacity_band d;
         spin_opacity_pci := clamp_percent v;
         combo_format := combo_format d; save_widget := save_widget d |}
  | ChooseExport fmt path =>
      {| file_widget := file_widget d; combos := combos d;
         txt_radius := txt_radius d; txt_beam := txt_beam d;
         tabs := tabs d; combo_mod := combo_mod d;
         dynamic_color_widgets := dynamic_color_widgets d;
         btn_pci_colors := btn_pci_colors d;
         spin_opacity_band := spin_opacity_band d;
         spin_opacity_pci := spin_opacity_pci d; combo_format := fmt;
         save_widget := path |}
  end.

(** The dialog after a sequence of user actions. *)
Definition dialog_after (actions : list user_action) : Dialog :=
  foldl dialog_step setup_ui actions.

Section GetInputs.
Context `{Runtime}.

(** [float(text) if text else dflt] *)
Definition float_or (text : string) (dflt : float) : result float :=
  match text with
  | "" => Ok dflt
  | _ => float_cell (Some text)
  end.

Definition get_inputs (d : Dialog) : result Inputs :=
  radius ← float_or (txt_radius d) (Finite 200);
  beam ← float_or (txt_beam d) (Finite 65);
  mt ← list_getitem [3; 6] (combo_mod d);
  Ok {| file_path := file_widget d;
        cols := combos d;
        manual := {| manual_radius := radius; manual_beam := beam |};
        active_tab := tabs d;
        band_params := {| band_colors := dynamic_color_widgets d;
                          band_opacity := spin_opacity_band d |};
        pci_params := {| mod_type := mt;
                         pci_colors := btn_pci_colors d;
                         pci_opacity := spin_opacity_pci d |};
        format := combo_format d;
        save_path := save_widget d |}.
End GetInputs.

(** ** [run] *)

(** The surroundings of one run: whether the dialog was accepted and
    the state of its widgets then, what [open] finds at a path ([None]: [IOError]),
    whether the progress dialog reports a cancel at row [i], and whether the
    KML file can be written.  The outcome of a run is what it did to the
    outside, the exception that left [run] if one did, and whether the run
    came to its end within the fuel. *)
Record World := {
  dlg_exec : bool;
  dialog : Dialog;
  open_csv : string → option CsvFile;
  was_canceled : nat → bool;
  kml_writable : bool
}.

Record run_result := {
  events : list event; raised : option exn; ended : bool
}.

Definition returns (evs : list event) : run_result :=
  {| events := evs; raised := None; ended := true |}.
Definition crashes (evs : list event) (e : exn) : run_result :=
  {| events := evs; raised := Some e; ended := true |}.
Definition unfinished (evs : list event) : run_result :=
  {| events := evs; raised := None; ended := false |}.

Section Main.
Context `{Runtime}.

(** From the sort of [data_list] to the renderer: everything [run] computes
    between the "no data" check and [addMapLayer]. *)
Definition build_layer (inputs : Inputs) (is_pci_mode : bool)
    (all_headers : list string) (data_list : list RowData)
    : result (list RowData * Layer * gmap string string) :=
  data_list ← sort_by_key
    (λ x, t ← target_val x; target_key is_pci_mode t) data_list;
  let name := if is_pci_mode then "Site_Sector_PCI_Audit" else "Site_Sector" in
  let fields :=
    (all_headers ++ ["Gen_Radius"; "Gen_Beam"]
       ++ (if is_pci_mode then [mod_field inputs] else []))%list in
  features ← mapM (make_feature inputs is_pci_mode all_headers) data_list;
  targets ← mapM target_val data_list;
  unique_targets ← sort_by_key (target_key is_pci_mode) (set_list targets);
  let opacity_float :=
    fdivc (float_of_int (if is_pci_mode then pci_opacity (pci_params inputs)
                         else band_opacity (band_params inputs))) 100 in
  categories ←
    mapM (make_category inputs is_pci_mode opacity_float) unique_targets;
  let final_colors_map :=
    foldl (λ (m : gmap string string) c, <[cat_value c := cat_color c]> m)
      ∅ categories in
  let target_field :=
    if is_pci_mode then mod_field inputs else col_band (cols inputs) in
  Ok (data_list,
      {| layer_name := name; layer_fields := fields;
         layer_features := features; layer_target_field := target_field;
         layer_categories := categories |},
      final_colors_map).

(** The export block: [if save_path: ...]. *)
Definition export_events (inputs : Inputs) (is_pci_mode : bool)
    (all_headers : list string) (data_list : list RowData)
    (final_colors_map : gmap string string) (writable : bool)
    : list event :=
  match save_path inputs with
  | "" => []
  | path =>
      let fmt := PyStr.lower (format inputs) in
      (if str_in "shp" fmt then
         [WriteVectorFile "ESRI Shapefile" path; SaveNamedStyle path]
       else if str_in "tab" fmt then [WriteVectorFile "MapInfo File" path]
       else if str_in "kml" fmt then
         match export_to_kml data_list inputs all_headers final_colors_map
                 is_pci_mode with
         | Ok doc =>
             if writable then [WriteKml path doc]
             else [MsgCritical "KML Export Error"]
         | _ => [MsgCritical "KML Export Error"]
         end
       else [])
      ++ [OpenUrl path]
  end.

(** The first pass, which ranks the bands: [None] when the file cannot be
    read. *)
Definition first_pass (w : World) (inputs : Inputs) : option (list string) :=
  if decide (col_band (cols inputs) = SELECT_COLUMN) then Some []
  else
    match open_csv w (file_path inputs) with
    | Some f => Some (rank_bands (col_band (cols inputs)) (csv_rows f))
    | None => None
    end.

Definition run (fuel : nat) (w : World) : run_result :=
  if negb (dlg_exec w) then returns []
  else
    match get_inputs (dialog w) with
    | Raise e => crashes [] e
    | Unfinished => unfinished []
    | Ok inputs =>
    let c := cols inputs in
    if bool_decide (SELECT_COLUMN ∈ [col_lat c; col_lon c; col_azim c])
    then returns [MsgWarning "Mapping Error"
                    "Latitude, Longitude, and Azimuth columns are required."]
    else
    let is_pci_mode := bool_decide (active_tab inputs = 1) in
    if is_pci_mode && bool_decide (col_pci c = SELECT_COLUMN)
    then returns [MsgWarning "PCI Mapping"
                    "Please select the PCI Column in Tab 2."]
    else
    if negb is_pci_mode && bool_decide (col_band c = SELECT_COLUMN)
    then returns [MsgWarning "Band Mapping"
                    "Please select the Band/Freq Column in Tab 1."]
    else
    match first_pass w inputs with
    | None => returns [MsgCritical "File Error"]
    | Some sorted_bands_list =>
    match open_csv w (file_path inputs) with
    | None => crashes [] IOError
    | Some f =>
    let all_headers := fieldnames f in
    match scan_rows fuel inputs is_pci_mode sorted_bands_list
            (was_canceled w) 0 (csv_rows f) [] with
    | ScanCancelled =>
        returns [MsgInformation "Cancelled" "Process cancelled by user."]
    | ScanRaised e => crashes [] e
    | ScanUnfinished => unfinished []
    | ScanDone [] =>
        returns [MsgWarning "Data Error"
                   "No valid sectors could be generated from the dataset."]
    | ScanDone data_list =>
        match build_layer inputs is_pci_mode all_headers data_list with
        | Raise e => crashes [] e
        | Unfinished => unfinished []
        | Ok (data_list, vl, final_colors_map) =>
            returns
              ([AddMapLayer vl]
               ++ export_events inputs is_pci_mode all_headers data_list
                    final_colors_map (kml_writable w)
               ++ [MsgInformation "Success"
                     ("Successfully generated "
                      +:+ PyStr.str_int (Z.of_nat (length data_list))
                      +:+ " site sectors.")])
        end
    end end end end.
End Main.

(** ** A reference runtime

    An instance of [Runtime] on which the model runs.  The decimal digits
    are those of Unicode 14; [float()] reads plain decimal literals
    (optional sign, digits, optional fraction) and the words [inf],
    [infinity] and [nan], and rounds to binary64; the trigonometric
    functions are short Taylor polynomials, rounded; a finite float prints as
    a fraction; and a set enumerates its elements in first-insertion
    order. *)

Module RefRuntime.

(** The code point of the digit zero of each decimal digit range. *)
Definition nd_zeros : list N :=
  [48; 1632; 1776; 1984; 2406; 2534; 2662; 2790; 2918; 3046; 3174; 3302;
   3430; 3558; 3664; 3792; 3872; 4160; 4240; 6112; 6160; 6470; 6608; 6784;
   6800; 6992; 7088; 7232; 7248; 42528; 43216; 43264; 43472; 43504; 43600;
   44016; 65296; 66720; 68912; 69734; 69872; 69942; 70096; 70384; 70736;
   70864; 71248; 71360; 71472; 71904; 72016; 72784; 73040; 73120; 92768;
   92864; 93008; 120782; 120792; 120802; 120812; 120822; 123200; 123632;
   125264; 130032]%N.

Definition decimal_of (c : N) : option Z :=
  (λ z, Z.of_N c - Z.of_N z)
    <$> find (λ z, (z <=? c) && (c <? z + 10))%N nd_zeros.

(** [s] cut at its first [.]: the part before it and, when there is a
    point, the part after it. *)
Fixpoint split_point (s : string) : string * option string :=
  match s with
  | "" => ("", None)
  | String c s' =>
      if decide (c = "."%char) then ("", Some s')
      else let (a, b) := split_point s' in (String c a, b)
  end.

Definition unsigned_decimal (s : string) : option Q :=
  let (ip, fp) := split_point s in
  let fp := default "" fp in
  if PyStr.all_digits ip && PyStr.all_digits fp
     && negb (bool_decide (ip +:+ fp = ""))
  then Some (PyStr.int_digits 0 (ip +:+ fp)
             # Z.to_pos (10 ^ Z.of_nat (String.length fp)))%Q
  else None.

Definition unsigned_float (s : string) : option float :=
  match PyStr.lower s with
  | "inf" | "infinity" => Some (Inf false)
  | "nan" => Some NaN
  | _ => round64 <$> unsigned_decimal s
  end.

Definition parse_float (s : string) : option float :=
  match PyStr.strip s with
  | String "-" d => fneg <$> unsigned_float d
  | String "+" d => unsigned_float d
  | d => unsigned_float d
  end.

(** The rational of a finite float. *)
Definition rational (x : float) : Q :=
  match x with Finite q => q | _ => 0%Q end.

Definition radians (x : Q) : Q :=
  rational (round64 (x * (355 # 113) / 180)%Q).
Definition cos (x : Q) : Q :=
  rational (round64 (1 - x * x / 2 + x * x * x * x / 24)%Q).
Definition sin (x : Q) : Q :=
  rational (round64 (x - x * x * x / 6 + x * x * x * x * x / 120)%Q).

Definition show_float (x : float) : string :=
  match x with
  | Finite q =>
      PyStr.str_int (Qnum q) +:+ "/" +:+ PyStr.str_int (Z.pos (Qden q))
  | Inf false => "inf"
  | Inf true => "-inf"
  | NaN => "nan"
  end.

Definition show_geom (ring : list QgsPointXY) : string := "<QgsGeometry>".

Definition decimal_of_ascii (c : N) :
  (c < 128)%N →
  decimal_of c
  = if ((48 <=? c) && (c <=? 57))%N then Some (Z.of_N c - 48) else None.
Proof.
  intros Hc.
  set (agree := λ n : nat,
         let c := N.of_nat n in
         match decimal_of c,
               (if ((48 <=? c) && (c <=? 57))%N then Some (Z.of_N c - 48)
                else None) with
         | Some a, Some b => a =? b
         | None, None => true
         | _, _ => false
         end).
  assert (List.forallb agree (seq 0 128) = true) as Hall
    by (vm_compute; reflexivity).
  rewrite List.forallb_forall in Hall.
  assert (In (N.to_nat c) (seq 0 128)) as Hin by (apply in_seq; lia).
  specialize (Hall _ Hin). unfold agree in Hall.
  rewrite N2Nat.id in Hall. cbv zeta in Hall.
  destruct (decimal_of c) as [a|],
    (if ((48 <=? c) && (c <=? 57))%N then Some (Z.of_N c - 48) else None)
    as [b|]; try done.
  f_equal. by apply Z.eqb_eq.
Qed.

#[export] Instance runtime : Runtime := {|
  unicode_decimal := decimal_of;
  unicode_decimal_ascii := decimal_of_ascii;
  py_float := parse_float;
  radians_fin := radians;
  cos_fin := cos;
  sin_fin := sin;
  str_float := show_float;
  str_geom := show_geom;
  set_list := remove_dups;
  set_list_NoDup := NoDup_remove_dups;
  set_list_elem := λ l x, elem_of_remove_dups l x
|}.

End RefRuntime.

(** ** Vocabulary of the specification *)

(** Digit runs of a label.  [run] is a maximal digit run of [s] when the
    code points of [s] are [pre ++ run ++ post], [run] is a non-empty
    sequence of decimal digits, [pre] does not end with a digit and [post]
    does not start with one. *)
Definition has_digit `{Runtime} (s : string) : bool :=
  existsb is_decimal (PyStr.codepoints s).

Definition starts_with_digit `{Runtime} (l : list N) : bool :=
  match l with c :: _ => is_decimal c | [] => false end.

Definition ends_with_digit `{Runtime} (l : list N) : bool :=
  match last l with Some c => is_decimal c | None => false end.

Inductive maximal_digit_run `{Runtime} (s : string) (run : list N) : Prop :=
  | MaxRun (pre post : list N) :
      PyStr.codepoints s = (pre ++ run ++ post)%list →
      run ≠ [] →
      forallb is_decimal run = true →
      ends_with_digit pre = false →
      starts_with_digit post = false →
      maximal_digit_run s run.

(** The numeric value of a run of digits. *)
Definition numeric_value `{Runtime} (run : list N) : Z := int_decimal 0 run.

(** A beamwidth that is a whole number of 3-degree steps. *)
Definition multiple_of_3 (beam : float) : Prop :=
  ∃ (q : Q) (k : Z), beam = Finite q ∧ (q == 3 * inject_Z k)%Q.

(** The reading of the sweep in which the last emitted vertex lies beyond
    the end angle [azim + beam / 2]. *)
Definition final_vertex_overshoots (fuel : nat) (azim beam : float) : Prop :=
  ∃ final, last (wedge_angles fuel azim beam) = Some final
           ∧ flt (fadd azim (fdivc beam 2)) final = true.

(** ** Scenarios

    Concrete configurations and rows, run on the reference runtime. *)

Module Scenario.

(** PCI audit: radius and beam are manual, no band column is mapped. *)
Definition pci_cols : Cols := {|
  col_site := "site"; col_lat := "lat"; col_lon := "lon";
  col_azim := "azim"; col_radius := USE_MANUAL; col_beam := USE_MANUAL;
  col_band := SELECT_COLUMN; col_pci := "pci"
|}.

(** The user maps the columns, types a manual radius of 5 and a beam of 65,
    opens the PCI tab and asks for a KML file. *)
Definition pci_actions : list user_action :=
  [ChooseFile "sites.csv"; ChooseColumns pci_cols; TypeManual "5" "65";
   ChooseTab true; ChooseExport "Google Earth (.kml)" "out.kml"].

Definition pci_inputs : Inputs := {|
  file_path := "sites.csv";
  cols := pci_cols;
  manual := {| manual_radius := Finite 5; manual_beam := Finite 65 |};
  active_tab := 1;
  band_params := {| band_colors := ∅; band_opacity := 50 |};
  pci_params := {| mod_type := 3;
                   pci_colors := btn_pci_colors setup_ui;
                   pci_opacity := 60 |};
  format := "Google Earth (.kml)";
  save_path := "out.kml"
|}.

Definition pci_row : RawRow :=
  list_to_map [("site", Some "S1"); ("lat", Some "1.5"); ("lon", Some "2");
               ("azim", Some "90"); ("pci", Some "5")].

Definition pci_row_negative : RawRow :=
  list_to_map [("site", Some "S1"); ("lat", Some "1.5"); ("lon", Some "2");
               ("azim", Some "90"); ("pci", Some "-1.5")].

(** Band styling: the radius is manual, the beam comes from a column. *)
Definition band_cols : Cols := {|
  col_site := "site"; col_lat := "lat"; col_lon := "lon";
  col_azim := "azim"; col_radius := USE_MANUAL; col_beam := "beam";
  col_band := "band"; col_pci := SELECT_COLUMN
|}.

Definition band_actions : list user_action :=
  [ChooseFile "sites.csv"; ChooseColumns band_cols; TypeManual "200" ""].

Definition band_inputs : Inputs := {|
  file_path := "sites.csv";
  cols := band_cols;
  manual := {| manual_radius := Finite 200; manual_beam := Finite 65 |};
  active_tab := 0;
  band_params := {| band_colors := ∅; band_opacity := 50 |};
  pci_params := {| mod_type := 3;
                   pci_colors := btn_pci_colors setup_ui;
                   pci_opacity := 60 |};
  format := "ESRI Shapefile (.shp)";
  save_path := ""
|}.

Definition band_row (band beam : string) : RawRow :=
  list_to_map [("site", Some "S1"); ("lat", Some "1.5"); ("lon", Some "2");
               ("azim", Some "90"); ("beam", Some beam);
               ("band", Some band)].


Definition short_row : RawRow :=
  list_to_map [("site", Some "S3"); ("lat", Some "1.5"); ("lon", Some "2");
               ("azim", None); ("beam", None); ("band", None)].

Definition headers : list string :=
  ["site"; "lat"; "lon"; "azim"; "beam"; "band"].


(** A PCI audit on a file that cannot be read. *)
Definition unreadable_pci_world : World := {|
  dlg_exec := true;
  dialog := dialog_after pci_actions;
  open_csv := λ _, None;
  was_canceled := λ _, false;
  kml_writable := true
|}.

(** Band styling with the site column left unselected, on a file with one
    good row. *)
Definition no_site_cols : Cols := {|
  col_site := SELECT_COLUMN; col_lat := "lat"; col_lon := "lon";
  col_azim := "azim"; col_radius := USE_MANUAL; col_beam := "beam";
  col_band := "band"; col_pci := SELECT_COLUMN
|}.

Definition good_file : CsvFile :=
  {| fieldnames := headers;
     csv_rows := [band_row "LTE2100" "65"; band_row "LTE1800" "30"] |}.

Definition no_site_world : World := {|
  dlg_exec := true;
  dialog := dialog_after [ChooseFile "sites.csv"; ChooseColumns no_site_cols];
  open_csv := λ path,
    if decide (path = "sites.csv") then Some good_file else None;
  was_canceled := λ _, false;
  kml_writable := true
|}.

(** Band styling of the same file with every column mapped, and a PCI audit
    with a KML export. *)
Definition good_band_world : World := {|
  dlg_exec := true;
  dialog := dialog_after band_actions;
  open_csv := λ path,
    if decide (path = "sites.csv") then Some good_file else None;
  was_canceled := λ _, false;
  kml_writable := true
|}.

Definition pci_file : CsvFile :=
  {| fieldnames := ["site"; "lat"; "lon"; "azim"; "pci"];
     csv_rows := [pci_row; pci_row_negative] |}.

Definition good_pci_world : World := {|
  dlg_exec := true;
  dialog := dialog_after pci_actions;
  open_csv := λ path,
    if decide (path = "sites.csv") then Some pci_file else None;
  was_canceled := λ _, false;
  kml_writable := true
|}.

(** A PCI audit on a file whose one row has the PCI value [inf]. *)
Definition pci_inf_row : RawRow :=
  list_to_map [("site", Some "S1"); ("lat", Some "1.5"); ("lon", Some "2");
               ("azim", Some "90"); ("pci", Some "inf")].

Definition pci_inf_world : World := {|
  dlg_exec := true;
  dialog := dialog_after pci_actions;
  open_csv := λ path,
    if decide (path = "sites.csv")
    then Some {| fieldnames := ["site"; "lat"; "lon"; "azim"; "pci"];
                 csv_rows := [pci_inf_row] |}
    else None;
  was_canceled := λ _, false;
  kml_writable := true
|}.

End Scenario.

(** The invariant of the dialog that the PCI colouring relies on: six colour
    buttons, and one of the two audit modes selected. *)
Definition dialog_inv (d : Dialog) : Prop :=
  length (btn_pci_colors d) = 6%nat
  ∧ (combo_mod d = 0 ∨ combo_mod d = 1)
  ∧ 0 ≤ spin_opacity_band d ≤ 100
  ∧ 0 ≤ spin_opacity_pci d ≤ 100.

(** Colours.  [is_hex_pair s]: [s] is two hexadecimal digits, one channel of
    [#RRGGBB]. *)
Definition is_hex (c : ascii) : bool :=
  let n := nat_of_ascii c in
  ((48 <=? n) && (n <=? 57) || (65 <=? n) && (n <=? 70)
   || (97 <=? n) && (n <=? 102))%nat.

Definition is_hex_pair (s : string) : bool :=
  match s with
  | String a (String b "") => is_hex a && is_hex b
  | _ => false
  end.

(** The two upper-case hexadecimal digits of a byte. *)
Definition two_hex (a : Z) : string :=
  String (PyStr.hex_digit (a / 16)) (String (PyStr.hex_digit (a mod 16)) "").

(** Python's [round(x)]: to the nearest integer, a tie to the even one. *)
Definition py_round (x : Q) : Z :=
  let f := Qfloor x in
  match (x - inject_Z f ?= 1 # 2)%Q with
  | Lt => f
  | Gt => f + 1
  | Eq => if Z.even f then f else f + 1
  end.

(** The fill colour in the specification's words: the alpha byte is
    [round(opacity_pct / 100 * 255)] as two hexadecimal digits, followed by
    the blue, green and red channels of [#RRGGBB]. *)
Definition kml_color_as_specified (r g b : string) (opacity_pct : Z) : string :=
  PyStr.lower
    (two_hex (py_round (inject_Z opacity_pct / 100 * 255)%Q) +:+ b +:+ g +:+ r).

(** Keys of [row_data] that hold a derived value which is not the text of a
    cell. *)
Definition derived_keys : list string :=
  ["_lat"; "_lon"; "_azim"; "_radius"; "_beam"; "_target_val"; "_geom"].

(** The placemark name in the specification's words: the site id, one
    underscore and the target, XML-escaped. *)
Definition name_as_specified `{Runtime} (site target : string) : string :=
  escape_xml (PStr site) +:+ "_" +:+ escape_xml (PStr target).

(** Rows.  The records of the rows that go through the [try] body without
    an exception, in order. *)
Definition valid_records `{Runtime} (fuel : nat) (inputs : Inputs)
    (is_pci_mode : bool) (sorted_bands_list : list string)
    (rows : list RawRow) : list RowData :=
  omap (λ row,
          match process_row fuel inputs is_pci_mode sorted_bands_list row with
          | Ok row_data => Some row_data
          | _ => None
          end) rows.

(** A row the scan gets past: its [try] body returns a record or raises
    an exception that the [except] clause catches. *)
Definition row_processed `{Runtime} (fuel : nat) (inputs : Inputs)
    (is_pci_mode : bool) (sorted_bands_list : list string) (row : RawRow)
    : Prop :=
  match process_row fuel inputs is_pci_mode sorted_bands_list row with
  | Ok _ => True
  | Raise e => caught e = true
  | Unfinished => False
  end.

(** The columns a row is read from: those parsed as numbers and those taken
    as text. *)
Definition numeric_columns (inputs : Inputs) (is_pci_mode : bool)
    : list string :=
  [col_lat (cols inputs); col_lon (cols inputs); col_azim (cols inputs)]
  ++ (if decide (col_radius (cols inputs) = USE_MANUAL) then []
      else [col_radius (cols inputs)])
  ++ (if decide (col_beam (cols inputs) = USE_MANUAL) then []
      else [col_beam (cols inputs)])
  ++ (if is_pci_mode then [col_pci (cols inputs)] else []).

Definition text_columns (inputs : Inputs) (is_pci_mode : bool)
    : list string :=
  col_site (cols inputs)
  :: (if is_pci_mode then [] else [col_band (cols inputs)]).

(** A numeric field that is missing (no such column), of the wrong type
    ([None], from a short line) or not a number. *)
Definition malformed_number `{Runtime} (row : RawRow) (c : string) : Prop :=
  row !! c = None
  ∨ row !! c = Some None
  ∨ ∃ s, row !! c = Some (Some s) ∧ py_float s = None.

Definition no_data_warning : event :=
  MsgWarning "Data Error"
    "No valid sectors could be generated from the dataset.".

(** ** More of the plugin *)

(** [update_pci_ui] of the dialog: the visibility it gives the six colour
    buttons of the PCI tab (and their labels) for the selected audit mode,
    [show_it = (mod_idx == 0 and i < 3) or (mod_idx == 1 and i < 6)] for
    [i in range(6)]. *)
Definition update_pci_ui (mod_idx : Z) : list bool :=
  map (λ i : Z, (mod_idx =? 0) && (i <? 3) || (mod_idx =? 1) && (i <? 6))
    [0; 1; 2; 3; 4; 5].

(** The legend image of [export_to_kml]: its size, its title and, for each
    of the first 30 targets, the rectangle [drawRect(10, y_pos, 20, 15)]
    filled with the target's colour and the label drawn at
    [(40, y_pos + 12)]. *)
Record LegendRow := {
  row_y : Z; row_color : string; row_label : string
}.

Record LegendImage := {
  img_w : Z; img_h : Z; legend_title : string; legend_rows : list LegendRow
}.

(** [for t in legend_items: ...; y_pos += 25] *)
Fixpoint draw_legend_rows (colors_map : gmap string string)
    (is_pci_mode : bool) (y_pos : Z) (legend_items : list string)
    : list LegendRow :=
  match legend_items with
  | [] => []
  | t :: rest =>
      {| row_y := y_pos;
         row_color := default GRAY (colors_map !! t);
         row_label := if is_pci_mode then "Mod " +:+ t else t |}
      :: draw_legend_rows colors_map is_pci_mode (y_pos + 25) rest
  end.

Definition legend_image (sorted_targets : list string)
    (colors_map : gmap string string) (is_pci_mode : bool) : LegendImage :=
  let legend_items := take 30 sorted_targets in
  {| img_w := 150;
     img_h := 40 + Z.of_nat (length legend_items) * 25;
     legend_title := if is_pci_mode then "PCI AUDIT" else "LEGEND";
     legend_rows := draw_legend_rows colors_map is_pci_mode 30 legend_items |}.

(** [generate_dynamic_bands] of the dialog: the bands that get a colour
    button, [if val := row.get(col_name): if str(val).strip():
    unique_bands.add(str(val).strip())], sorted by the frequency key
    ([extract_freq] there is the same function as [extract_numeric_freq]),
    each with the default colour [default_colors[i % 8]]. *)
Definition default_band_colors : list string :=
  ["#ff0000"; "#00ff00"; "#0000ff"; "#ff00ff"; "#00ffff"; "#ffff00";
   "#008000"; "#000080"].

Definition dialog_band_values (col_name : string) (rows : list RawRow)
    : list string :=
  omap (λ row : RawRow,
          match row !! col_name with
          | Some (Some val) =>
              match val with
              | "" => None
              | _ => match PyStr.strip val with
                     | "" => None
                     | b => Some b
                     end
              end
          | _ => None
          end) rows.

Definition generate_dynamic_bands `{Runtime} (col_name : string)
    (rows : list RawRow) : list (string * string) :=
  let sorted_bands :=
    py_sorted extract_numeric_freq
      (set_list (dialog_band_values col_name rows)) in
  imap (λ i band,
          (band,
           default "" (default_band_colors
                         !! (i mod length default_band_colors)%nat)))
    sorted_bands.

(** [str.__contains__] for one character. *)
Fixpoint str_has (c : ascii) (s : string) : bool :=
  match s with
  | "" => false
  | String a s' => bool_decide (a = c) || str_has c s'
  end.

(** A file as [csv.DictReader] yields it: every row has a cell ([str] or
    [None]) for every field name. *)
Definition csv_well_formed (f : CsvFile) : Prop :=
  Forall (λ row : RawRow, ∀ h, h ∈ fieldnames f → is_Some (row !! h))
    (csv_rows f).

(** The three mapping checks [run] makes before it reads the file. *)
Definition mappings_valid (inputs : Inputs) : Prop :=
  (SELECT_COLUMN ∉ [col_lat (cols inputs); col_lon (cols inputs);
                    col_azim (cols inputs)])
  ∧ (if bool_decide (active_tab inputs = 1)
     then col_pci (cols inputs) ≠ SELECT_COLUMN
     else col_band (cols inputs) ≠ SELECT_COLUMN).

(** What [run] does once the scan of the rows has ended. *)
Definition after_scan `{Runtime} (w : World) (inputs : Inputs)
    (is_pci_mode : bool) (all_headers : list string)
    (outcome : scan_outcome) : run_result :=
  match outcome with
  | ScanCancelled =>
      returns [MsgInformation "Cancelled" "Process cancelled by user."]
  | ScanRaised e => crashes [] e
  | ScanUnfinished => unfinished []
  | ScanDone [] => returns [no_data_warning]
  | ScanDone data_list =>
      match build_layer inputs is_pci_mode all_headers data_list with
      | Raise e => crashes [] e
      | Unfinished => unfinished []
      | Ok (data_list, vl, final_colors_map) =>
          returns
            ([AddMapLayer vl]
             ++ export_events inputs is_pci_mode all_headers data_list
                  final_colors_map (kml_writable w)
             ++ [MsgInformation "Success"
                   ("Successfully generated "
                    +:+ PyStr.str_int (Z.of_nat (length data_list))
                    +:+ " site sectors.")])
      end
  end.

(** A record on which nothing of the assembly can raise: its target is a
    string with a sort key and a colour, and its feature can be built. *)
Definition record_ready `{Runtime} (inputs : Inputs) (is_pci_mode : bool)
    (all_headers : list string) (row_data : RowData) : Prop :=
  ∃ t k c fet,
    target_val row_data = Ok t
    ∧ target_key is_pci_mode t = Ok k
    ∧ col_hex_of inputs is_pci_mode t = Ok c
    ∧ make_feature inputs is_pci_mode all_headers row_data = Ok fet.

(** [a] comes before [b] in the order of the keys. *)
Definition key_le {A : Type} (key : A → result Z) (a b : A) : Prop :=
  ∃ ka kb, key a = Ok ka ∧ key b = Ok kb ∧ ka ≤ kb.

(** The sort key of a record: that of its target. *)
Definition record_key `{Runtime} (is_pci_mode : bool) (row_data : RowData)
    : result Z :=
  t ← target_val row_data; target_key is_pci_mode t.

(** * Properties *)

(** ** Strings *)

Module PyStrFacts.
Import PyStr.

Lemma sapp_cons (a : ascii) (s t : string) :
  String a s +:+ t = String a (s +:+ t).
Proof. reflexivity. Qed.

Lemma sapp_nil_l (s : string) : "" +:+ s = s.
Proof. reflexivity. Qed.

Lemma sapp_nil_r (s : string) : s +:+ "" = s.
Proof. induction s as [|a s IH]; [done|]. by rewrite sapp_cons, IH. Qed.

Lemma sapp_assoc (s t u : string) : (s +:+ t) +:+ u = s +:+ (t +:+ u).
Proof. induction s as [|a s IH]; [done|]. by rewrite !sapp_cons, IH. Qed.

Lemma sapp_eq_nil (s t : string) : s +:+ t = "" → s = "" ∧ t = "".
Proof. destruct s; [done|]. by rewrite sapp_cons. Qed.

Lemma sapp_ne_nil_r (s : string) (c : ascii) : s +:+ String c "" ≠ "".
Proof. by destruct s. Qed.

End PyStrFacts.

(** ** Frequency key extractor *)

Section FrequencyKey.
Context `{Runtime}.
Local Open Scope list_scope.

Lemma all_decimal_app (s t : list N) :
  forallb is_decimal (s ++ t)
  = forallb is_decimal s && forallb is_decimal t.
Proof. apply forallb_app. Qed.

Lemma has_decimal_app (s t : list N) :
  existsb is_decimal (s ++ t) = existsb is_decimal s || existsb is_decimal t.
Proof. apply existsb_app. Qed.

Lemma all_decimal_has_decimal (s : list N) :
  s ≠ [] → forallb is_decimal s = true → existsb is_decimal s = true.
Proof.
  destruct s as [|a s]; [done|]. simpl. intros _.
  by destruct (is_decimal a).
Qed.

Lemma ends_with_digit_cons (c : N) (s : list N) :
  s ≠ [] → ends_with_digit (c :: s) = ends_with_digit s.
Proof. by destruct s. Qed.

Lemma elem_of_flush (r run : list N) : r ∈ flush run ↔ r = run ∧ run ≠ [].
Proof.
  destruct run as [|a run]; simpl.
  - split; [intros Hr; inversion Hr | by intros [_ ?]].
  - rewrite list_elem_of_singleton. split; [by intros -> | by intros [-> _]].
Qed.

Lemma findall_from_nonempty (run s : list N) :
  run ≠ [] → findall_digits_from run s ≠ [].
Proof.
  revert run. induction s as [|c s IH]; intros run Hrun; simpl.
  - by destruct run.
  - destruct (is_decimal c).
    + apply IH. by destruct run.
    + by destruct run.
Qed.

Lemma findall_has_digit (run s : list N) :
  existsb is_decimal s = true → findall_digits_from run s ≠ [].
Proof.
  revert run. induction s as [|c s IH]; intros run; simpl; [done|].
  destruct (is_decimal c); simpl.
  - intros _. apply findall_from_nonempty. by destruct run.
  - intros Hs Hnil. apply app_eq_nil in Hnil as [_ Hnil]. by eapply IH.
Qed.

(** What the scan finds from a position where the run [run] is in
    progress: either [run] extended by the digits [s] starts with, or a
    maximal run that begins later in [s]. *)
Lemma findall_from_spec (s run r : list N) :
  r ∈ findall_digits_from run s ↔
    (∃ d post, s = d ++ post ∧ forallb is_decimal d = true
               ∧ starts_with_digit post = false ∧ r = run ++ d ∧ r ≠ [])
    ∨ (∃ pre post, s = pre ++ r ++ post ∧ r ≠ []
                   ∧ forallb is_decimal r = true
                   ∧ pre ≠ [] ∧ ends_with_digit pre = false
                   ∧ starts_with_digit post = false).
Proof.
  revert run. induction s as [|c s IH]; intros run; simpl.
  - rewrite elem_of_flush. split.
    + intros [-> Hne]. left. exists [], [].
      split_and!; try done. by rewrite app_nil_r.
    + intros [(d & post & Hs & _ & _ & -> & Hne)
             |(pre & post & Hs & _ & _ & Hpre & _)].
      * symmetry in Hs. apply app_eq_nil in Hs as [-> _].
        by rewrite app_nil_r in *.
      * symmetry in Hs. by apply app_eq_nil in Hs as [-> _].
  - destruct (is_decimal c) eqn:Hc.
    + rewrite IH. split.
      * intros [(d & post & -> & Hd & Hpost & -> & Hne)
               |(pre & post & -> & Hne & Hr & Hpre & Hend & Hpost)].
        -- left. exists (c :: d), post. rewrite <- app_assoc in *.
           simpl. by rewrite Hc, Hd.
        -- right. exists (c :: pre), post.
           by rewrite ends_with_digit_cons.
      * intros [(d & post & Hs & Hd & Hpost & -> & Hne)
               |(pre & post & Hs & Hne & Hr & Hpre & Hend & Hpost)].
        -- left. destruct d as [|c' d].
           ++ simpl in Hs. subst post. simpl in Hpost. congruence.
           ++ simpl in Hs. injection Hs as <- ->.
              simpl in Hd. rewrite Hc in Hd. simpl in Hd.
              exists d, post. by rewrite <- app_assoc.
        -- right. destruct pre as [|c' pre]; [done|].
           simpl in Hs. injection Hs as <- ->.
           destruct pre as [|c'' pre].
           ++ unfold ends_with_digit in Hend. simpl in Hend. congruence.
           ++ by exists (c'' :: pre), post.
    + rewrite elem_of_app, elem_of_flush, IH. split.
      * intros [[-> Hne]|[(d & post & -> & Hd & Hpost & Hr & Hne)
                         |(pre & post & -> & Hne & Hr & Hpre & Hend & Hpost)]].
        -- left. exists [], (c :: s). simpl. by rewrite Hc, app_nil_r.
        -- right. simpl in Hr. subst d.
           exists [c], post. unfold ends_with_digit. simpl. by rewrite Hc.
        -- right. exists (c :: pre), post.
           by rewrite ends_with_digit_cons.
      * intros [(d & post & Hs & Hd & Hpost & -> & Hne)
               |(pre & post & Hs & Hne & Hr & Hpre & Hend & Hpost)].
        -- left. destruct d as [|c' d].
           ++ by rewrite app_nil_r in *.
           ++ simpl in Hs. injection Hs as <- ->.
              simpl in Hd. by rewrite Hc in Hd.
        -- right. destruct pre as [|c' pre]; [done|].
           simpl in Hs. injection Hs as <- ->.
           destruct pre as [|c'' pre].
           ++ left. by exists r, post.
           ++ right. by exists (c'' :: pre), post.
Qed.

(** [re.findall(r'\d+', s)] lists exactly the maximal digit runs of [s]. *)
Lemma re_findall_digits_spec (s : string) (r : list N) :
  r ∈ re_findall_digits s ↔ maximal_digit_run s r.
Proof.
  unfold re_findall_digits. rewrite findall_from_spec. split.
  - intros [(d & post & Hs & Hd & Hpost & Hr & Hne)
           |(pre & post & Hs & Hne & Hr & Hpre & Hend & Hpost)].
    + simpl in Hr. subst d. by apply (MaxRun _ _ [] post).
    + by apply (MaxRun _ _ pre post).
  - intros [pre post Hs Hne Hr Hend Hpost].
    destruct pre as [|c pre].
    + left. by exists r, post.
    + right. by exists (c :: pre), post.
Qed.

Lemma foldl_max_upper (n : Z) (ns : list Z) :
  ∀ m, m ∈ n :: ns → m ≤ foldl Z.max n ns.
Proof.
  revert n. induction ns as [|k ns IH]; intros n m Hm; simpl.
  - apply list_elem_of_singleton in Hm. lia.
  - apply elem_of_cons in Hm as [->|Hm].
    + etrans; [apply (Z.le_max_l _ k)|]. apply IH, elem_of_cons. by left.
    + apply elem_of_cons in Hm as [->|Hm].
      * etrans; [apply (Z.le_max_r n)|]. apply IH, elem_of_cons. by left.
      * apply IH, elem_of_cons. by right.
Qed.

Lemma foldl_max_elem (n : Z) (ns : list Z) : foldl Z.max n ns ∈ n :: ns.
Proof.
  revert n. induction ns as [|k ns IH]; intros n; simpl.
  - apply elem_of_cons. by left.
  - specialize (IH (Z.max n k)).
    apply elem_of_cons in IH as [Heq|IH].
    + rewrite Heq. destruct (Z.max_spec n k) as [[_ ->]|[_ ->]];
        rewrite !elem_of_cons; auto.
    + rewrite !elem_of_cons; auto.
Qed.

(** On ASCII text the code points are the bytes, and the decimal digits
    are the ten ASCII digits: the key is the one computed on the bytes. *)
Lemma codepoints_ascii (s : string) :
  PyStr.is_ascii s = true →
  PyStr.codepoints s = N_of_ascii <$> list_ascii_of_string s.
Proof.
  unfold PyStr.codepoints.
  induction s as [|a s IH]; simpl; [done|].
  intros [Ha Hs]%andb_true_iff. unfold PyStr.lead. rewrite Ha. simpl.
  by rewrite IH.
Qed.

Lemma is_decimal_ascii (a : ascii) :
  (N_of_ascii a <? 128)%N = true →
  is_decimal (N_of_ascii a) = PyStr.isdigit a
  ∧ decimal_val (N_of_ascii a) = PyStr.digit_val a.
Proof.
  intros Ha%N.ltb_lt. unfold is_decimal, decimal_val.
  rewrite unicode_decimal_ascii by done.
  destruct a as [[] [] [] [] [] [] [] []]; try done;
    vm_compute in Ha; done.
Qed.
End FrequencyKey.

(** C9.  The frequency key extractor is a total function on strings.  On a
    label without any decimal digit (in the sense of the Unicode database,
    as [\d] and [int()] have it) it returns the sentinel 99999; on a label
    with a digit it returns the numeric value of one of the label's maximal
    digit runs, and no maximal digit run of the label has a larger
    value. *)
Theorem extract_numeric_freq_max_run `{Runtime} (band_string : string) :
  (has_digit band_string = false →
   extract_numeric_freq band_string = 99999)
  ∧ (has_digit band_string = true →
     (∃ run, maximal_digit_run band_string run
             ∧ extract_numeric_freq band_string = numeric_value run)
     ∧ (∀ run, maximal_digit_run band_string run →
               numeric_value run ≤ extract_numeric_freq band_string)).
Proof.
  unfold extract_numeric_freq, numeric_value, has_digit. split.
  - intros Hnone.
    destruct (re_findall_digits band_string) as [|r rs] eqn:Hruns;
      [done|].
    assert (maximal_digit_run band_string r) as [pre post Hs Hne Hr _ _].
    { apply re_findall_digits_spec. rewrite Hruns. by left. }
    rewrite Hs, !has_decimal_app in Hnone.
    rewrite (all_decimal_has_decimal r Hne Hr) in Hnone.
    by destruct (existsb is_decimal pre).
  - intros Hsome.
    pose proof (findall_has_digit [] _ Hsome) as Hne.
    fold (re_findall_digits band_string) in Hne.
    pose proof (re_findall_digits_spec band_string) as Hspec.
    destruct (re_findall_digits band_string) as [|r rs]; [done|].
    rewrite fmap_cons. split.
    + pose proof (foldl_max_elem (int_decimal 0 r)
                    (int_decimal 0 <$> rs)) as Hin.
      rewrite <- fmap_cons in Hin.
      apply list_elem_of_fmap in Hin as (run & Heq & Hrun).
      exists run. split; [by apply Hspec | done].
    + intros run Hrun. apply foldl_max_upper.
      rewrite <- fmap_cons. apply list_elem_of_fmap. exists run.
      split; [done | by apply Hspec].
Qed.

Section FrequencyKeyOnReference.
Import RefRuntime.

Lemma extract_numeric_freq_max_run_witness :
  extract_numeric_freq "unknown" = 99999
  ∧ (∃ run, maximal_digit_run "B3-1800/2100x7" run
            ∧ extract_numeric_freq "B3-1800/2100x7" = numeric_value run)
  ∧ extract_numeric_freq "B3-1800/2100x7" = 2100.
Proof.
  split; [|split].
  - apply (extract_numeric_freq_max_run "unknown"). vm_compute. reflexivity.
  - apply (extract_numeric_freq_max_run "B3-1800/2100x7").
    vm_compute. reflexivity.
  - vm_compute. reflexivity.
Defined.

(** Digits other than the ASCII ones count: the Arabic-Indic digits of
    this label spell 1800, and the full-width digits of the other one
    2100. *)
Example extract_numeric_freq_unicode :
  extract_numeric_freq "LTE١٨٠٠" = 1800
  ∧ extract_numeric_freq "２１００MHz" = 2100
  ∧ extract_numeric_freq "LTE½" = 99999.
Proof. split_and!; vm_compute; reflexivity. Qed.
End FrequencyKeyOnReference.

(** ** Outcomes *)

Lemma ok_value_eq {A : Type} (d : A) (r : result A) :
  is_ok r = true → r = Ok (ok_value d r).
Proof. by destruct r. Qed.

(** Inversion of a successful [x ← m; k x] in the [result] monad. *)
Lemma bind_Ok {A B : Type} (m : result A) (k : A → result B) (b : B) :
  m ≫= k = Ok b ↔ ∃ a, m = Ok a ∧ k a = Ok b.
Proof.
  unfold mbind, result_bind. destruct m as [a|e|].
  - split; [intros Hk; by exists a | by intros (? & [= <-] & ?)].
  - split; [done | by intros (? & ? & _)].
  - split; [done | by intros (? & ? & _)].
Qed.

Lemma bind_Raise {A B : Type} (m : result A) (k : A → result B) (e : exn) :
  m ≫= k = Raise e ↔ m = Raise e ∨ ∃ a, m = Ok a ∧ k a = Raise e.
Proof.
  unfold mbind, result_bind. destruct m as [a|e'|].
  - split; [intros Hk; right; by exists a | by intros [?|(? & [= <-] & ?)]].
  - split.
    + intros [= ->]. by left.
    + intros [[= ->]|(a & Ha & _)]; [reflexivity | discriminate Ha].
  - split; [done|]. intros [Hm|(a & Ha & _)]; [discriminate Hm|].
    discriminate Ha.
Qed.

Lemma bind_Unfinished {A B : Type} (m : result A) (k : A → result B) :
  m ≫= k = Unfinished ↔ m = Unfinished ∨ ∃ a, m = Ok a ∧ k a = Unfinished.
Proof.
  unfold mbind, result_bind. destruct m as [a|e'|].
  - split; [intros Hk; right; by exists a | by intros [?|(? & [= <-] & ?)]].
  - split; [done|]. intros [Hm|(a & Ha & _)]; [discriminate Hm|].
    discriminate Ha.
  - split; [by left | done].
Qed.

(** ** Floats *)

Lemma round64_not_nan (x : Q) : round64 x ≠ NaN.
Proof.
  unfold round64. destruct (Qeq_bool x 0); [done|].
  by destruct (Qle_bool _ _).
Qed.

Lemma fle_refl (a : float) : a ≠ NaN → fle a a = true.
Proof.
  destruct a as [x|[]|]; try done. intros _. simpl.
  apply Qle_bool_iff, Qle_refl.
Qed.

Lemma pow2_pos (e : Z) : (0 < pow2 e)%Q.
Proof.
  unfold pow2. destruct (0 <=? e) eqn:He.
  - apply Z.leb_le in He.
    change 0%Q with (inject_Z 0). rewrite <- Zlt_Qlt.
    by apply Z.pow_pos_nonneg.
  - apply Z.leb_gt in He.
    apply Qlt_shift_div_l.
    + change 0%Q with (inject_Z 0). rewrite <- Zlt_Qlt.
      apply Z.pow_pos_nonneg; lia.
    + rewrite Qmult_0_l. reflexivity.
Qed.

Lemma pow2_le (e k : Z) : e ≤ k → 0 ≤ k → (pow2 e <= inject_Z (2 ^ k))%Q.
Proof.
  intros Hek Hk. unfold pow2. destruct (0 <=? e) eqn:He.
  - apply Z.leb_le in He. rewrite <- Zle_Qle.
    apply Z.pow_le_mono_r; lia.
  - apply Z.leb_gt in He.
    apply Qle_shift_div_r.
    + change 0%Q with (inject_Z 0). rewrite <- Zlt_Qlt.
      apply Z.pow_pos_nonneg; lia.
    + rewrite <- inject_Z_mult. change 1%Q with (inject_Z 1).
      rewrite <- Zle_Qle.
      assert (0 < 2 ^ k) by (apply Z.pow_pos_nonneg; lia).
      assert (0 < 2 ^ (- e)) by (apply Z.pow_pos_nonneg; lia).
      nia.
Qed.

Lemma round_half_even_bounds (q : Q) :
  (0 <= q → 0 <= inject_Z (round_half_even q) <= q + 1)%Q.
Proof.
  intros Hq. unfold round_half_even.
  pose proof (Qfloor_le q) as Hlo.
  assert (0 ≤ Qfloor q) as Hf0.
  { change 0 with (Qfloor 0). by apply Qfloor_resp_le. }
  assert (0 <= inject_Z (Qfloor q))%Q as Hf0'.
  { change 0%Q with (inject_Z 0). by rewrite <- Zle_Qle. }
  assert (inject_Z (Qfloor q + 1) <= q + 1)%Q as Hup.
  { rewrite inject_Z_plus. apply Qplus_le_l. exact Hlo. }
  assert (0 <= inject_Z (Qfloor q + 1))%Q as Hf1.
  { change 0%Q with (inject_Z 0). rewrite <- Zle_Qle. lia. }
  assert (inject_Z (Qfloor q) <= q + 1)%Q as Hup0.
  { eapply Qle_trans; [exact Hlo|].
    rewrite <- (Qplus_0_r q) at 1. apply Qplus_le_r. discriminate. }
  destruct (_ ?= _)%Q; [destruct (Z.even _)| |]; by split.
Qed.

(** An [int] from 0 to below [2 ^ 1023] has a float: the conversion does
    not overflow. *)
Lemma float_of_int_finite (n : Z) :
  0 ≤ n < 2 ^ 1023 → ∃ x, float_of_int n = Finite x.
Proof.
  intros [Hn0 Hn]. unfold float_of_int, round64.
  destruct (Qeq_bool (inject_Z n) 0); [by eexists|].
  destruct (decide (n = 0)) as [->|Hne]; [by eexists|].
  set (e := Z.max (ilog2 (inject_Z n) - 52) (-1074)).
  set (m := round_half_even (inject_Z n / pow2 e)).
  assert (e ≤ 1023) as He.
  { assert (ilog2 (inject_Z n) ≤ Z.log2 n) as Hlog.
    { unfold ilog2. simpl. rewrite Z.abs_eq by done.
      destruct (Qle_bool _ _); lia. }
    assert (Z.log2 n < 1023) by (apply Z.log2_lt_pow2; lia).
    unfold e. lia. }
  pose proof (pow2_pos e) as Hpos.
  assert (0 <= inject_Z n / pow2 e)%Q as Hq.
  { apply Qle_shift_div_l; [done|]. rewrite Qmult_0_l.
    change 0%Q with (inject_Z 0). by rewrite <- Zle_Qle. }
  destruct (round_half_even_bounds _ Hq) as [Hm0 Hm1]. fold m in Hm0, Hm1.
  assert (0 <= inject_Z m * pow2 e)%Q as Hy0.
  { apply Qmult_le_0_compat; [done | by apply Qlt_le_weak]. }
  assert (inject_Z m * pow2 e < inject_Z (2 ^ 1024))%Q as Hy1.
  { eapply Qle_lt_trans.
    - apply Qmult_le_compat_r; [exact Hm1 | by apply Qlt_le_weak].
    - rewrite Qmult_plus_distr_l, Qmult_1_l.
      assert (inject_Z n / pow2 e * pow2 e == inject_Z n)%Q as ->.
      { field. intros Hz. rewrite Hz in Hpos. by apply Qlt_irrefl in Hpos. }
      change (2 ^ 1024) with (2 ^ 1023 + 2 ^ 1023). rewrite inject_Z_plus.
      apply Qplus_lt_le_compat.
      + by rewrite <- Zlt_Qlt.
      + by apply pow2_le. }
  destruct (Qle_bool (pow2 1024) _) eqn:Hbig; [|by eexists].
  exfalso. apply Qle_bool_iff in Hbig.
  rewrite Qred_correct, Qabs_pos in Hbig by done.
  change (pow2 1024) with (inject_Z (2 ^ 1024)) in Hbig.
  by apply Qle_not_lt in Hbig.
Qed.

(** A float that is at most [b] is not above [b]. *)
Lemma fle_not_flt (a b : float) : fle a b = true → flt b a = false.
Proof.
  destruct a as [x|[]|], b as [y|[]|]; simpl; try done.
  by intros ->.
Qed.

(** ** Wedge geometry builder *)

Section WedgeFacts.
Context `{Runtime}.
Local Open Scope list_scope.

Lemma sweep_angle_S (start_angle : float) (k : nat) :
  sweep_angle start_angle (S k)
  = sweep_angle (fadd start_angle (Finite 3)) k.
Proof.
  unfold sweep_angle. induction k as [|k IH]; [done|].
  simpl in *. by rewrite IH.
Qed.

(** The loop returns exactly when the condition fails at some test within
    the fuel and no vertex before it raises; it has then appended the
    vertices of the angles that passed. *)
Lemma sweep_Ok {A : Type} (vertex : float → result A) (fuel : nat)
    (end_angle : float) :
  ∀ (curr_angle : float) (points out : list A),
    sweep vertex fuel end_angle curr_angle points = Ok out ↔
    ∃ pts, out = points ++ pts
           ∧ (length pts < fuel)%nat
           ∧ (∀ k pt, pts !! k = Some pt →
                fle (sweep_angle curr_angle k) end_angle = true
                ∧ vertex (sweep_angle curr_angle k) = Ok pt)
           ∧ fle (sweep_angle curr_angle (length pts)) end_angle = false.
Proof.
  induction fuel as [|fuel IH]; intros curr_angle points out; simpl.
  - split; [done|]. intros (pts & _ & Hlen & _). lia.
  - destruct (fle curr_angle end_angle) eqn:Htest.
    + destruct (vertex curr_angle) as [pt|e|] eqn:Hpt; simpl.
      * rewrite IH. split.
        -- intros (pts & -> & Hlen & Hpts & Hend).
           exists (pt :: pts). rewrite <- app_assoc. simpl.
           split_and!; [done|lia| |by rewrite sweep_angle_S].
           intros [|k] pt' Hk; simpl in Hk.
           ++ by injection Hk as <-.
           ++ rewrite sweep_angle_S. by apply Hpts.
        -- intros (pts & -> & Hlen & Hpts & Hend).
           destruct pts as [|pt' pts].
           { simpl in Hend. unfold sweep_angle in Hend. simpl in Hend.
             congruence. }
           destruct (Hpts 0%nat pt' eq_refl) as [_ Hpt'].
           unfold sweep_angle in Hpt'. simpl in Hpt'.
           assert (pt' = pt) as -> by congruence.
           exists pts. rewrite <- app_assoc. simpl in *.
           split_and!; [done|lia| |by rewrite <- sweep_angle_S].
           intros k pt' Hk. rewrite <- sweep_angle_S.
           by apply (Hpts (S k)).
      * split; [done|]. intros (pts & -> & Hlen & Hpts & Hend).
        destruct pts as [|pt' pts].
        { simpl in Hend. unfold sweep_angle in Hend. simpl in Hend.
          congruence. }
        destruct (Hpts 0%nat pt' eq_refl) as [_ Hpt'].
        unfold sweep_angle in Hpt'. simpl in Hpt'. congruence.
      * split; [done|]. intros (pts & -> & Hlen & Hpts & Hend).
        destruct pts as [|pt' pts].
        { simpl in Hend. unfold sweep_angle in Hend. simpl in Hend.
          congruence. }
        destruct (Hpts 0%nat pt' eq_refl) as [_ Hpt'].
        unfold sweep_angle in Hpt'. simpl in Hpt'. congruence.
    + split.
      * intros [= <-]. exists []. rewrite app_nil_r.
        split_and!; [done|simpl; lia|done|done].
      * intros (pts & -> & Hlen & Hpts & Hend).
        destruct pts as [|pt' pts]; [by rewrite app_nil_r|].
        destruct (Hpts 0%nat pt' eq_refl) as [Hfirst _].
        unfold sweep_angle in Hfirst. simpl in Hfirst. congruence.
Qed.

(** The loop uses up its fuel exactly when every test within the fuel
    passes and every vertex is built. *)
Lemma sweep_Unfinished {A : Type} (vertex : float → result A) (fuel : nat)
    (end_angle : float) :
  (∀ a, vertex a ≠ Unfinished) →
  ∀ (curr_angle : float) (points : list A),
    sweep vertex fuel end_angle curr_angle points = Unfinished ↔
    ∀ k, (k < fuel)%nat →
         fle (sweep_angle curr_angle k) end_angle = true
         ∧ is_ok (vertex (sweep_angle curr_angle k)) = true.
Proof.
  intros Hvertex.
  induction fuel as [|fuel IH]; intros curr_angle points; simpl.
  - split; [intros _ k Hk; lia | done].
  - destruct (fle curr_angle end_angle) eqn:Htest.
    + destruct (vertex curr_angle) as [pt|e|] eqn:Hpt; simpl.
      * rewrite IH. split.
        -- intros Hall [|k] Hk;
             [unfold sweep_angle; simpl; by rewrite Htest, Hpt|].
           rewrite sweep_angle_S. apply Hall. lia.
        -- intros Hall k Hk. rewrite <- sweep_angle_S. apply Hall. lia.
      * split; [done|]. intros Hall.
        destruct (Hall 0%nat) as [_ Hok]; [lia|].
        unfold sweep_angle in Hok. simpl in Hok. by rewrite Hpt in Hok.
      * by destruct (Hvertex curr_angle).
    + split; [done|]. intros Hall.
      destruct (Hall 0%nat) as [Hfirst _]; [lia|].
      unfold sweep_angle in Hfirst. simpl in Hfirst. congruence.
Qed.

(** An exception of the loop is an exception of a vertex. *)
Lemma sweep_Raise {A : Type} (vertex : float → result A) (fuel : nat)
    (end_angle : float) (e : exn) :
  ∀ (curr_angle : float) (points : list A),
    sweep vertex fuel end_angle curr_angle points = Raise e →
    ∃ a, vertex a = Raise e.
Proof.
  induction fuel as [|fuel IH]; intros curr_angle points; simpl; [done|].
  destruct (fle curr_angle end_angle); [|done].
  destruct (vertex curr_angle) as [pt|e'|] eqn:Hpt; simpl.
  - apply IH.
  - intros [= ->]. by exists curr_angle.
  - done.
Qed.

(** The emitted angles are the values of [curr_angle] at the tests that
    passed. *)
Lemma emitted_angles_lookup (fuel : nat) (end_angle : float) :
  ∀ (curr_angle : float) (k : nat) (a : float),
    emitted_angles fuel end_angle curr_angle !! k = Some a →
    a = sweep_angle curr_angle k ∧ fle a end_angle = true.
Proof.
  induction fuel as [|fuel IH]; intros curr_angle k a; simpl; [done|].
  destruct (fle curr_angle end_angle) eqn:Htest; [|done].
  destruct k as [|k]; simpl.
  - by intros [= <-].
  - intros Hk. rewrite sweep_angle_S. by apply IH.
Qed.

Lemma emitted_angles_length (fuel n : nat) (end_angle : float) :
  ∀ curr_angle : float,
    (n < fuel)%nat →
    (∀ k, (k < n)%nat → fle (sweep_angle curr_angle k) end_angle = true) →
    fle (sweep_angle curr_angle n) end_angle = false →
    emitted_angles fuel end_angle curr_angle
    = sweep_angle curr_angle <$> seq 0 n.
Proof.
  revert n. induction fuel as [|fuel IH]; intros n curr_angle Hn Hpass Hend;
    [lia|]. simpl.
  destruct n as [|n].
  - unfold sweep_angle in Hend. simpl in Hend. by rewrite Hend.
  - pose proof (Hpass 0%nat ltac:(lia)) as Hfirst.
    unfold sweep_angle in Hfirst. simpl in Hfirst. rewrite Hfirst.
    simpl. f_equal.
    rewrite <- fmap_S_seq, <- list_fmap_compose.
    rewrite (IH n (fadd curr_angle (Finite 3))); [|lia| |].
    + apply list_fmap_ext. intros i k _. simpl. by rewrite sweep_angle_S.
    + intros k Hk. rewrite <- sweep_angle_S. apply Hpass. lia.
    + by rewrite <- sweep_angle_S.
Qed.

Lemma arc_point_finished (lon lat radius_deg curr_angle : float) :
  arc_point lon lat radius_deg curr_angle ≠ Unfinished.
Proof.
  unfold arc_point.
  destruct (math_cos _) as [c|e|] eqn:Hc; simpl; [|done|].
  - destruct (math_sin _) as [s|e|] eqn:Hs; simpl; [done|done|].
    unfold math_sin in Hs. by destruct (math_radians _).
  - unfold math_cos in Hc. by destruct (math_radians _).
Qed.

(** The only exception of a vertex is the [ValueError] of [math.cos] and
    [math.sin] at an infinity. *)
Lemma arc_point_Raise (lon lat radius_deg curr_angle : float) (e : exn) :
  arc_point lon lat radius_deg curr_angle = Raise e → e = ValueError.
Proof.
  unfold arc_point.
  destruct (math_cos _) as [c|e'|] eqn:Hc; simpl.
  - destruct (math_sin _) as [s|e'|] eqn:Hs; simpl; [done| |done].
    intros [= ->]. unfold math_sin in Hs.
    destruct (math_radians _); by simplify_eq.
  - intros [= ->]. unfold math_cos in Hc.
    destruct (math_radians _); by simplify_eq.
  - done.
Qed.

(** What [create_wedge_geom] returns, in terms of the angles
    [start_angle], [start_angle + 3], [(start_angle + 3) + 3], ... *)
Lemma create_wedge_geom_Ok (fuel : nat) (lon lat azim beam radius_m : float)
    (ring : list QgsPointXY) :
  create_wedge_geom fuel lon lat azim beam radius_m = Ok ring ↔
  ∃ pts,
    ring = {| pt_x := lon; pt_y := lat |} :: pts
           ++ [{| pt_x := lon; pt_y := lat |}]
    ∧ (length pts < fuel)%nat
    ∧ (∀ k pt, pts !! k = Some pt →
         fle (sweep_angle (fsub azim (fdivc beam 2)) k)
           (fadd azim (fdivc beam 2)) = true
         ∧ arc_point lon lat (fdivc radius_m 111320)
             (sweep_angle (fsub azim (fdivc beam 2)) k) = Ok pt)
    ∧ fle (sweep_angle (fsub azim (fdivc beam 2)) (length pts))
        (fadd azim (fdivc beam 2)) = false.
Proof.
  unfold create_wedge_geom. split.
  - destruct (sweep _ _ _ _ _) as [out|e|] eqn:Hsweep; simpl; [|done..].
    intros [= <-]. apply sweep_Ok in Hsweep as (pts & -> & Hrest).
    exists pts. by rewrite <- app_assoc.
  - intros (pts & -> & Hrest).
    assert (sweep (arc_point lon lat (fdivc radius_m 111320)) fuel
              (fadd azim (fdivc beam 2)) (fsub azim (fdivc beam 2))
              [{| pt_x := lon; pt_y := lat |}]
            = Ok ([{| pt_x := lon; pt_y := lat |}] ++ pts)) as ->.
    { apply sweep_Ok. by exists pts. }
    done.
Qed.

(** The builder raises nothing but the [ValueError] of [math.cos] and
    [math.sin] at an infinity. *)
Lemma create_wedge_geom_Raise (fuel : nat)
    (lon lat azim beam radius_m : float) (e : exn) :
  create_wedge_geom fuel lon lat azim beam radius_m = Raise e →
  e = ValueError.
Proof.
  unfold create_wedge_geom.
  intros [Hs|(pts & _ & Hr)]%bind_Raise; [|done].
  apply sweep_Raise in Hs as [a Ha]. by apply arc_point_Raise in Ha.
Qed.

Lemma wedge_angles_Ok (fuel : nat) (azim beam : float)
    (A : Type) (pts : list A) :
  (length pts < fuel)%nat →
  (∀ k pt, pts !! k = Some pt →
     fle (sweep_angle (fsub azim (fdivc beam 2)) k)
       (fadd azim (fdivc beam 2)) = true) →
  fle (sweep_angle (fsub azim (fdivc beam 2)) (length pts))
    (fadd azim (fdivc beam 2)) = false →
  wedge_angles fuel azim beam
  = sweep_angle (fsub azim (fdivc beam 2)) <$> seq 0 (length pts).
Proof.
  intros Hlen Hpass Hend. unfold wedge_angles.
  apply emitted_angles_length; [done| |done].
  intros k Hk. destruct (lookup_lt_is_Some_2 pts k Hk) as [pt Hpt].
  by eapply Hpass.
Qed.
End WedgeFacts.

Section WedgeClaims.
Context `{Runtime}.
Local Open Scope list_scope.

(** C1 (as amended).  The loop of [create_wedge_geom] tests
    [curr_angle <= end_angle] before it emits a vertex.  So when the
    function returns, the ring is the origin, the arc points of the emitted
    angles, the origin; no emitted angle is above the end angle
    [azim + beam / 2], the final one included, whatever the beamwidth; and
    the angle 3 degrees after the final one is the first that fails the
    test. *)
Theorem wedge_sweep_within_end (fuel : nat)
    (lon lat azim beam radius_m : float) (ring : list QgsPointXY) :
  create_wedge_geom fuel lon lat azim beam radius_m = Ok ring →
  ∃ pts,
    ring = {| pt_x := lon; pt_y := lat |} :: pts
           ++ [{| pt_x := lon; pt_y := lat |}]
    ∧ Forall2 (λ a pt,
                 arc_point lon lat (fdivc radius_m 111320) a = Ok pt)
        (wedge_angles fuel azim beam) pts
    ∧ Forall (λ a, fle a (fadd azim (fdivc beam 2)) = true
                   ∧ flt (fadd azim (fdivc beam 2)) a = false)
        (wedge_angles fuel azim beam)
    ∧ (∀ final, last (wedge_angles fuel azim beam) = Some final →
                fle (fadd final (Finite 3)) (fadd azim (fdivc beam 2))
                = false)
    ∧ ¬ final_vertex_overshoots fuel azim beam.
Proof.
  intros (pts & -> & Hlen & Hpts & Hend)%create_wedge_geom_Ok.
  assert (wedge_angles fuel azim beam
          = sweep_angle (fsub azim (fdivc beam 2)) <$> seq 0 (length pts))
    as Hangles.
  { apply wedge_angles_Ok; [done| |done].
    intros k pt Hk. by destruct (Hpts k pt Hk). }
  assert (Forall (λ a, fle a (fadd azim (fdivc beam 2)) = true
                       ∧ flt (fadd azim (fdivc beam 2)) a = false)
            (wedge_angles fuel azim beam)) as Hwithin.
  { rewrite Hangles. apply Forall_fmap, Forall_forall. intros k Hk.
    apply elem_of_seq in Hk as [_ Hk]. simpl in Hk.
    destruct (lookup_lt_is_Some_2 pts k Hk) as [pt Hpt].
    destruct (Hpts k pt Hpt) as [Hle _]. simpl.
    split; [done | by apply fle_not_flt]. }
  exists pts. split_and!; [done| |done| |].
  - rewrite Hangles. apply Forall2_fmap_l, Forall2_lookup. intros k.
    destruct (pts !! k) as [pt|] eqn:Hpt.
    + rewrite lookup_seq_lt by (by eapply lookup_lt_Some).
      constructor. simpl. by destruct (Hpts k pt Hpt).
    + rewrite lookup_seq_ge by (by apply lookup_ge_None).
      constructor.
  - intros final Hfinal. rewrite Hangles in Hfinal.
    rewrite fmap_last in Hfinal.
    destruct (length pts) as [|n] eqn:Hn; [done|].
    rewrite seq_S, last_snoc in Hfinal. simpl in Hfinal.
    injection Hfinal as <-.
    change (fadd (sweep_angle (fsub azim (fdivc beam 2)) n) (Finite 3))
      with (sweep_angle (fsub azim (fdivc beam 2)) (S n)).
    exact Hend.
  - intros (final & Hfinal & Hover).
    apply last_Some in Hfinal as [l' Hl'].
    assert (final ∈ wedge_angles fuel azim beam) as Hfinal.
    { rewrite Hl'. apply elem_of_app. right. apply list_elem_of_here. }
    rewrite Forall_forall in Hwithin.
    destruct (Hwithin final Hfinal) as [_ Hnot]. congruence.
Qed.
End WedgeClaims.

Section WedgeOnReference.
Import RefRuntime.

Lemma wedge_sweep_within_end_witness :
  ∃ ring,
    create_wedge_geom 10 (Finite 2) (Finite (3 # 2)) (Finite 0) (Finite 4)
      (Finite 200) = Ok ring
    ∧ ∃ pts,
        ring = ({| pt_x := Finite 2; pt_y := Finite (3 # 2) |} :: pts
                ++ [{| pt_x := Finite 2; pt_y := Finite (3 # 2) |}])%list
        ∧ Forall2 (λ a pt,
                     arc_point (Finite 2) (Finite (3 # 2))
                       (fdivc (Finite 200) 111320) a = Ok pt)
            (wedge_angles 10 (Finite 0) (Finite 4)) pts
        ∧ Forall (λ a, fle a (fadd (Finite 0) (fdivc (Finite 4) 2)) = true
                       ∧ flt (fadd (Finite 0) (fdivc (Finite 4) 2)) a
                         = false)
            (wedge_angles 10 (Finite 0) (Finite 4))
        ∧ (∀ final,
             last (wedge_angles 10 (Finite 0) (Finite 4)) = Some final →
             fle (fadd final (Finite 3))
               (fadd (Finite 0) (fdivc (Finite 4) 2)) = false)
        ∧ ¬ final_vertex_overshoots 10 (Finite 0) (Finite 4).
Proof.
  assert (is_ok (create_wedge_geom 10 (Finite 2) (Finite (3 # 2)) (Finite 0)
                   (Finite 4) (Finite 200)) = true) as Hring
    by (vm_compute; reflexivity).
  apply (ok_value_eq []) in Hring.
  eexists. split; [exact Hring|].
  exact (wedge_sweep_within_end _ _ _ _ _ _ _ Hring).
Defined.

(** C1, as the specification words it, fails: with the azimuth 0 and the
    beamwidth 4, which is not a multiple of 3, the end angle is 2, the
    emitted angles are -2 and 1, and the final one is below the end
    angle. *)
Lemma wedge_sweep_overshoot_counterexample :
  ¬ multiple_of_3 (Finite 4)
  ∧ fadd (Finite 0) (fdivc (Finite 4) 2) = Finite 2
  ∧ wedge_angles 10 (Finite 0) (Finite 4) = [Finite (-2); Finite 1]
  ∧ ¬ final_vertex_overshoots 10 (Finite 0) (Finite 4).
Proof.
  assert (wedge_angles 10 (Finite 0) (Finite 4) = [Finite (-2); Finite 1])
    as Hangles by (vm_compute; reflexivity).
  split_and!.
  - intros (q & k & [= <-] & Hk). unfold Qeq in Hk. simpl in Hk. lia.
  - vm_compute. reflexivity.
  - exact Hangles.
  - intros (final & Hfinal & Hover). rewrite Hangles in Hfinal.
    injection Hfinal as <-. vm_compute in Hover. discriminate Hover.
Qed.
End WedgeOnReference.

(** ** Row classifier *)

Lemma getitem_Ok {V : Type} (d : gmap string V) (k : string) (v : V) :
  getitem d k = Ok v ↔ d !! k = Some v.
Proof.
  unfold getitem. destruct (d !! k) as [w|].
  - split; by intros [= ->].
  - split; intros Hk; discriminate Hk.
Qed.

Ltac bind_inv H :=
  repeat match type of H with
    | _ ≫= _ = Ok _ =>
        let a := fresh "a" in let Ha := fresh "Ha" in
        apply bind_Ok in H as (a & Ha & H)
    end.

Section RowFacts.
Context `{Runtime}.

Lemma float_cell_Ok (c : option string) (x : float) :
  float_cell c = Ok x ↔ ∃ s, c = Some s ∧ py_float s = Some x.
Proof.
  unfold float_cell. split.
  - destruct c as [s|]; [|done].
    destruct (py_float s) as [y|] eqn:Hs; [|done].
    intros [= <-]. by exists s.
  - by intros (s & -> & ->).
Qed.

(** The entries a successful [process_row] stores, and where they come
    from. *)
Lemma process_row_Ok (fuel : nat) (inputs : Inputs) (is_pci_mode : bool)
    (sorted_bands_list : list string) (row : RawRow) (row_data : RowData) :
  process_row fuel inputs is_pci_mode sorted_bands_list row = Ok row_data →
  ∃ radius beam site clat lat clon lon cazim azim target ring,
    resolve_radius inputs sorted_bands_list row = Ok radius
    ∧ resolve_beam inputs row = Ok beam
    ∧ row !! col_site (cols inputs) = Some site
    ∧ (row !! col_lat (cols inputs) = Some clat ∧ float_cell clat = Ok lat)
    ∧ (row !! col_lon (cols inputs) = Some clon ∧ float_cell clon = Ok lon)
    ∧ (row !! col_azim (cols inputs) = Some cazim
       ∧ float_cell cazim = Ok azim)
    ∧ resolve_target inputs is_pci_mode row = Ok target
    ∧ create_wedge_geom fuel lon lat azim beam radius = Ok ring
    ∧ row_data
      = <["_geom" := PGeom ring]>
          (<["_target_val" := PStr target]>
             (<["_beam" := PFloat beam]>
                (<["_radius" := PFloat radius]>
                   (<["_azim" := PFloat azim]>
                      (<["_lon" := PFloat lon]>
                         (<["_lat" := PFloat lat]>
                            (<["_site" := PStr (str_cell site)]>
                               (of_cell <$> row)))))))).
Proof.
  unfold process_row. intros Hrow. bind_inv Hrow.
  injection Hrow as <-.
  repeat match goal with
         | Hg : getitem _ _ = Ok _ |- _ => apply getitem_Ok in Hg
         end.
  eexists _, _, _, _, _, _, _, _, _, _, _. split_and!; eauto.
Qed.
End RowFacts.

Ltac lookup_entry :=
  repeat first [ rewrite lookup_insert_eq
               | rewrite lookup_insert_ne by done ].

Lemma fdivc_zero (q d : Q) : (q == 0)%Q → fdivc (Finite q) d = Finite 0.
Proof.
  intros Hq. unfold fdivc, round64.
  assert (Qeq_bool (q / d) 0 = true) as ->; [|done].
  apply Qeq_bool_iff. rewrite Hq. reflexivity.
Qed.

Section GeometryClaims.
Context `{Runtime}.
Local Open Scope list_scope.

(** C5 (as amended).  A row that survives parsing carries the ring
    [create_wedge_geom] returned for its longitude, latitude, azimuth,
    beamwidth and radius.  The ring has at least three vertices when the
    first test of the loop, [azim - beam / 2 <= azim + beam / 2] in floats,
    holds; it is the origin twice when the test fails, as it does for a
    negative beamwidth and for an azimuth or a beamwidth that is NaN.  With
    the beamwidth 0 and a finite azimuth the test holds, and when the
    second test fails (adding 3 to the start angle passes the end angle) the
    ring is exactly the origin, one arc point, the origin. *)
Theorem wedge_ring_vertices (fuel : nat) (inputs : Inputs)
    (is_pci_mode : bool) (sorted_bands_list : list string) (row : RawRow)
    (row_data : RowData) :
  process_row fuel inputs is_pci_mode sorted_bands_list row = Ok row_data →
  ∃ lon lat azim beam radius ring,
    row_data !! "_lon" = Some (PFloat lon)
    ∧ row_data !! "_lat" = Some (PFloat lat)
    ∧ row_data !! "_azim" = Some (PFloat azim)
    ∧ row_data !! "_beam" = Some (PFloat beam)
    ∧ row_data !! "_radius" = Some (PFloat radius)
    ∧ row_data !! "_geom" = Some (PGeom ring)
    ∧ create_wedge_geom fuel lon lat azim beam radius = Ok ring
    ∧ (fle (fsub azim (fdivc beam 2)) (fadd azim (fdivc beam 2)) = true →
       (3 ≤ length ring)%nat)
    ∧ (fle (fsub azim (fdivc beam 2)) (fadd azim (fdivc beam 2)) = false →
       ring = [{| pt_x := lon; pt_y := lat |};
               {| pt_x := lon; pt_y := lat |}])
    ∧ (∀ q a, beam = Finite q → (q == 0)%Q → azim = Finite a →
         (3 ≤ length ring)%nat
         ∧ (fle (fadd (fsub azim (fdivc beam 2)) (Finite 3))
              (fadd azim (fdivc beam 2)) = false →
            ∃ pt,
              arc_point lon lat (fdivc radius 111320)
                (fsub azim (fdivc beam 2)) = Ok pt
              ∧ ring = [{| pt_x := lon; pt_y := lat |}; pt;
                        {| pt_x := lon; pt_y := lat |}])).
Proof.
  intros Hrow.
  apply process_row_Ok in Hrow
    as (radius & beam & site & clat & lat & clon & lon & cazim & azim
        & target & ring & _ & _ & _ & _ & _ & _ & _ & Hgeom & ->).
  exists lon, lat, azim, beam, radius, ring.
  split_and!; try (by lookup_entry).
  all: apply create_wedge_geom_Ok in Hgeom as (pts & -> & Hlen & Hpts & Hend).
  - intros Hfirst. destruct pts as [|pt pts].
    + unfold sweep_angle in Hend. simpl in Hend. congruence.
    + simpl. rewrite length_app. simpl. lia.
  - intros Hfirst. destruct pts as [|pt pts]; [done|].
    destruct (Hpts 0%nat pt eq_refl) as [Hle _].
    unfold sweep_angle in Hle. simpl in Hle. congruence.
  - intros q a -> Hq ->. rewrite (fdivc_zero q 2 Hq) in *.
    change (fsub (Finite a) (Finite 0)) with (fadd (Finite a) (Finite 0))
      in *.
    assert (fle (fadd (Finite a) (Finite 0)) (fadd (Finite a) (Finite 0))
            = true) as Hfirst by apply fle_refl, round64_not_nan.
    destruct pts as [|pt pts].
    { change (fle (fadd (Finite a) (Finite 0)) (fadd (Finite a) (Finite 0))
              = false) in Hend.
      congruence. }
    split; [simpl; rewrite length_app; simpl; lia|].
    intros Hsecond. exists pt.
    destruct (Hpts 0%nat pt eq_refl) as [_ Hpt].
    split; [exact Hpt|].
    destruct pts as [|pt' pts]; [done|].
    destruct (Hpts 1%nat pt' eq_refl) as [Hle _].
    change (fle (fadd (fadd (Finite a) (Finite 0)) (Finite 3))
              (fadd (Finite a) (Finite 0)) = true) in Hle.
    congruence.
Qed.
End GeometryClaims.

Section GeometryOnReference.
Import RefRuntime.

Lemma wedge_ring_vertices_witness :
  ∃ row_data,
    process_row 10 Scenario.band_inputs false ["LTE1800"]
      (Scenario.band_row "LTE1800" "0") = Ok row_data
    ∧ ∃ lon lat azim beam radius ring,
        row_data !! "_lon" = Some (PFloat lon)
        ∧ row_data !! "_lat" = Some (PFloat lat)
        ∧ row_data !! "_azim" = Some (PFloat azim)
        ∧ row_data !! "_beam" = Some (PFloat beam)
        ∧ row_data !! "_radius" = Some (PFloat radius)
        ∧ row_data !! "_geom" = Some (PGeom ring)
        ∧ create_wedge_geom 10 lon lat azim beam radius = Ok ring
        ∧ (fle (fsub azim (fdivc beam 2)) (fadd azim (fdivc beam 2)) = true →
           (3 ≤ length ring)%nat)
        ∧ (fle (fsub azim (fdivc beam 2)) (fadd azim (fdivc beam 2))
           = false →
           ring = [{| pt_x := lon; pt_y := lat |};
                   {| pt_x := lon; pt_y := lat |}])
        ∧ (∀ q a, beam = Finite q → (q == 0)%Q → azim = Finite a →
             (3 ≤ length ring)%nat
             ∧ (fle (fadd (fsub azim (fdivc beam 2)) (Finite 3))
                  (fadd azim (fdivc beam 2)) = false →
                ∃ pt,
                  arc_point lon lat (fdivc radius 111320)
                    (fsub azim (fdivc beam 2)) = Ok pt
                  ∧ ring = [{| pt_x := lon; pt_y := lat |}; pt;
                            {| pt_x := lon; pt_y := lat |}])).
Proof.
  assert (is_ok (process_row 10 Scenario.band_inputs false ["LTE1800"]
                   (Scenario.band_row "LTE1800" "0")) = true) as Hrow
    by (vm_compute; reflexivity).
  apply (ok_value_eq ∅) in Hrow.
  eexists. split; [exact Hrow|].
  exact (wedge_ring_vertices _ _ _ _ _ _ Hrow).
Defined.

(** The ring of a row with the beamwidth 0: three vertices. *)
Example wedge_ring_zero_beam :
  ∃ row_data ring,
    process_row 10 Scenario.band_inputs false ["LTE1800"]
      (Scenario.band_row "LTE1800" "0") = Ok row_data
    ∧ row_data !! "_geom" = Some (PGeom ring)
    ∧ length ring = 3%nat.
Proof.
  assert (is_ok (process_row 10 Scenario.band_inputs false ["LTE1800"]
                   (Scenario.band_row "LTE1800" "0")) = true) as Hrow
    by (vm_compute; reflexivity).
  apply (ok_value_eq ∅) in Hrow.
  eexists _, _. split; [exact Hrow|].
  split; vm_compute; reflexivity.
Qed.

(** C5, as the specification words it, fails: a row with the beamwidth
    [-10] survives parsing, the loop of the sweep is not entered, and the
    ring is the origin twice.  So it is for a row with the azimuth [nan] and
    the beamwidth 65. *)
Lemma wedge_ring_two_points_counterexample :
  (∃ row_data ring,
     process_row 10 Scenario.band_inputs false ["LTE1800"]
       (Scenario.band_row "LTE1800" "-10") = Ok row_data
     ∧ row_data !! "_beam" = Some (PFloat (Finite (-10)))
     ∧ row_data !! "_geom" = Some (PGeom ring)
     ∧ ring = [{| pt_x := Finite 2; pt_y := Finite (3 # 2) |};
               {| pt_x := Finite 2; pt_y := Finite (3 # 2) |}]
     ∧ ¬ (3 ≤ length ring)%nat)
  ∧ (∃ row_data ring,
       process_row 10 Scenario.band_inputs false ["LTE1800"]
         (<["azim" := Some "nan"]> (Scenario.band_row "LTE1800" "65"))
       = Ok row_data
       ∧ row_data !! "_azim" = Some (PFloat NaN)
       ∧ row_data !! "_beam" = Some (PFloat (Finite 65))
       ∧ row_data !! "_geom" = Some (PGeom ring)
       ∧ ring = [{| pt_x := Finite 2; pt_y := Finite (3 # 2) |};
                 {| pt_x := Finite 2; pt_y := Finite (3 # 2) |}]
       ∧ ¬ (3 ≤ length ring)%nat).
Proof.
  split.
  - exists (ok_value ∅ (process_row 10 Scenario.band_inputs false ["LTE1800"]
                          (Scenario.band_row "LTE1800" "-10"))),
      [{| pt_x := Finite 2; pt_y := Finite (3 # 2) |};
       {| pt_x := Finite 2; pt_y := Finite (3 # 2) |}].
    split_and!.
    + apply ok_value_eq. vm_compute. reflexivity.
    + vm_compute. reflexivity.
    + vm_compute. reflexivity.
    + reflexivity.
    + simpl. lia.
  - exists (ok_value ∅ (process_row 10 Scenario.band_inputs false ["LTE1800"]
                          (<["azim" := Some "nan"]>
                             (Scenario.band_row "LTE1800" "65")))),
      [{| pt_x := Finite 2; pt_y := Finite (3 # 2) |};
       {| pt_x := Finite 2; pt_y := Finite (3 # 2) |}].
    split_and!.
    + apply ok_value_eq. vm_compute. reflexivity.
    + vm_compute. reflexivity.
    + vm_compute. reflexivity.
    + vm_compute. reflexivity.
    + reflexivity.
    + simpl. lia.
Qed.
End GeometryOnReference.

(** ** Band ranking and the resolved radius *)

Lemma list_index_Some (x : string) (l : list string) (r : nat) :
  list_index x l = Some r → l !! r = Some x.
Proof.
  revert r. induction l as [|y l IH]; intros r; simpl; [done|].
  destruct (decide (x = y)) as [->|Hne].
  - by intros [= <-].
  - destruct (list_index x l) as [r'|]; simpl; [|done].
    intros [= <-]. by apply IH.
Qed.

Lemma list_index_None (x : string) (l : list string) :
  list_index x l = None ↔ x ∉ l.
Proof.
  induction l as [|y l IH]; simpl.
  - split; [intros _; apply not_elem_of_nil | done].
  - rewrite not_elem_of_cons. destruct (decide (x = y)) as [->|Hne].
    + split; [done | by intros [? _]].
    + destruct (list_index x l) as [r'|]; simpl.
      * split; [done|]. intros [_ Hx]. by apply IH in Hx.
      * split; [|done]. intros _. split; [done | by apply IH].
Qed.

Lemma list_index_lookup (x : string) (l : list string) (r : nat) :
  NoDup l → l !! r = Some x → list_index x l = Some r.
Proof.
  intros Hnd Hr.
  destruct (list_index x l) as [r'|] eqn:Hidx.
  - apply list_index_Some in Hidx. f_equal.
    by eapply NoDup_lookup.
  - apply list_index_None in Hidx. destruct Hidx.
    by eapply list_elem_of_lookup_2.
Qed.

Lemma insert_by_key_perm {A : Type} (key : A → Z) (x : A) (l : list A) :
  insert_by_key key x l ≡ₚ x :: l.
Proof.
  induction l as [|y l IH]; simpl; [done|].
  destruct (key x <=? key y); [done|].
  rewrite IH. apply Permutation_swap.
Qed.

Lemma py_sorted_perm {A : Type} (key : A → Z) (l : list A) :
  py_sorted key l ≡ₚ l.
Proof.
  induction l as [|x l IH]; simpl; [done|].
  by rewrite insert_by_key_perm, IH.
Qed.

Lemma insert_by_key_sorted {A : Type} (key : A → Z) (x : A) (l : list A) :
  StronglySorted (λ a b, key a ≤ key b) l →
  StronglySorted (λ a b, key a ≤ key b) (insert_by_key key x l).
Proof.
  induction 1 as [|y l Hl IH Hy]; simpl.
  - repeat constructor.
  - destruct (key x <=? key y) eqn:Hxy.
    + apply Z.leb_le in Hxy. constructor; [by constructor|].
      constructor; [done|].
      eapply Forall_impl; [exact Hy|]. simpl. intros z Hz. lia.
    + apply Z.leb_gt in Hxy. constructor; [done|].
      rewrite insert_by_key_perm. constructor; [lia | done].
Qed.

Lemma py_sorted_sorted {A : Type} (key : A → Z) (l : list A) :
  StronglySorted (λ a b, key a ≤ key b) (py_sorted key l).
Proof.
  induction l as [|x l IH]; simpl; [constructor|].
  by apply insert_by_key_sorted.
Qed.

Lemma py_max_floor (a : float) :
  flt (py_max a (Finite 10)) (Finite 10) = false
  ∧ (fle (Finite 10) (py_max a (Finite 10)) = true
     ∨ py_max a (Finite 10) = NaN).
Proof.
  unfold py_max. destruct (flt a (Finite 10)) eqn:Hlt.
  - split; [reflexivity | by left].
  - split; [done|].
    destruct a as [x|[|]|]; simpl in *; try done; [|by left|by right].
    left. by destruct (Qle_bool 10 x).
Qed.

Section RankFacts.
Context `{Runtime}.

(** The ranked list holds each distinct band value once, in ascending order
    of the frequency key. *)
Lemma rank_bands_spec (band_col : string) (rows : list RawRow) :
  NoDup (rank_bands band_col rows)
  ∧ StronglySorted (λ a b, extract_numeric_freq a ≤ extract_numeric_freq b)
      (rank_bands band_col rows)
  ∧ ∀ b, b ∈ rank_bands band_col rows ↔ b ∈ band_values band_col rows.
Proof.
  unfold rank_bands. split_and!.
  - rewrite py_sorted_perm. apply set_list_NoDup.
  - apply py_sorted_sorted.
  - intros b. rewrite py_sorted_perm. apply set_list_elem.
Qed.

(** Whatever the iteration order of the set, two bands with different keys
    are ranked by key. *)
Lemma set_list_pair (a b : string) :
  a ≠ b → set_list [a; b] = [a; b] ∨ set_list [a; b] = [b; a].
Proof.
  intros Hab. apply Permutation_length_2_inv.
  apply NoDup_Permutation.
  - apply NoDup_cons. split; [|apply NoDup_singleton].
    intros Hin. by apply list_elem_of_singleton in Hin.
  - apply set_list_NoDup.
  - intros x. by rewrite set_list_elem.
Qed.

Lemma resolve_radius_manual (inputs : Inputs) (bands : list string)
    (row : RawRow) :
  col_radius (cols inputs) = USE_MANUAL →
  resolve_radius inputs bands row
  = match list_index
            (PyStr.strip
               (str_cell (default (Some "") (row !! col_band (cols inputs)))))
            bands with
    | Some rank =>
        Ok (py_max (fsub (manual_radius (manual inputs))
                      (float_of_int (Z.of_nat rank * 20))) (Finite 10))
    | None => Ok (manual_radius (manual inputs))
    end.
Proof. intros Hcol. unfold resolve_radius. by rewrite Hcol. Qed.
End RankFacts.

(** The frequency keys of the two bands of the example. *)
Lemma extract_numeric_freq_example `{Runtime} :
  extract_numeric_freq "LTE1800" = 1800
  ∧ extract_numeric_freq "LTE2100" = 2100.
Proof.
  unfold extract_numeric_freq, re_findall_digits.
  change (PyStr.codepoints "LTE1800")
    with [76; 84; 69; 49; 56; 48; 48]%N.
  change (PyStr.codepoints "LTE2100")
    with [76; 84; 69; 50; 49; 48; 48]%N.
  assert (∀ c, (c < 128)%N →
            is_decimal c = ((48 <=? c) && (c <=? 57))%N) as Hdec.
  { intros c Hc. unfold is_decimal. rewrite unicode_decimal_ascii by done.
    by destruct ((48 <=? c) && (c <=? 57))%N. }
  assert (∀ c, (c < 128)%N → ((48 <=? c) && (c <=? 57))%N = true →
            decimal_val c = Z.of_N c - 48) as Hval.
  { intros c Hc Hd. unfold decimal_val.
    rewrite unicode_decimal_ascii by done. by rewrite Hd. }
  assert (∀ run c s, (c < 128)%N →
            findall_digits_from run (c :: s)
            = if ((48 <=? c) && (c <=? 57))%N
              then findall_digits_from (run ++ [c])%list s
              else (flush run ++ findall_digits_from [] s)%list) as Hstep.
  { intros run c s Hc. cbn [findall_digits_from]. by rewrite Hdec. }
  rewrite !Hstep by done. simpl.
  rewrite !Hval by done. done.
Qed.

Section RadiusClaims.
Context `{Runtime}.

(** C7.  With a manual radius mapping, a row whose trimmed band value stands
    at 0-based rank [r] of the ranked band list (each distinct band once, in
    ascending order of the frequency key) gets the radius
    [max(manual_radius - 20 * r, 10)], and a row whose band value is not in
    the list gets the manual radius unmodified.  For two rows with the bands
    LTE1800 and LTE2100 and a manual radius of 200, whatever the iteration
    order of the set of bands, the ranked list is LTE1800, LTE2100 and the
    radii are 200 and 180. *)
Theorem manual_radius_by_band_rank :
  (∀ (fuel : nat) (inputs : Inputs) (is_pci_mode : bool)
     (rows : list RawRow) (row : RawRow) (row_data : RowData),
     let bands := rank_bands (col_band (cols inputs)) rows in
     let band_val :=
       PyStr.strip
         (str_cell (default (Some "") (row !! col_band (cols inputs)))) in
     col_radius (cols inputs) = USE_MANUAL →
     process_row fuel inputs is_pci_mode bands row = Ok row_data →
     NoDup bands
     ∧ StronglySorted
         (λ a b, extract_numeric_freq a ≤ extract_numeric_freq b) bands
     ∧ (∀ r : nat, bands !! r = Some band_val →
          row_data !! "_radius"
          = Some (PFloat (py_max (fsub (manual_radius (manual inputs))
                                    (float_of_int (Z.of_nat r * 20)))
                            (Finite 10))))
     ∧ (band_val ∉ bands →
        row_data !! "_radius"
        = Some (PFloat (manual_radius (manual inputs)))))
  ∧ (∀ (inputs : Inputs) (row1 row2 : RawRow),
       let bands := rank_bands (col_band (cols inputs)) [row1; row2] in
       col_radius (cols inputs) = USE_MANUAL →
       manual_radius (manual inputs) = Finite 200 →
       row1 !! col_band (cols inputs) = Some (Some "LTE1800") →
       row2 !! col_band (cols inputs) = Some (Some "LTE2100") →
       bands = ["LTE1800"; "LTE2100"]
       ∧ resolve_radius inputs bands row1 = Ok (Finite 200)
       ∧ resolve_radius inputs bands row2 = Ok (Finite 180)).
Proof.
  split.
  - intros fuel inputs is_pci_mode rows row row_data bands band_val Hcol Hrow.
    destruct (rank_bands_spec (col_band (cols inputs)) rows)
      as (Hnd & Hsorted & _).
    apply process_row_Ok in Hrow
      as (radius & beam & site & clat & lat & clon & lon & cazim & azim
          & target & ring & Hradius & _ & _ & _ & _ & _ & _ & _ & ->).
    rewrite resolve_radius_manual in Hradius by done.
    subst bands band_val. split_and!; [done|done| |].
    + intros r Hr. rewrite (list_index_lookup _ _ _ Hnd Hr) in Hradius.
      injection Hradius as <-. by lookup_entry.
    + intros Hnot. apply list_index_None in Hnot. rewrite Hnot in Hradius.
      injection Hradius as <-. by lookup_entry.
  - intros inputs row1 row2 bands Hcol Hmanual Hrow1 Hrow2.
    assert (bands = ["LTE1800"; "LTE2100"]) as Hbands.
    { unfold bands, rank_bands, band_values. simpl.
      rewrite Hrow1, Hrow2. simpl.
      change (PyStr.strip "LTE1800") with "LTE1800".
      change (PyStr.strip "LTE2100") with "LTE2100".
      destruct extract_numeric_freq_example as [H1800 H2100].
      destruct (set_list_pair "LTE1800" "LTE2100") as [-> | ->];
        [done| |]; simpl; by rewrite H1800, H2100. }
    split; [done|]. rewrite Hbands.
    rewrite !resolve_radius_manual by done.
    rewrite Hrow1, Hrow2, Hmanual. split; vm_compute; reflexivity.
Qed.

(** C2 (as amended).  With a manual radius mapping, a row whose trimmed band
    value is in the ranked band list gets a radius that is never less than
    10 (it is 10 or more, or it is NaN), and a row whose band value is not
    in the list gets the manual radius as it is, with no floor.  With a
    radius column, the radius is the float parsed from the cell, with no
    floor. *)
Theorem radius_floor_only_when_ranked (fuel : nat) (inputs : Inputs)
    (is_pci_mode : bool) (bands : list string) (row : RawRow)
    (row_data : RowData) :
  process_row fuel inputs is_pci_mode bands row = Ok row_data →
  let band_val :=
    PyStr.strip
      (str_cell (default (Some "") (row !! col_band (cols inputs)))) in
  (col_radius (cols inputs) = USE_MANUAL → band_val ∈ bands →
   ∃ x, row_data !! "_radius" = Some (PFloat x)
        ∧ flt x (Finite 10) = false
        ∧ (fle (Finite 10) x = true ∨ x = NaN))
  ∧ (col_radius (cols inputs) = USE_MANUAL → band_val ∉ bands →
     row_data !! "_radius" = Some (PFloat (manual_radius (manual inputs))))
  ∧ (col_radius (cols inputs) ≠ USE_MANUAL →
     ∃ s x, row !! col_radius (cols inputs) = Some (Some s)
            ∧ py_float s = Some x
            ∧ row_data !! "_radius" = Some (PFloat x)).
Proof.
  intros Hrow band_val.
  apply process_row_Ok in Hrow
    as (radius & beam & site & clat & lat & clon & lon & cazim & azim
        & target & ring & Hradius & _ & _ & _ & _ & _ & _ & _ & ->).
  split_and!.
  - intros Hcol Hin. rewrite resolve_radius_manual in Hradius by done.
    subst band_val.
    destruct (list_index _ bands) as [rank|] eqn:Hidx.
    + injection Hradius as <-. eexists. split; [by lookup_entry|].
      apply py_max_floor.
    + by apply list_index_None in Hidx.
  - intros Hcol Hnot. rewrite resolve_radius_manual in Hradius by done.
    subst band_val.
    apply list_index_None in Hnot. rewrite Hnot in Hradius.
    injection Hradius as <-. by lookup_entry.
  - intros Hcol. unfold resolve_radius in Hradius.
    destruct (decide (col_radius (cols inputs) = USE_MANUAL)); [done|].
    apply bind_Ok in Hradius as (c & Hc%getitem_Ok & Hfloat).
    apply float_cell_Ok in Hfloat as (s & -> & Hs).
    exists s, radius. split_and!; [done|done|by lookup_entry].
Qed.
End RadiusClaims.

Section RadiusOnReference.
Import RefRuntime.

Lemma manual_radius_by_band_rank_witness :
  let rows := [Scenario.band_row "LTE1800" "65";
               Scenario.band_row "LTE2100" "65"] in
  rank_bands "band" rows = ["LTE1800"; "LTE2100"]
  ∧ resolve_radius Scenario.band_inputs (rank_bands "band" rows)
      (Scenario.band_row "LTE1800" "65") = Ok (Finite 200)
  ∧ resolve_radius Scenario.band_inputs (rank_bands "band" rows)
      (Scenario.band_row "LTE2100" "65") = Ok (Finite 180)
  ∧ ∃ row_data,
      process_row 100 Scenario.band_inputs false (rank_bands "band" rows)
        (Scenario.band_row "LTE2100" "65") = Ok row_data
      ∧ row_data !! "_radius" = Some (PFloat (Finite 180)).
Proof.
  intros rows.
  destruct manual_radius_by_band_rank as [Hrank Hexample].
  assert (Scenario.band_row "LTE1800" "65" !! "band" = Some (Some "LTE1800"))
    as Hrow1 by (vm_compute; reflexivity).
  assert (Scenario.band_row "LTE2100" "65" !! "band" = Some (Some "LTE2100"))
    as Hrow2 by (vm_compute; reflexivity).
  destruct (Hexample Scenario.band_inputs _ _ eq_refl eq_refl Hrow1 Hrow2)
    as (Hbands & Hr1 & Hr2).
  split_and!; [exact Hbands | exact Hr1 | exact Hr2 |].
  assert (is_ok (process_row 100 Scenario.band_inputs false
                   (rank_bands "band" rows)
                   (Scenario.band_row "LTE2100" "65")) = true) as Hrow
    by (vm_compute; reflexivity).
  apply (ok_value_eq ∅) in Hrow.
  eexists. split; [exact Hrow|].
  destruct (Hrank 100%nat Scenario.band_inputs false rows _ _ eq_refl Hrow)
    as (_ & _ & Hat & _).
  apply (Hat 1%nat). vm_compute. reflexivity.
Defined.

Lemma radius_floor_only_when_ranked_witness :
  ∃ row_data x,
    process_row 100 Scenario.band_inputs false ["LTE1800"]
      (Scenario.band_row "LTE1800" "65") = Ok row_data
    ∧ row_data !! "_radius" = Some (PFloat x)
    ∧ flt x (Finite 10) = false
    ∧ (fle (Finite 10) x = true ∨ x = NaN).
Proof.
  assert (is_ok (process_row 100 Scenario.band_inputs false ["LTE1800"]
                   (Scenario.band_row "LTE1800" "65")) = true) as Hrow
    by (vm_compute; reflexivity).
  apply (ok_value_eq ∅) in Hrow.
  destruct (radius_floor_only_when_ranked _ _ _ _ _ _ Hrow)
    as (Hfloor & _ & _).
  destruct Hfloor as (x & Hx & Hle); [reflexivity| |].
  - vm_compute. apply list_elem_of_here.
  - eexists _, x. split; [exact Hrow|]. split; [exact Hx | exact Hle].
Defined.

(** C2, as the specification words it, fails: in a PCI audit with no band
    column mapped the band list is empty, so with a manual radius of 5 the
    row keeps the radius 5, below 10. *)
Lemma manual_radius_below_floor_counterexample :
  col_radius (cols Scenario.pci_inputs) = USE_MANUAL
  ∧ get_inputs (dialog_after Scenario.pci_actions) = Ok Scenario.pci_inputs
  ∧ (∀ w, first_pass w Scenario.pci_inputs = Some [])
  ∧ ∃ row_data,
      process_row 100 Scenario.pci_inputs true [] Scenario.pci_row
      = Ok row_data
      ∧ row_data !! "_radius" = Some (PFloat (Finite 5))
      ∧ flt (Finite 5) (Finite 10) = true.
Proof.
  split_and!.
  - reflexivity.
  - vm_compute. reflexivity.
  - intros w. reflexivity.
  - exists (ok_value ∅ (process_row 100 Scenario.pci_inputs true []
                          Scenario.pci_row)).
    split_and!.
    + apply ok_value_eq. vm_compute. reflexivity.
    + vm_compute. reflexivity.
    + reflexivity.
Qed.
End RadiusOnReference.

(** ** PCI classification and colours *)

Lemma dialog_step_inv (d : Dialog) (a : user_action) :
  dialog_inv d → dialog_inv (dialog_step d a).
Proof.
  unfold dialog_inv.
  intros (Hlen & Hmod & Hband & Hpci).
  destruct a as [path|c|radius beam|second|mod6|colors|i color|v|v|fmt path];
    simpl; split_and!; try done; try (unfold clamp_percent; lia).
  - destruct mod6; auto.
  - by rewrite length_insert.
Qed.

Lemma dialog_after_inv (actions : list user_action) :
  dialog_inv (dialog_after actions).
Proof.
  unfold dialog_after.
  assert (dialog_inv setup_ui) as Hinit.
  { unfold dialog_inv. simpl. split_and!; auto; lia. }
  revert Hinit. generalize setup_ui.
  induction actions as [|a actions IH]; intros d Hd; simpl; [done|].
  by apply IH, dialog_step_inv.
Qed.

Lemma int_str_small (k : Z) :
  0 ≤ k ≤ 5 → PyStr.int_str (PyStr.str_int k) = Some k.
Proof.
  intros Hk.
  assert (k = 0 ∨ k = 1 ∨ k = 2 ∨ k = 3 ∨ k = 4 ∨ k = 5)
    as [->|[->|[->|[->|[->| ->]]]]] by lia;
    vm_compute; reflexivity.
Qed.

Section PciFacts.
Context `{Runtime}.

Lemma get_inputs_Ok (d : Dialog) (inputs : Inputs) :
  get_inputs d = Ok inputs →
  list_getitem [3; 6] (combo_mod d) = Ok (mod_type (pci_params inputs))
  ∧ pci_colors (pci_params inputs) = btn_pci_colors d
  ∧ pci_opacity (pci_params inputs) = spin_opacity_pci d
  ∧ band_opacity (band_params inputs) = spin_opacity_band d
  ∧ cols inputs = combos d.
Proof.
  unfold get_inputs. intros Hin. bind_inv Hin. by injection Hin as <-.
Qed.

Lemma get_inputs_pci (actions : list user_action) (inputs : Inputs) :
  get_inputs (dialog_after actions) = Ok inputs →
  (mod_type (pci_params inputs) = 3 ∨ mod_type (pci_params inputs) = 6)
  ∧ length (pci_colors (pci_params inputs)) = 6%nat.
Proof.
  intros (Hmod & -> & _)%get_inputs_Ok.
  destruct (dialog_after_inv actions) as (Hlen & Hcombo & _).
  split; [|done].
  destruct Hcombo as [Hc|Hc]; rewrite Hc in Hmod;
    injection Hmod as <-; auto.
Qed.

Lemma resolve_target_pci (inputs : Inputs) (row : RawRow) (target : string) :
  resolve_target inputs true row = Ok target →
  ∃ s v n, row !! col_pci (cols inputs) = Some (Some s)
           ∧ py_float s = Some v
           ∧ int_float v = Ok n
           ∧ mod_type (pci_params inputs) ≠ 0
           ∧ target = PyStr.str_int (n `mod` mod_type (pci_params inputs)).
Proof.
  unfold resolve_target. simpl. intros Ht.
  apply bind_Ok in Ht as (c & Hc%getitem_Ok & Ht).
  apply bind_Ok in Ht as (v & Hv & Ht).
  apply bind_Ok in Ht as (n & Hn & Ht).
  apply float_cell_Ok in Hv as (s & -> & Hs).
  destruct (mod_type (pci_params inputs) =? 0) eqn:Hm; [done|].
  apply Z.eqb_neq in Hm. injection Ht as <-. by exists s, v, n.
Qed.
End PciFacts.

Section PciClaims.
Context `{Runtime}.

(** C6.  In PCI mode with a modulo divisor of 3 or 6, the target
    classification of a row that survives parsing is the string form of
    [int(v) mod m], where [v] is the float parsed from the PCI cell (of any
    sign, fractional or not), and that integer lies in [0, m - 1]. *)
Theorem pci_target_in_range (fuel : nat) (inputs : Inputs)
    (bands : list string) (row : RawRow) (row_data : RowData) :
  mod_type (pci_params inputs) = 3 ∨ mod_type (pci_params inputs) = 6 →
  process_row fuel inputs true bands row = Ok row_data →
  ∃ s v n,
    row !! col_pci (cols inputs) = Some (Some s)
    ∧ py_float s = Some v
    ∧ int_float v = Ok n
    ∧ row_data !! "_target_val"
      = Some (PStr (PyStr.str_int (n `mod` mod_type (pci_params inputs))))
    ∧ 0 ≤ n `mod` mod_type (pci_params inputs)
        ≤ mod_type (pci_params inputs) - 1.
Proof.
  intros Hmod Hrow.
  apply process_row_Ok in Hrow
    as (radius & beam & site & clat & lat & clon & lon & cazim & azim
        & target & ring & _ & _ & _ & _ & _ & _ & Htarget & _ & ->).
  apply resolve_target_pci in Htarget as (s & v & n & Hs & Hv & Hn & _ & ->).
  exists s, v, n. split_and!; [done|done|done|by lookup_entry| |].
  - apply Z.mod_pos_bound. lia.
  - pose proof (Z.mod_pos_bound n (mod_type (pci_params inputs))).
    lia.
Qed.

(** C10.  For the configuration [get_inputs] builds from the dialog after
    any sequence of user actions, the modulo divisor is 3 or 6 and there are
    six PCI colours; so for every row that survives parsing in PCI mode the
    index [int(target)] lies in [0, 5] and below the divisor, the test
    [idx < 6] of the symbology loop succeeds, and the lookup returns the
    colour at that index: neither an out-of-range access nor the gray
    fallback happens. *)
Theorem pci_color_index_in_bounds (fuel : nat) (actions : list user_action)
    (inputs : Inputs) (bands : list string) (row : RawRow)
    (row_data : RowData) :
  get_inputs (dialog_after actions) = Ok inputs →
  process_row fuel inputs true bands row = Ok row_data →
  (mod_type (pci_params inputs) = 3 ∨ mod_type (pci_params inputs) = 6)
  ∧ length (pci_colors (pci_params inputs)) = 6%nat
  ∧ ∃ target idx color,
      row_data !! "_target_val" = Some (PStr target)
      ∧ int_of_target target = Ok idx
      ∧ 0 ≤ idx ≤ 5
      ∧ idx < mod_type (pci_params inputs)
      ∧ (idx <? 6) = true
      ∧ pci_colors (pci_params inputs) !! Z.to_nat idx = Some color
      ∧ col_hex_of inputs true target = Ok color.
Proof.
  intros Hinputs Hrow.
  destruct (get_inputs_pci _ _ Hinputs) as [Hmod Hlen].
  split; [done|]. split; [done|].
  destruct (pci_target_in_range _ _ _ _ _ Hmod Hrow)
    as (s & v & n & _ & _ & _ & Htarget & Hrange).
  set (idx := n `mod` mod_type (pci_params inputs)) in *.
  assert (0 ≤ idx ≤ 5) as Hidx by (destruct Hmod as [Hm|Hm]; lia).
  destruct (lookup_lt_is_Some_2 (pci_colors (pci_params inputs))
              (Z.to_nat idx)) as [color Hcolor]; [lia|].
  exists (PyStr.str_int idx), idx, color.
  assert (int_of_target (PyStr.str_int idx) = Ok idx) as Hint.
  { unfold int_of_target. by rewrite int_str_small. }
  assert ((idx <? 6) = true) as Hlt by (apply Z.ltb_lt; lia).
  split_and!; try done; try lia.
  unfold col_hex_of. simpl. rewrite Hint. simpl. rewrite Hlt.
  unfold list_getitem.
  assert ((idx <? 0) = false) as Hneg by (apply Z.ltb_ge; lia).
  by rewrite !Hneg, Hcolor.
Qed.
End PciClaims.

Section PciOnReference.
Import RefRuntime.

Lemma pci_target_in_range_witness :
  ∃ row_data s v n,
    process_row 100 Scenario.pci_inputs true [] Scenario.pci_row_negative
    = Ok row_data
    ∧ Scenario.pci_row_negative !! "pci" = Some (Some s)
    ∧ py_float s = Some v
    ∧ int_float v = Ok n
    ∧ row_data !! "_target_val" = Some (PStr (PyStr.str_int (n `mod` 3)))
    ∧ 0 ≤ n `mod` 3 ≤ 2.
Proof.
  assert (is_ok (process_row 100 Scenario.pci_inputs true []
                   Scenario.pci_row_negative) = true) as Hrow
    by (vm_compute; reflexivity).
  apply (ok_value_eq ∅) in Hrow.
  destruct (pci_target_in_range 100 Scenario.pci_inputs [] _ _
              (or_introl eq_refl) Hrow)
    as (s & v & n & Hs & Hv & Hn & Ht & Hrange).
  eexists _, s, v, n.
  split; [exact Hrow|]. split; [exact Hs|]. split; [exact Hv|].
  split; [exact Hn|]. split; [exact Ht | exact Hrange].
Defined.

(** The classification of a negative, fractional PCI value: [int(-1.5)] is
    -1 and [-1 % 3] is 2. *)
Example pci_target_negative_fraction :
  ∃ row_data,
    process_row 100 Scenario.pci_inputs true [] Scenario.pci_row_negative
    = Ok row_data
    ∧ int_float (Finite (-3 # 2)) = Ok (-1)
    ∧ row_data !! "_target_val" = Some (PStr "2").
Proof.
  exists (ok_value ∅ (process_row 100 Scenario.pci_inputs true []
                        Scenario.pci_row_negative)).
  split_and!; [|reflexivity|vm_compute; reflexivity].
  apply ok_value_eq. vm_compute. reflexivity.
Qed.

Lemma pci_color_index_in_bounds_witness :
  ∃ row_data target idx color,
    get_inputs (dialog_after Scenario.pci_actions) = Ok Scenario.pci_inputs
    ∧ process_row 100 Scenario.pci_inputs true [] Scenario.pci_row
      = Ok row_data
    ∧ row_data !! "_target_val" = Some (PStr target)
    ∧ int_of_target target = Ok idx
    ∧ 0 ≤ idx ≤ 5
    ∧ (idx <? 6) = true
    ∧ col_hex_of Scenario.pci_inputs true target = Ok color.
Proof.
  assert (get_inputs (dialog_after Scenario.pci_actions)
          = Ok Scenario.pci_inputs) as Hinputs by (vm_compute; reflexivity).
  assert (is_ok (process_row 100 Scenario.pci_inputs true []
                   Scenario.pci_row)
          = true) as Hrow by (vm_compute; reflexivity).
  apply (ok_value_eq ∅) in Hrow.
  destruct (pci_color_index_in_bounds _ _ _ _ _ _ Hinputs Hrow)
    as (_ & _ & target & idx & color & Ht & Hidx & Hrange & _ & Hlt & _ & Hc).
  eexists _, target, idx, color.
  split; [exact Hinputs|]. split; [exact Hrow|]. split; [exact Ht|].
  split; [exact Hidx|]. split; [exact Hrange|]. split; [exact Hlt | exact Hc].
Defined.
End PciOnReference.

(** ** Fill colour of the KML export *)

Lemma alpha_value (p : Z) :
  0 ≤ p → Qtrunc (inject_Z p / 100 * 255)%Q = p * 255 / 100.
Proof.
  intros Hp. unfold Qtrunc. simpl.
  rewrite Z.mul_1_r. apply Z.quot_div_nonneg; lia.
Qed.

(** On the range of the spin box the alpha byte computed in floats, as the
    code does, is the one of the exact computation. *)
Lemma alpha_in_floats (p : Z) :
  0 ≤ p ≤ 100 → alpha_float p = Ok (p * 255 / 100).
Proof.
  intros Hp.
  assert (forallb (λ n, match alpha_float (Z.of_nat n) with
                        | Ok a => a =? Z.of_nat n * 255 / 100
                        | _ => false
                        end) (seq 0 101) = true) as Hall
    by (vm_compute; reflexivity).
  rewrite forallb_forall in Hall.
  specialize (Hall (Z.to_nat p)). rewrite Z2Nat.id in Hall by lia.
  assert (In (Z.to_nat p) (seq 0 101)) as Hin by (apply in_seq; lia).
  specialize (Hall Hin).
  destruct (alpha_float p) as [a| |]; [|done|done].
  f_equal. by apply Z.eqb_eq.
Qed.

Lemma format_02X_byte (a : Z) :
  0 ≤ a < 256 → PyStr.format_02X a = two_hex a.
Proof.
  intros Ha.
  assert (forallb (λ n, bool_decide (PyStr.format_02X (Z.of_nat n)
                                     = two_hex (Z.of_nat n)))
            (seq 0 256) = true) as Hall by (vm_compute; reflexivity).
  rewrite forallb_forall in Hall.
  specialize (Hall (Z.to_nat a)). rewrite Z2Nat.id in Hall by lia.
  apply bool_decide_eq_true in Hall; [done|].
  apply in_seq. lia.
Qed.

Lemma is_hex_not_hash (c : ascii) : is_hex c = true → c ≠ "#"%char.
Proof. by intros Hc ->. Qed.

(** C4 (as amended).  For a colour [#RRGGBB] of hexadecimal digits and an
    opacity percent [p] in [0, 100], the fill colour is the lower-cased
    eight-character string AABBGGRR, where the alpha byte is
    [int(p / 100 * 255)], that is [255 * p / 100] rounded down, written as
    two hexadecimal digits, and the blue, green and red channels follow in
    that order. *)
Theorem kml_color_truncated_alpha (r g b : string) (p : Z) :
  is_hex_pair r = true → is_hex_pair g = true → is_hex_pair b = true →
  0 ≤ p ≤ 100 →
  hex_to_kml_color ("#" +:+ r +:+ g +:+ b) p
  = PyStr.lower (two_hex (p * 255 / 100) +:+ b +:+ g +:+ r)
  ∧ 0 ≤ p * 255 / 100 ≤ 255
  ∧ String.length (hex_to_kml_color ("#" +:+ r +:+ g +:+ b) p) = 8%nat
  ∧ alpha_float p = Ok (p * 255 / 100).
Proof.
  intros Hr Hg Hb Hp.
  pose proof (alpha_in_floats p Hp) as Hfloat.
  assert (0 ≤ p * 255 / 100 ≤ 255) as Ha.
  { split; [apply Z.div_pos; lia|].
    apply Z.lt_succ_r, Z.div_lt_upper_bound; lia. }
  destruct r as [|r1 [|r2 [|]]]; try discriminate Hr.
  destruct g as [|g1 [|g2 [|]]]; try discriminate Hg.
  destruct b as [|b1 [|b2 [|]]]; try discriminate Hb.
  apply andb_true_iff in Hr as [Hr1%is_hex_not_hash _].
  unfold hex_to_kml_color.
  rewrite alpha_value, format_02X_byte by lia.
  rewrite !PyStrFacts.sapp_cons, !PyStrFacts.sapp_nil_l. simpl.
  destruct (decide (r1 = "#"%char)); [done|]. simpl.
  split; [reflexivity|]. split; [exact Ha|]. split; [reflexivity | done].
Qed.

Lemma kml_color_truncated_alpha_witness :
  hex_to_kml_color ("#" +:+ "ff" +:+ "80" +:+ "0A") 50
  = PyStr.lower (two_hex (50 * 255 / 100) +:+ "0A" +:+ "80" +:+ "ff")
  ∧ 0 ≤ 50 * 255 / 100 ≤ 255
  ∧ String.length
      (hex_to_kml_color ("#" +:+ "ff" +:+ "80" +:+ "0A") 50) = 8%nat
  ∧ alpha_float 50 = Ok (50 * 255 / 100).
Proof.
  apply (kml_color_truncated_alpha "ff" "80" "0A" 50);
    [reflexivity | reflexivity | reflexivity | lia].
Defined.

(** C4, as the specification words it, fails: at 50 percent the product is
    127.5, [int] truncates it to 127 (7f) where [round] gives 128 (80). *)
Lemma kml_color_rounding_counterexample :
  hex_to_kml_color "#ff0000" 50 = "7f0000ff"
  ∧ kml_color_as_specified "ff" "00" "00" 50 = "800000ff"
  ∧ hex_to_kml_color "#ff0000" 50 ≠ kml_color_as_specified "ff" "00" "00" 50.
Proof. split_and!; [reflexivity | reflexivity | discriminate]. Qed.

(** ** Names of the KML placemarks *)

Lemma replace_char_app (c : ascii) (by_ s t : string) :
  PyStr.replace_char c by_ (s +:+ t)
  = PyStr.replace_char c by_ s +:+ PyStr.replace_char c by_ t.
Proof.
  induction s as [|a s IH]; [done|].
  rewrite PyStrFacts.sapp_cons. simpl.
  by rewrite IH, PyStrFacts.sapp_assoc.
Qed.

Lemma mapM_Ok {A B : Type} (f : A → result B) (l : list A) (k : list B) :
  mapM f l = Ok k ↔ Forall2 (λ x y, f x = Ok y) l k.
Proof.
  revert k. induction l as [|x l IH]; intros k; simpl.
  - split; [intros [= <-]; constructor | by inversion 1].
  - split.
    + intros Hm. apply bind_Ok in Hm as (y & Hy & Hm).
      apply bind_Ok in Hm as (k' & Hk' & [= <-]).
      constructor; [done | by apply IH].
    + inversion 1 as [|? y ? k' Hy Hk']; subst.
      apply bind_Ok. exists y. split; [done|].
      apply bind_Ok. exists k'. split; [by apply IH | done].
Qed.

Section NameFacts.
Context `{Runtime}.

Lemma escape_xml_app (s t : string) :
  escape_xml (PStr (s +:+ t)) = escape_xml (PStr s) +:+ escape_xml (PStr t).
Proof. unfold escape_xml. simpl. by rewrite !replace_char_app. Qed.

(** The site-column entry of a record the classifier built. *)
Lemma process_row_site (fuel : nat) (inputs : Inputs) (is_pci_mode : bool)
    (bands : list string) (row : RawRow) (row_data : RowData) :
  process_row fuel inputs is_pci_mode bands row = Ok row_data →
  ∃ site target ring,
    row_data !! col_site (cols inputs) = Some site
    ∧ row_data !! "_target_val" = Some (PStr target)
    ∧ row_data !! "_geom" = Some (PGeom ring)
    ∧ (col_site (cols inputs) ∉ derived_keys →
       row_data !! "_site" = Some (PStr (py_str site))).
Proof.
  intros Hrow.
  apply process_row_Ok in Hrow
    as (radius & beam & cell & clat & lat & clon & lon & cazim & azim
        & target & ring & _ & _ & Hsite & _ & _ & _ & _ & _ & ->).
  set (rd := <["_geom" := _]> _).
  assert (is_Some (rd !! col_site (cols inputs))) as [site Hlookup].
  { unfold rd. rewrite !lookup_insert_is_Some', lookup_fmap, Hsite.
    do 8 right. by eexists. }
  exists site, target, ring.
  split; [done|]. split; [by unfold rd; lookup_entry|].
  split; [by unfold rd; lookup_entry|].
  intros Hkey. unfold derived_keys in Hkey.
  rewrite !not_elem_of_cons in Hkey.
  destruct Hkey as (? & ? & ? & ? & ? & ? & ? & _).
  unfold rd in *. rewrite !lookup_insert_ne in Hlookup by done.
  lookup_entry. f_equal. f_equal.
  destruct (decide (col_site (cols inputs) = "_site")) as [Heq|Hne].
  - rewrite Heq, lookup_insert_eq in Hlookup. by injection Hlookup as <-.
  - rewrite lookup_insert_ne, lookup_fmap, Hsite in Hlookup by done.
    injection Hlookup as <-. by destruct cell.
Qed.
End NameFacts.

Section NameClaims.
Context `{Runtime}.

(** The placemark of one record the classifier built. *)
Lemma sector_placemark_name (fuel : nat) (inputs : Inputs)
    (is_pci_mode : bool) (bands : list string) (row : RawRow)
    (row_data : RowData) (headers : list string)
    (colors_map : gmap string string) (opacity_val : Z) :
  process_row fuel inputs is_pci_mode bands row = Ok row_data →
  ∃ pm site target,
    sector_placemark inputs headers colors_map is_pci_mode opacity_val
      row_data = Ok pm
    ∧ row_data !! col_site (cols inputs) = Some site
    ∧ row_data !! "_target_val" = Some (PStr target)
    ∧ (col_site (cols inputs) ∉ derived_keys →
       row_data !! "_site" = Some (PStr (py_str site)))
    ∧ pm_name pm
      = escape_xml site +:+ "_" +:+ (if is_pci_mode then "Mod_" else "")
          +:+ escape_xml (PStr target).
Proof.
  intros Hrow.
  destruct (process_row_site _ _ _ _ _ _ Hrow)
    as (site & target & ring & Hsite & Htarget & Hgeom & Hid).
  unfold sector_placemark, getitem.
  rewrite Htarget, Hgeom, Hsite. simpl.
  eexists _, site, target. split; [reflexivity|].
  split_and!; try done. simpl.
  destruct is_pci_mode; [|done].
  by rewrite escape_xml_app.
Qed.

(** C3 (as amended).  In the KML export of records the classifier built,
    every per-sector entry is written, and its name is the XML-escaped site
    column entry of the record (the site id), one underscore, and then: in
    band mode the XML-escaped band string; in PCI mode the prefix [Mod_]
    followed by the XML-escaped stringified PCI-modulo integer. *)
Theorem kml_sector_names (inputs : Inputs) (is_pci_mode : bool)
    (headers : list string) (colors_map : gmap string string)
    (data : list RowData) :
  Forall (λ row_data, ∃ fuel bands row,
            process_row fuel inputs is_pci_mode bands row = Ok row_data)
    data →
  ∃ doc,
    export_to_kml data inputs headers colors_map is_pci_mode = Ok doc
    ∧ Forall2
        (λ row_data pm, ∃ site target,
           row_data !! col_site (cols inputs) = Some site
           ∧ row_data !! "_target_val" = Some (PStr target)
           ∧ (col_site (cols inputs) ∉ derived_keys →
              row_data !! "_site" = Some (PStr (py_str site)))
           ∧ pm_name pm
             = escape_xml site +:+ "_"
                 +:+ (if is_pci_mode then "Mod_" else "")
                 +:+ escape_xml (PStr target))
        data (kml_sectors doc).
Proof.
  intros Hdata. unfold export_to_kml.
  set (opacity_val := if is_pci_mode then pci_opacity _ else _).
  assert (∃ sectors,
            Forall2 (λ rd pm,
                       sector_placemark inputs headers colors_map is_pci_mode
                         opacity_val rd = Ok pm) data sectors
            ∧ Forall2
                (λ row_data pm, ∃ site target,
                   row_data !! col_site (cols inputs) = Some site
                   ∧ row_data !! "_target_val" = Some (PStr target)
                   ∧ (col_site (cols inputs) ∉ derived_keys →
                      row_data !! "_site" = Some (PStr (py_str site)))
                   ∧ pm_name pm
                     = escape_xml site +:+ "_"
                         +:+ (if is_pci_mode then "Mod_" else "")
                         +:+ escape_xml (PStr target))
                data sectors) as (sectors & Hrun & Hnames).
  { induction Hdata as [|rd data (fuel & bands & row & Hrow) _ IH].
    - exists []. by split; constructor.
    - destruct IH as (sectors & Hrun & Hnames).
      destruct (sector_placemark_name _ _ _ _ _ _ headers colors_map
                  opacity_val Hrow) as (pm & site & target & Hpm & Hrest).
      exists (pm :: sectors). split; constructor; try done.
      by exists site, target. }
  apply mapM_Ok in Hrun. rewrite Hrun. simpl.
  eexists. split; [reflexivity | exact Hnames].
Qed.
End NameClaims.

Section NameOnReference.
Import RefRuntime.

Lemma kml_sector_names_witness :
  ∃ row_data doc,
    process_row 100 Scenario.band_inputs false ["LTE1800"]
      (Scenario.band_row "LTE1800" "65") = Ok row_data
    ∧ export_to_kml [row_data] Scenario.band_inputs Scenario.headers ∅ false
      = Ok doc
    ∧ Forall2
        (λ row_data pm, ∃ site target,
           row_data !! "site" = Some site
           ∧ row_data !! "_target_val" = Some (PStr target)
           ∧ pm_name pm
             = escape_xml site +:+ "_" +:+ "" +:+ escape_xml (PStr target))
        [row_data] (kml_sectors doc).
Proof.
  assert (is_ok (process_row 100 Scenario.band_inputs false ["LTE1800"]
                   (Scenario.band_row "LTE1800" "65")) = true) as Hrow
    by (vm_compute; reflexivity).
  apply (ok_value_eq ∅) in Hrow.
  destruct (kml_sector_names Scenario.band_inputs false Scenario.headers ∅
              [ok_value ∅ (process_row 100 Scenario.band_inputs false ["LTE1800"]
                             (Scenario.band_row "LTE1800" "65"))])
    as (doc & Hdoc & Hnames).
  { constructor; [|constructor]. eexists _, _, _. exact Hrow. }
  eexists _, doc. split; [exact Hrow|]. split; [exact Hdoc|].
  eapply Forall2_impl; [exact Hnames|]. simpl.
  intros rd pm (site & target & Hsite & Htarget & _ & Hname).
  exists site, target. split; [exact Hsite|]. split; [exact Htarget|].
  exact Hname.
Defined.

(** The name written for site S1 and band LTE1800 in band mode. *)
Example kml_band_name :
  ∃ row_data pm,
    process_row 100 Scenario.band_inputs false ["LTE1800"]
      (Scenario.band_row "LTE1800" "65") = Ok row_data
    ∧ sector_placemark Scenario.band_inputs Scenario.headers ∅ false 50
        row_data = Ok pm
    ∧ pm_name pm = "S1_LTE1800".
Proof.
  set (rd := ok_value ∅ (process_row 100 Scenario.band_inputs false ["LTE1800"]
                           (Scenario.band_row "LTE1800" "65"))).
  exists rd,
    (ok_value {| pm_name := ""; pm_data := []; pm_modulo_result := None;
                 pm_poly_color := ""; pm_coordinates := "" |}
       (sector_placemark Scenario.band_inputs Scenario.headers ∅ false 50
          rd)).
  split_and!.
  - apply ok_value_eq. vm_compute. reflexivity.
  - apply ok_value_eq. vm_compute. reflexivity.
  - vm_compute. reflexivity.
Qed.

(** C3, as the specification words it, fails: in PCI mode the name of the
    entry for site S1 and target 2 is S1_Mod_2, not S1_2. *)
Lemma kml_pci_name_counterexample :
  ∃ row_data pm,
    process_row 100 Scenario.pci_inputs true [] Scenario.pci_row
    = Ok row_data
    ∧ row_data !! "_site" = Some (PStr "S1")
    ∧ row_data !! "_target_val" = Some (PStr "2")
    ∧ sector_placemark Scenario.pci_inputs ["site"; "lat"; "lon"; "azim"; "pci"]
        ∅ true 60 row_data = Ok pm
    ∧ pm_name pm = "S1_Mod_2"
    ∧ name_as_specified "S1" "2" = "S1_2"
    ∧ pm_name pm ≠ name_as_specified "S1" "2".
Proof.
  set (rd := ok_value ∅ (process_row 100 Scenario.pci_inputs true []
                           Scenario.pci_row)).
  set (pm :=
         ok_value {| pm_name := ""; pm_data := []; pm_modulo_result := None;
                     pm_poly_color := ""; pm_coordinates := "" |}
           (sector_placemark Scenario.pci_inputs
              ["site"; "lat"; "lon"; "azim"; "pci"] ∅ true 60 rd)).
  assert (pm_name pm = "S1_Mod_2") as Hname by (vm_compute; reflexivity).
  exists rd, pm. split_and!.
  - apply ok_value_eq. vm_compute. reflexivity.
  - vm_compute. reflexivity.
  - vm_compute. reflexivity.
  - apply ok_value_eq. vm_compute. reflexivity.
  - exact Hname.
  - reflexivity.
  - rewrite Hname. discriminate.
Qed.
End NameOnReference.

(** ** Skipped rows and the empty run *)

Section SkipFacts.
Context `{Runtime}.

Lemma getitem_Raise {V : Type} (d : gmap string V) (k : string) (e : exn) :
  getitem d k = Raise e → caught e = true.
Proof. unfold getitem. destruct (d !! k); [done|]. by intros [= <-]. Qed.

Lemma float_cell_Raise (c : option string) (e : exn) :
  float_cell c = Raise e → caught e = true.
Proof.
  unfold float_cell. destruct c as [s|]; [|by intros [= <-]].
  destruct (py_float s); [done|]. by intros [= <-].
Qed.

Lemma getitem_finished {V : Type} (d : gmap string V) (k : string) :
  getitem d k ≠ Unfinished.
Proof. unfold getitem. by destruct (d !! k). Qed.

Lemma float_cell_finished (c : option string) : float_cell c ≠ Unfinished.
Proof. unfold float_cell. destruct c as [s|]; [|done]. by destruct (py_float s). Qed.

(** [float(row[k])]: a number, or one of the exceptions the scan catches. *)
Lemma get_float_cases (row : RawRow) (k : string) :
  (∃ s x, row !! k = Some (Some s) ∧ py_float s = Some x
          ∧ (c ← getitem row k; float_cell c) = Ok x)
  ∨ (∃ e, (c ← getitem row k; float_cell c) = Raise e ∧ caught e = true
          ∧ malformed_number row k).
Proof.
  unfold getitem, malformed_number.
  destruct (row !! k) as [[s|]|]; simpl.
  - destruct (py_float s) as [x|] eqn:Hs.
    + left. by exists s, x.
    + right. exists ValueError. split_and!; try done. right. right. by exists s.
  - right. exists TypeError. split_and!; try done. right. by left.
  - right. exists KeyError. split_and!; try done. by left.
Qed.

Lemma get_float_Raise (row : RawRow) (k : string) (e : exn) :
  (c ← getitem row k; float_cell c) = Raise e → caught e = true.
Proof.
  destruct (get_float_cases row k) as [(s & x & _ & _ & ->)|(e' & -> & He & _)];
    [done|]. by intros [= <-].
Qed.

(** The radius branch: a radius, or one of the exceptions the scan
    catches. *)
Lemma resolve_radius_cases (inputs : Inputs) (bands : list string)
    (row : RawRow) :
  (∃ radius, resolve_radius inputs bands row = Ok radius)
  ∨ (∃ e, resolve_radius inputs bands row = Raise e ∧ caught e = true).
Proof.
  unfold resolve_radius.
  destruct (decide (col_radius (cols inputs) = USE_MANUAL)).
  - left. destruct (list_index _ bands) as [rank|]; by eexists.
  - destruct (get_float_cases row (col_radius (cols inputs)))
      as [(s & x & _ & _ & ->)|(e & -> & He & _)]; [left|right]; by eexists.
Qed.

Lemma resolve_beam_cases (inputs : Inputs) (row : RawRow) :
  (∃ beam, resolve_beam inputs row = Ok beam)
  ∨ (∃ e, resolve_beam inputs row = Raise e ∧ caught e = true).
Proof.
  unfold resolve_beam.
  destruct (decide (col_beam (cols inputs) = USE_MANUAL)); [left; by eexists|].
  destruct (get_float_cases row (col_beam (cols inputs)))
    as [(s & x & _ & _ & ->)|(e & -> & He & _)]; [left|right]; by eexists.
Qed.

(** The exceptions of the target classification: those the scan catches,
    and in PCI mode [OverflowError] for an infinite PCI value and
    [ZeroDivisionError] for the divisor 0. *)
Lemma resolve_target_Raise (inputs : Inputs) (is_pci_mode : bool)
    (row : RawRow) (e : exn) :
  resolve_target inputs is_pci_mode row = Raise e →
  caught e = true
  ∨ is_pci_mode = true
    ∧ ((e = OverflowError
        ∧ ∃ s negative, row !! col_pci (cols inputs) = Some (Some s)
                        ∧ py_float s = Some (Inf negative))
       ∨ (e = ZeroDivisionError ∧ mod_type (pci_params inputs) = 0)).
Proof.
  unfold resolve_target. destruct is_pci_mode; simpl.
  - intros [Hg|(c & Hc%getitem_Ok & [Hf|(v & Hv & Hn)]%bind_Raise)]%bind_Raise.
    + left. by eapply getitem_Raise.
    + left. by eapply float_cell_Raise.
    + apply float_cell_Ok in Hv as (s & -> & Hs).
      apply bind_Raise in Hn as [Hn|(n & _ & Hn)].
      * destruct v as [q|negative|]; simpl in Hn; [done| |].
        -- injection Hn as <-. right. split; [done|]. left.
           split; [done|]. by exists s, negative.
        -- injection Hn as <-. by left.
      * destruct (mod_type (pci_params inputs) =? 0) eqn:Hm; [|done].
        injection Hn as <-. apply Z.eqb_eq in Hm.
        right. split; [done|]. by right.
  - intros [Hg|(c & _ & Hc)]%bind_Raise; [|done].
    left. by eapply getitem_Raise.
Qed.

Lemma resolve_target_finished (inputs : Inputs) (is_pci_mode : bool)
    (row : RawRow) :
  resolve_target inputs is_pci_mode row ≠ Unfinished.
Proof.
  unfold resolve_target. destruct is_pci_mode; simpl.
  - intros [Hg|(c & _ & [Hf|(v & _ & [Hn|(n & _ & Hn)]%bind_Unfinished)
                        ]%bind_Unfinished)]%bind_Unfinished.
    + by apply getitem_finished in Hg.
    + by apply float_cell_finished in Hf.
    + by destruct v.
    + by destruct (mod_type (pci_params inputs) =? 0).
  - intros [Hg|(c & _ & Hc)]%bind_Unfinished; [|done].
    by apply getitem_finished in Hg.
Qed.

(** The [try] body up to the target classification: it raises one of the
    exceptions the scan catches, or the radius, the beamwidth, the site and
    the three coordinates are read and the body goes on with the target. *)
Lemma process_row_head (fuel : nat) (inputs : Inputs) (is_pci_mode : bool)
    (bands : list string) (row : RawRow) :
  (∃ e, process_row fuel inputs is_pci_mode bands row = Raise e
        ∧ caught e = true)
  ∨ ((∃ radius, resolve_radius inputs bands row = Ok radius)
     ∧ (∃ beam, resolve_beam inputs row = Ok beam)
     ∧ is_Some (row !! col_site (cols inputs))
     ∧ (∀ c, c ∈ [col_lat (cols inputs); col_lon (cols inputs);
                  col_azim (cols inputs)] →
             ∃ s x, row !! c = Some (Some s) ∧ py_float s = Some x)
     ∧ ∃ rest,
         process_row fuel inputs is_pci_mode bands row
         = resolve_target inputs is_pci_mode row ≫= rest
         ∧ ∀ target e, rest target = Raise e → e = ValueError).
Proof.
  unfold process_row.
  destruct (resolve_radius_cases inputs bands row)
    as [[radius ->]|(e & -> & He)]; [|left; by exists e].
  destruct (resolve_beam_cases inputs row)
    as [[beam ->]|(e & -> & He)]; [|left; by exists e].
  simpl.
  destruct (getitem row (col_site (cols inputs))) as [site|e|] eqn:Hsite;
    [|left; exists e; split; [done | by eapply getitem_Raise]
     |by apply getitem_finished in Hsite].
  apply getitem_Ok in Hsite. simpl.
  destruct (get_float_cases row (col_lat (cols inputs)))
    as [(slat & lat & Hclat & Hlat & Hget)|(e & Hget & He & _)].
  2:{ left. exists e. split; [|done].
      apply bind_Raise in Hget as [->|(c & -> & Hc)]; [done|].
      simpl. by rewrite Hc. }
  apply bind_Ok in Hget as (c & -> & Hc). simpl. rewrite Hc. simpl.
  clear c Hc.
  destruct (get_float_cases row (col_lon (cols inputs)))
    as [(slon & lon & Hclon & Hlon & Hget)|(e & Hget & He & _)].
  2:{ left. exists e. split; [|done].
      apply bind_Raise in Hget as [->|(c & -> & Hc)]; [done|].
      simpl. by rewrite Hc. }
  apply bind_Ok in Hget as (c & -> & Hc). simpl. rewrite Hc. simpl.
  clear c Hc.
  destruct (get_float_cases row (col_azim (cols inputs)))
    as [(sazim & azim & Hcazim & Hazim & Hget)|(e & Hget & He & _)].
  2:{ left. exists e. split; [|done].
      apply bind_Raise in Hget as [->|(c & -> & Hc)]; [done|].
      simpl. by rewrite Hc. }
  apply bind_Ok in Hget as (c & -> & Hc). simpl. rewrite Hc. simpl.
  clear c Hc.
  right. split; [by eexists|]. split; [by eexists|]. split; [by eexists|].
  split.
  - intros c Hc. rewrite !elem_of_cons in Hc.
    destruct Hc as [->|[->|[->|Hc]]]; eauto. by apply elem_of_nil in Hc.
  - eexists. split; [reflexivity|]. simpl.
    intros target e [Hg|(ring & _ & Hr)]%bind_Raise; [|done].
    by apply create_wedge_geom_Raise in Hg.
Qed.
End SkipFacts.

Section SkipRun.
Context `{Runtime}.




(** Without a cancel, and when every row returns a record or raises an
    exception the scan catches, the scan keeps exactly the records of the
    rows that raise nothing, in order. *)
Lemma scan_rows_processed (fuel : nat) (inputs : Inputs) (is_pci_mode : bool)
    (bands : list string) (was_canceled : nat → bool) (i : nat)
    (rows : list RawRow) (data_list : list RowData) :
  (∀ j, was_canceled j = false) →
  Forall (row_processed fuel inputs is_pci_mode bands) rows →
  scan_rows fuel inputs is_pci_mode bands was_canceled i rows data_list
  = ScanDone (data_list ++ valid_records fuel inputs is_pci_mode bands rows).
Proof.
  intros Hrun Hrows. revert i data_list.
  induction Hrows as [|row rows Hrow _ IH]; intros i data_list; simpl.
  - by rewrite app_nil_r.
  - rewrite Hrun. unfold valid_records. simpl.
    unfold row_processed in Hrow.
    destruct (process_row fuel inputs is_pci_mode bands row) as [rd|e|].
    + rewrite IH. unfold valid_records. by rewrite <- app_assoc.
    + rewrite Hrow. apply IH.
    + done.
Qed.

(** What a row that goes through the [try] body must have had. *)
Lemma process_row_Ok_columns (fuel : nat) (inputs : Inputs)
    (is_pci_mode : bool) (bands : list string) (row : RawRow)
    (row_data : RowData) :
  process_row fuel inputs is_pci_mode bands row = Ok row_data →
  (∀ c, c ∈ numeric_columns inputs is_pci_mode →
        ∃ s x, row !! c = Some (Some s) ∧ py_float s = Some x)
  ∧ (∀ c, c ∈ text_columns inputs is_pci_mode → is_Some (row !! c)).
Proof.
  intros Hrow.
  apply process_row_Ok in Hrow
    as (radius & beam & site & clat & lat & clon & lon & cazim & azim
        & target & ring & Hradius & Hbeam & Hsite & [Hclat Hlat]
        & [Hclon Hlon] & [Hcazim Hazim] & Htarget & _).
  apply float_cell_Ok in Hlat as (slat & -> & Hlat).
  apply float_cell_Ok in Hlon as (slon & -> & Hlon).
  apply float_cell_Ok in Hazim as (sazim & -> & Hazim).
  split.
  - intros c. unfold numeric_columns. rewrite !elem_of_app.
    rewrite !elem_of_cons.
    intros [[->|[->|[->|Hc]]]|[Hc|[Hc|Hc]]]; eauto.
    + by apply elem_of_nil in Hc.
    + unfold resolve_radius in Hradius.
      destruct (decide (col_radius (cols inputs) = USE_MANUAL));
        [by apply elem_of_nil in Hc|].
      apply list_elem_of_singleton in Hc as ->.
      apply bind_Ok in Hradius as (cell & Hcell%getitem_Ok & Hfloat).
      apply float_cell_Ok in Hfloat as (s & -> & Hs). eauto.
    + unfold resolve_beam in Hbeam.
      destruct (decide (col_beam (cols inputs) = USE_MANUAL));
        [by apply elem_of_nil in Hc|].
      apply list_elem_of_singleton in Hc as ->.
      apply bind_Ok in Hbeam as (cell & Hcell%getitem_Ok & Hfloat).
      apply float_cell_Ok in Hfloat as (s & -> & Hs). eauto.
    + destruct is_pci_mode; [|by apply elem_of_nil in Hc].
      apply list_elem_of_singleton in Hc as ->.
      apply resolve_target_pci in Htarget as (s & v & n & Hs & Hv & _).
      eauto.
  - intros c. unfold text_columns. rewrite elem_of_cons.
    intros [->|Hc]; [by eexists|].
    destruct is_pci_mode; [by apply elem_of_nil in Hc|].
    apply list_elem_of_singleton in Hc as ->.
    unfold resolve_target in Htarget. simpl in Htarget.
    apply bind_Ok in Htarget as (cell & Hcell%getitem_Ok & _). by eexists.
Qed.

(** A malformed required field makes the [try] body raise an exception the
    scan catches. *)
Lemma malformed_row_raises (fuel : nat) (inputs : Inputs)
    (is_pci_mode : bool) (bands : list string) (row : RawRow) :
  (∃ c, c ∈ numeric_columns inputs is_pci_mode ∧ malformed_number row c)
  ∨ (∃ c, c ∈ text_columns inputs is_pci_mode ∧ row !! c = None) →
  ∃ e, process_row fuel inputs is_pci_mode bands row = Raise e
       ∧ caught e = true.
Proof.
  intros Hbad.
  destruct (process_row_head fuel inputs is_pci_mode bands row)
    as [Hcaught|([radius Hradius] & [beam Hbeam] & [site Hsite] & Hnum
                 & rest & -> & _)]; [done|].
  assert (∀ c, malformed_number row c →
               ¬ ∃ s x : _, row !! c = Some (Some s) ∧ py_float s = Some x)
    as Hnot.
  { intros c [Hm|[Hm|(s' & Hm & Hs')]] (s & x & Hs & Hx); congruence. }
  assert ((∃ e, resolve_target inputs is_pci_mode row = Raise e
                ∧ caught e = true)
          → ∃ e, resolve_target inputs is_pci_mode row ≫= rest = Raise e
                 ∧ caught e = true) as Htarget.
  { intros (e & -> & He). by exists e. }
  destruct Hbad as [(c & Hc & Hmal)|(c & Hc & Hnone)].
  - unfold numeric_columns in Hc. rewrite !elem_of_app in Hc.
    destruct Hc as [Hc|[Hc|[Hc|Hc]]].
    + destruct (Hnot c Hmal). by apply Hnum.
    + unfold resolve_radius in Hradius.
      destruct (decide (col_radius (cols inputs) = USE_MANUAL));
        [by apply elem_of_nil in Hc|].
      apply list_elem_of_singleton in Hc as ->.
      destruct (get_float_cases row (col_radius (cols inputs)))
        as [(s & x & Hs & Hx & _)|(e & He & _)].
      * destruct (Hnot _ Hmal). by exists s, x.
      * congruence.
    + unfold resolve_beam in Hbeam.
      destruct (decide (col_beam (cols inputs) = USE_MANUAL));
        [by apply elem_of_nil in Hc|].
      apply list_elem_of_singleton in Hc as ->.
      destruct (get_float_cases row (col_beam (cols inputs)))
        as [(s & x & Hs & Hx & _)|(e & He & _)].
      * destruct (Hnot _ Hmal). by exists s, x.
      * congruence.
    + destruct is_pci_mode; [|by apply elem_of_nil in Hc].
      apply list_elem_of_singleton in Hc as ->.
      apply Htarget. unfold resolve_target. simpl.
      destruct (get_float_cases row (col_pci (cols inputs)))
        as [(s & x & Hs & Hx & _)|(e & He & Hcaught & _)].
      * destruct (Hnot _ Hmal). by exists s, x.
      * exists e. split; [|done].
        apply bind_Raise in He as [->|(cell & -> & Hcell)]; [done|].
        simpl. by rewrite Hcell.
  - unfold text_columns in Hc. rewrite elem_of_cons in Hc.
    destruct Hc as [->|Hc]; [congruence|].
    destruct is_pci_mode; [by apply elem_of_nil in Hc|].
    apply list_elem_of_singleton in Hc as ->.
    apply Htarget. exists KeyError. split; [|done].
    unfold resolve_target, getitem. simpl. by rewrite Hnone.
Qed.

End SkipRun.

Section SkipClaims.
Context `{Runtime}.

End SkipClaims.

Section SkipOnReference.
Import RefRuntime.


(** What the scan does not catch.  An infinite PCI value is a number for
    [float()]; [int()] raises [OverflowError] on it, which is none of the
    three exceptions of the [except] clause, and the run ends with it. *)
Example infinite_pci_ends_run :
  process_row 100 Scenario.pci_inputs true [] Scenario.pci_inf_row
  = Raise OverflowError
  ∧ caught OverflowError = false
  ∧ run 100 Scenario.pci_inf_world = crashes [] OverflowError.
Proof. split_and!; vm_compute; reflexivity. Qed.
End SkipOnReference.

(** * Further properties *)

(** ** Shape of the wedge ring *)

Section RingShape.
Context `{Runtime}.
Local Open Scope list_scope.

(** X1.  The builder returns a ring exactly when the loop condition fails
    at some test within the fuel and no vertex before it raises; the ring is
    then the origin, the arc points of the angles [start_angle],
    [start_angle + 3], [(start_angle + 3) + 3], ... (float additions) that
    passed the test, and the origin again: two vertices more than emitted
    angles, and the origin twice when the first test fails.  The only
    exception is the [ValueError] of the cosine or the sine at an infinity.
    The loop uses up any fuel exactly when every test within it passes and
    every vertex is built. *)
Theorem wedge_ring_shape (fuel : nat) (lon lat azim beam radius_m : float) :
  let origin := {| pt_x := lon; pt_y := lat |} in
  let start_angle := fsub azim (fdivc beam 2) in
  let end_angle := fadd azim (fdivc beam 2) in
  let vertex := arc_point lon lat (fdivc radius_m 111320) in
  (∀ ring,
     create_wedge_geom fuel lon lat azim beam radius_m = Ok ring ↔
     ∃ pts,
       ring = origin :: pts ++ [origin]
       ∧ (length pts < fuel)%nat
       ∧ (∀ k pt, pts !! k = Some pt →
            fle (sweep_angle start_angle k) end_angle = true
            ∧ vertex (sweep_angle start_angle k) = Ok pt)
       ∧ fle (sweep_angle start_angle (length pts)) end_angle = false)
  ∧ (∀ ring,
       create_wedge_geom fuel lon lat azim beam radius_m = Ok ring →
       head ring = Some origin
       ∧ last ring = Some origin
       ∧ length ring = (2 + length (wedge_angles fuel azim beam))%nat)
  ∧ (fle start_angle end_angle = false → fuel ≠ 0%nat →
     create_wedge_geom fuel lon lat azim beam radius_m
     = Ok [origin; origin])
  ∧ (∀ e, create_wedge_geom fuel lon lat azim beam radius_m = Raise e →
          e = ValueError)
  ∧ (create_wedge_geom fuel lon lat azim beam radius_m = Unfinished ↔
     ∀ k, (k < fuel)%nat →
          fle (sweep_angle start_angle k) end_angle = true
          ∧ is_ok (vertex (sweep_angle start_angle k)) = true).
Proof.
  intros origin start_angle end_angle vertex. split_and!.
  - intros ring. apply create_wedge_geom_Ok.
  - intros ring (pts & -> & Hlen & Hpts & Hend)%create_wedge_geom_Ok.
    split; [done|]. split; [by rewrite app_comm_cons, last_snoc|].
    rewrite (wedge_angles_Ok fuel azim beam _ pts Hlen); [|by intros k pt Hk;
      apply (Hpts k pt Hk)|done].
    simpl. rewrite length_app, length_fmap, length_seq. simpl. lia.
  - intros Hfirst Hfuel. apply create_wedge_geom_Ok. exists [].
    split_and!; [done|simpl; lia|done|done].
  - intros e. apply create_wedge_geom_Raise.
  - unfold create_wedge_geom. fold origin start_angle end_angle vertex.
    rewrite bind_Unfinished.
    rewrite (sweep_Unfinished vertex fuel end_angle
               (arc_point_finished lon lat (fdivc radius_m 111320))).
    split; [|by left]. by intros [Hall|(pts & _ & Hpts)].
Qed.

(** Where the azimuth is so large that adding 3 does not change the float,
    the loop never ends: the builder uses up every fuel. *)
Lemma create_wedge_geom_stuck (fuel : nat)
    (lon lat azim beam radius_m : float) (straight : Q) :
  fadd (fsub azim (fdivc beam 2)) (Finite 3) = fsub azim (fdivc beam 2) →
  fle (fsub azim (fdivc beam 2)) (fadd azim (fdivc beam 2)) = true →
  fsub (Finite 90) (fsub azim (fdivc beam 2)) = Finite straight →
  create_wedge_geom fuel lon lat azim beam radius_m = Unfinished.
Proof.
  intros Hfixed Htest Hfinite.
  apply (wedge_ring_shape fuel lon lat azim beam radius_m).
  assert (∀ k, sweep_angle (fsub azim (fdivc beam 2)) k
               = fsub azim (fdivc beam 2)) as Hangle.
  { induction k as [|k IH]; [done|]. by rewrite sweep_angle_S, Hfixed. }
  intros k _. rewrite Hangle. split; [done|].
  unfold arc_point. by rewrite Hfinite.
Qed.
End RingShape.

Section RingShapeOnReference.
Import RefRuntime.

(** Azimuth 2.73 and beamwidth 60: the start angle is the float of -27.27,
    and after twenty additions of 3 the angle is a float just above the end
    angle 32.73, so twenty arc points are emitted where the exact sum
    [-27.27 + 3 * 20] would have allowed one more. *)
Lemma wedge_ring_shape_witness :
  let azim := round64 (273 # 100) in
  ∃ ring,
    create_wedge_geom 100 (Finite 2) (Finite (3 # 2)) azim (Finite 60)
      (Finite 200) = Ok ring
    ∧ length ring = 22%nat
    ∧ head ring = Some {| pt_x := Finite 2; pt_y := Finite (3 # 2) |}
    ∧ last ring = Some {| pt_x := Finite 2; pt_y := Finite (3 # 2) |}
    ∧ flt (fadd azim (fdivc (Finite 60) 2))
        (sweep_angle (fsub azim (fdivc (Finite 60) 2)) 20) = true.
Proof.
  intros azim.
  assert (is_ok (create_wedge_geom 100 (Finite 2) (Finite (3 # 2)) azim
                   (Finite 60) (Finite 200)) = true) as Hring
    by (vm_compute; reflexivity).
  apply (ok_value_eq []) in Hring.
  destruct (wedge_ring_shape 100 (Finite 2) (Finite (3 # 2)) azim (Finite 60)
              (Finite 200)) as (_ & Hshape & _).
  destruct (Hshape _ Hring) as (Hhead & Hlast & Hlen).
  eexists. split; [exact Hring|]. split; [|split; [exact Hhead|]].
  - rewrite Hlen. vm_compute. reflexivity.
  - split; [exact Hlast|]. vm_compute. reflexivity.
Defined.

(** Azimuth 1e17 and beamwidth 65: the floats near 1e17 are 16 apart, so
    adding 3 to the start angle gives the start angle again and the loop
    never ends. *)
Example wedge_never_ends (fuel : nat) (lon lat radius_m : float) :
  create_wedge_geom fuel lon lat (Finite (inject_Z (10 ^ 17))) (Finite 65)
    radius_m = Unfinished.
Proof.
  eapply create_wedge_geom_stuck; vm_compute; reflexivity.
Qed.

(** With the azimuth NaN every test of the loop fails: the ring is the
    origin twice, whatever the beamwidth. *)
Example wedge_nan_azimuth (lon lat beam radius_m : float) :
  create_wedge_geom 1 lon lat NaN beam radius_m
  = Ok [{| pt_x := lon; pt_y := lat |}; {| pt_x := lon; pt_y := lat |}].
Proof. reflexivity. Qed.
End RingShapeOnReference.

(** ** XML escaping *)

Lemma str_has_app (c : ascii) (s t : string) :
  str_has c (s +:+ t) = str_has c s || str_has c t.
Proof.
  induction s as [|a s IH]; [done|].
  rewrite PyStrFacts.sapp_cons. simpl. rewrite IH.
  by destruct (bool_decide (a = c)).
Qed.

(** Replacing [c] by a text without [c] leaves no [c]. *)
Lemma replace_char_gone (c : ascii) (by_ s : string) :
  str_has c by_ = false → str_has c (PyStr.replace_char c by_ s) = false.
Proof.
  intros Hby. induction s as [|a s IH]; [done|]. simpl.
  rewrite str_has_app, IH. destruct (decide (a = c)) as [->|Hne].
  - by rewrite Hby.
  - simpl. by rewrite bool_decide_eq_false_2.
Qed.

(** Replacing [c] by a text without [d] brings in no [d]. *)
Lemma replace_char_keeps_out (c d : ascii) (by_ s : string) :
  str_has d by_ = false → str_has d s = false →
  str_has d (PyStr.replace_char c by_ s) = false.
Proof.
  intros Hby. induction s as [|a s IH]; [done|]. simpl.
  intros [Ha Hs]%orb_false_iff. rewrite str_has_app, IH by done.
  destruct (decide (a = c)); simpl; [by rewrite Hby|].
  by rewrite Ha.
Qed.

Lemma replace_char_absent (c : ascii) (by_ s : string) :
  str_has c s = false → PyStr.replace_char c by_ s = s.
Proof.
  induction s as [|a s IH]; [done|]. simpl.
  intros [Ha%bool_decide_eq_false Hs]%orb_false_iff.
  destruct (decide (a = c)); [done|].
  by rewrite IH.
Qed.

Section EscapeXml.
Context `{Runtime}.

(** The text [escape_xml] returns holds no [<] and no [>]; a text with
    none of [&], [<], [>] is returned unchanged (in particular quotes are
    not escaped); and escaping goes through concatenation, so a text is
    escaped character by character: [&] becomes [&amp;] (and is not escaped
    a second time by the later replacements), [<] becomes [&lt;], [>]
    becomes [&gt;]. *)
Theorem escape_xml_markup_free :
  (∀ text, str_has "<" (escape_xml text) = false
           ∧ str_has ">" (escape_xml text) = false)
  ∧ (∀ text, str_has "&" (py_str text) = false →
             str_has "<" (py_str text) = false →
             str_has ">" (py_str text) = false →
             escape_xml text = py_str text)
  ∧ (∀ s t, escape_xml (PStr (s +:+ t))
            = escape_xml (PStr s) +:+ escape_xml (PStr t))
  ∧ escape_xml (PStr "&") = "&amp;"
  ∧ escape_xml (PStr "<") = "&lt;"
  ∧ escape_xml (PStr ">") = "&gt;".
Proof.
  split_and!; try reflexivity.
  - intros text. unfold escape_xml. split.
    + apply replace_char_keeps_out; [done|].
      by apply replace_char_gone.
    + by apply replace_char_gone.
  - intros text Hamp Hlt Hgt. unfold escape_xml.
    by rewrite (replace_char_absent "&"), (replace_char_absent "<"),
      (replace_char_absent ">").
  - intros s t. unfold escape_xml. simpl. by rewrite !replace_char_app.
Qed.
End EscapeXml.

Section EscapeXmlOnReference.
Import RefRuntime.

Lemma escape_xml_markup_free_witness :
  escape_xml (PStr "R&D <north>") = "R&amp;D &lt;north&gt;"
  ∧ escape_xml (PStr "LTE1800") = "LTE1800".
Proof.
  split; [reflexivity|].
  apply (proj1 (proj2 escape_xml_markup_free) (PStr "LTE1800"));
    reflexivity.
Defined.
End EscapeXmlOnReference.

(** ** The ranked bands cover the rows of the file *)

Lemma strongly_sorted_lookup {A : Type} (R : A → A → Prop) (l : list A)
    (i j : nat) (x y : A) :
  StronglySorted R l → (i < j)%nat → l !! i = Some x → l !! j = Some y →
  R x y.
Proof.
  intros Hl. revert i j.
  induction Hl as [|a l Hl IH Ha]; intros i j Hij Hx Hy; [done|].
  destruct j as [|j]; [lia|]. simpl in Hy. destruct i as [|i].
  - injection Hx as <-.
    apply (proj1 (Forall_forall _ _) Ha). by eapply list_elem_of_lookup_2.
  - simpl in Hx. apply (IH i j); [lia|done|done].
Qed.

Section RankingCovers.
Context `{Runtime}.

Lemma band_values_elem (band_col : string) (rows : list RawRow) (b : string) :
  b ∈ band_values band_col rows ↔
  ∃ row val, row ∈ rows ∧ row !! band_col = Some (Some val)
             ∧ val ≠ "" ∧ b = PyStr.strip val.
Proof.
  unfold band_values. rewrite list_elem_of_omap. split.
  - intros (row & Hrow & Hb). exists row.
    destruct (row !! band_col) as [[val|]|]; try done.
    exists val. destruct val; [done|]. by injection Hb as <-.
  - intros (row & val & Hrow & Hval & Hne & ->). exists row.
    split; [done|]. rewrite Hval. by destruct val.
Qed.

(** The list the first pass builds holds exactly the trimmed non-empty band
    cells of the file.  So, with a manual radius, a row of that file whose
    band cell is not empty always finds its band in the list, at one rank
    [r] only, after the bands of smaller frequency key, and its radius is
    [max(manual_radius - 20 * r, 10)]: the branch that keeps the manual
    radius unfloored is left to rows with an empty or missing band cell. *)
Theorem ranked_bands_cover_rows (inputs : Inputs) (rows : list RawRow) :
  let bands := rank_bands (col_band (cols inputs)) rows in
  (∀ b, b ∈ bands ↔
        ∃ row val, row ∈ rows
                   ∧ row !! col_band (cols inputs) = Some (Some val)
                   ∧ val ≠ "" ∧ b = PyStr.strip val)
  ∧ (∀ row val,
       col_radius (cols inputs) = USE_MANUAL →
       row ∈ rows →
       row !! col_band (cols inputs) = Some (Some val) →
       val ≠ "" →
       ∃ r : nat,
         bands !! r = Some (PyStr.strip val)
         ∧ (∀ r', bands !! r' = Some (PyStr.strip val) → r' = r)
         ∧ (∀ r' b', (r' < r)%nat → bands !! r' = Some b' →
                     extract_numeric_freq b'
                     ≤ extract_numeric_freq (PyStr.strip val))
         ∧ resolve_radius inputs bands row
           = Ok (py_max (fsub (manual_radius (manual inputs))
                           (float_of_int (Z.of_nat r * 20))) (Finite 10))).
Proof.
  intros bands.
  destruct (rank_bands_spec (col_band (cols inputs)) rows)
    as (Hnd & Hsorted & Helem).
  fold bands in Hnd, Hsorted, Helem.
  split.
  - intros b. by rewrite Helem, band_values_elem.
  - intros row val Hcol Hrow Hval Hne.
    assert (PyStr.strip val ∈ bands) as Hin.
    { apply Helem, band_values_elem. by exists row, val. }
    apply list_elem_of_lookup in Hin as [r Hr].
    exists r. split_and!.
    + done.
    + intros r' Hr'. by eapply NoDup_lookup.
    + intros r' b' Hlt Hb'.
      by apply (strongly_sorted_lookup _ bands r' r b' (PyStr.strip val)
                  Hsorted).
    + rewrite resolve_radius_manual by done.
      rewrite Hval. simpl.
      by rewrite (list_index_lookup _ _ _ Hnd Hr).
Qed.
End RankingCovers.

Section RankingCoversOnReference.
Import RefRuntime.

Lemma ranked_bands_cover_rows_witness :
  let rows := [Scenario.band_row " LTE2100 " "65";
               Scenario.band_row "GSM900" "65";
               Scenario.band_row "LTE2100" "65"] in
  ∃ r : nat,
    rank_bands "band" rows !! r = Some "LTE2100"
    ∧ resolve_radius Scenario.band_inputs (rank_bands "band" rows)
        (Scenario.band_row " LTE2100 " "65")
      = Ok (py_max (fsub (Finite 200) (float_of_int (Z.of_nat r * 20)))
              (Finite 10)).
Proof.
  intros rows.
  destruct (ranked_bands_cover_rows Scenario.band_inputs rows) as [_ Hrow].
  destruct (Hrow (Scenario.band_row " LTE2100 " "65") " LTE2100 ")
    as (r & Hr & _ & _ & Hradius).
  - reflexivity.
  - apply list_elem_of_here.
  - vm_compute. reflexivity.
  - discriminate.
  - exists r. split; [exact Hr | exact Hradius].
Defined.
End RankingCoversOnReference.

(** ** The record keeps the row *)

Section RecordKeepsRow.
Context `{Runtime}.

(** A record holds every cell of its row under the column's name, as the
    cell was read ([None] for a cell the line did not have), next to the
    eight derived entries; only a column that is named like a derived entry
    is overwritten by it.  The site id is the text of the site cell. *)
Theorem process_row_keeps_columns (fuel : nat) (inputs : Inputs)
    (is_pci_mode : bool) (bands : list string) (row : RawRow)
    (row_data : RowData) :
  process_row fuel inputs is_pci_mode bands row = Ok row_data →
  (∀ h, h ∉ "_site" :: derived_keys →
        row_data !! h = of_cell <$> row !! h)
  ∧ (∀ k, k ∈ "_site" :: derived_keys → is_Some (row_data !! k))
  ∧ (∀ h v, row_data !! h = Some v →
            h ∈ "_site" :: derived_keys ∨ ∃ c, row !! h = Some c
                                               ∧ v = of_cell c)
  ∧ ∃ site, row !! col_site (cols inputs) = Some site
            ∧ row_data !! "_site" = Some (PStr (str_cell site)).
Proof.
  intros Hrow.
  apply process_row_Ok in Hrow
    as (radius & beam & site & clat & lat & clon & lon & cazim & azim
        & target & ring & _ & _ & Hsite & _ & _ & _ & _ & _ & ->).
  assert (∀ h, h ∉ "_site" :: derived_keys →
            <["_geom" := PGeom ring]>
              (<["_target_val" := PStr target]>
                 (<["_beam" := PFloat beam]>
                    (<["_radius" := PFloat radius]>
                       (<["_azim" := PFloat azim]>
                          (<["_lon" := PFloat lon]>
                             (<["_lat" := PFloat lat]>
                                (<["_site" := PStr (str_cell site)]>
                                   (of_cell <$> row)))))))) !! h
            = of_cell <$> row !! h) as Hkeep.
  { intros h Hh. unfold derived_keys in Hh.
    rewrite !not_elem_of_cons in Hh.
    destruct Hh as (? & ? & ? & ? & ? & ? & ? & ? & _).
    rewrite !lookup_insert_ne by done. apply lookup_fmap. }
  split_and!.
  - exact Hkeep.
  - intros k Hk. unfold derived_keys in Hk.
    rewrite !elem_of_cons in Hk.
    destruct Hk as [->|[->|[->|[->|[->|[->|[->|[->|Hk]]]]]]]];
      [lookup_entry; by eexists..|by apply elem_of_nil in Hk].
  - intros h v Hv.
    destruct (decide (h ∈ "_site" :: derived_keys)) as [Hin|Hout];
      [by left|right].
    rewrite (Hkeep h Hout) in Hv.
    destruct (row !! h) as [c|]; [|done]. injection Hv as <-. by exists c.
  - exists site. split; [done|]. by lookup_entry.
Qed.
End RecordKeepsRow.

Section RecordKeepsRowOnReference.
Import RefRuntime.

Lemma process_row_keeps_columns_witness :
  ∃ row_data,
    process_row 100 Scenario.band_inputs false ["LTE1800"]
      (Scenario.band_row "LTE1800" "65") = Ok row_data
    ∧ row_data !! "azim"
      = of_cell <$> Scenario.band_row "LTE1800" "65" !! "azim"
    ∧ row_data !! "_site" = Some (PStr "S1").
Proof.
  assert (is_ok (process_row 100 Scenario.band_inputs false ["LTE1800"]
                   (Scenario.band_row "LTE1800" "65")) = true) as Hrow
    by (vm_compute; reflexivity).
  apply (ok_value_eq ∅) in Hrow.
  destruct (process_row_keeps_columns _ _ _ _ _ _ Hrow)
    as (Hkeep & _ & _ & _).
  eexists. split; [exact Hrow|]. split.
  - apply Hkeep. intros Hin.
    repeat (apply elem_of_cons in Hin as [Hin|Hin]; [discriminate Hin|]).
    by apply elem_of_nil in Hin.
  - vm_compute. reflexivity.
Defined.
End RecordKeepsRowOnReference.

(** ** Ways a run ends early *)

Section RunExits.
Context `{Runtime}.

(** A run whose mappings are valid goes on to the first pass, the second
    read of the file and the scan. *)
Lemma run_validated (fuel : nat) (w : World) (inputs : Inputs) :
  dlg_exec w = true →
  get_inputs (dialog w) = Ok inputs →
  mappings_valid inputs →
  run fuel w
  = match first_pass w inputs with
    | None => returns [MsgCritical "File Error"]
    | Some sorted_bands_list =>
        match open_csv w (file_path inputs) with
        | None => crashes [] IOError
        | Some f =>
            after_scan w inputs (bool_decide (active_tab inputs = 1))
              (fieldnames f)
              (scan_rows fuel inputs (bool_decide (active_tab inputs = 1))
                 sorted_bands_list (was_canceled w) 0 (csv_rows f) [])
        end
    end.
Proof.
  intros Hexec Hinputs [Hrequired Hmode].
  unfold run. rewrite Hexec, Hinputs. simpl.
  rewrite bool_decide_eq_false_2 by done.
  destruct (bool_decide (active_tab inputs = 1)); simpl;
    rewrite bool_decide_eq_false_2 by done; reflexivity.
Qed.

(** A cancel seen at a row of the file stops the scan there, when the
    rows before it returned a record or raised an exception the scan
    catches. *)
Lemma scan_rows_cancel (fuel : nat) (inputs : Inputs) (is_pci_mode : bool)
    (bands : list string) (was_canceled : nat → bool) (rows : list RawRow) :
  ∀ (i0 i : nat) (data_list : list RowData),
    (i < length rows)%nat →
    was_canceled (i0 + i)%nat = true →
    Forall (row_processed fuel inputs is_pci_mode bands) (take i rows) →
    scan_rows fuel inputs is_pci_mode bands was_canceled i0 rows data_list
    = ScanCancelled.
Proof.
  induction rows as [|row rows IH]; intros i0 i data_list Hi Hc Hrows;
    simpl in *; [lia|].
  destruct (was_canceled i0) eqn:Hc0; [done|].
  destruct i as [|i]; [rewrite Nat.add_0_r in Hc; congruence|].
  simpl in Hrows. apply Forall_cons in Hrows as [Hrow Hrows].
  unfold row_processed in Hrow.
  assert (was_canceled (S i0 + i)%nat = true) as Hc'
    by (by replace (S i0 + i)%nat with (i0 + S i)%nat by lia).
  destruct (process_row fuel inputs is_pci_mode bands row) as [rd|e|].
  - apply (IH (S i0) i); [lia|done|done].
  - rewrite Hrow. apply (IH (S i0) i); [lia|done|done].
  - done.
Qed.

(** The ways a run ends before any layer is built, each with one message
    box as its only effect, or with none: a rejected dialog does nothing; a
    missing latitude, longitude or azimuth mapping, a missing PCI column in
    PCI mode and a missing band column in band mode give a warning; a file
    that cannot be read gives the "File Error" box when a band column is
    mapped, but when none is mapped (a PCI audit) the error of the
    unprotected [open] leaves [run] as an uncaught [IOError]; a cancel seen
    at a row of the file gives the "Cancelled" box, when each row before it
    returned a record or raised an exception the scan catches. *)
Theorem run_early_exits (fuel : nat) (w : World) :
  (dlg_exec w = false → run fuel w = returns [])
  ∧ ∀ inputs,
      dlg_exec w = true →
      get_inputs (dialog w) = Ok inputs →
      (SELECT_COLUMN ∈ [col_lat (cols inputs); col_lon (cols inputs);
                        col_azim (cols inputs)] →
       run fuel w
       = returns [MsgWarning "Mapping Error"
                    "Latitude, Longitude, and Azimuth columns are required."])
      ∧ (SELECT_COLUMN ∉ [col_lat (cols inputs); col_lon (cols inputs);
                          col_azim (cols inputs)] →
         (active_tab inputs = 1 → col_pci (cols inputs) = SELECT_COLUMN →
          run fuel w
          = returns [MsgWarning "PCI Mapping"
                       "Please select the PCI Column in Tab 2."])
         ∧ (active_tab inputs ≠ 1 → col_band (cols inputs) = SELECT_COLUMN →
            run fuel w
            = returns [MsgWarning "Band Mapping"
                         "Please select the Band/Freq Column in Tab 1."]))
      ∧ (mappings_valid inputs →
         (open_csv w (file_path inputs) = None →
          run fuel w
          = if decide (col_band (cols inputs) = SELECT_COLUMN)
            then crashes [] IOError
            else returns [MsgCritical "File Error"])
         ∧ (∀ f i bands,
              open_csv w (file_path inputs) = Some f →
              first_pass w inputs = Some bands →
              (i < length (csv_rows f))%nat →
              was_canceled w i = true →
              Forall (row_processed fuel inputs
                        (bool_decide (active_tab inputs = 1)) bands)
                (take i (csv_rows f)) →
              run fuel w = returns [MsgInformation "Cancelled"
                                      "Process cancelled by user."])).
Proof.
  split.
  - intros Hexec. unfold run. by rewrite Hexec.
  - intros inputs Hexec Hinputs. split_and!.
    + intros Hin. unfold run. rewrite Hexec, Hinputs. simpl.
      by rewrite bool_decide_eq_true_2.
    + intros Hrequired. split.
      * intros Htab Hpci. unfold run. rewrite Hexec, Hinputs. simpl.
        rewrite bool_decide_eq_false_2 by done.
        rewrite (bool_decide_eq_true_2 (active_tab inputs = 1)) by done.
        simpl. by rewrite bool_decide_eq_true_2.
      * intros Htab Hband. unfold run. rewrite Hexec, Hinputs. simpl.
        rewrite bool_decide_eq_false_2 by done.
        rewrite (bool_decide_eq_false_2 (active_tab inputs = 1)) by done.
        simpl. by rewrite bool_decide_eq_true_2.
    + intros Hvalid. split.
      * intros Hopen. rewrite (run_validated _ _ _ Hexec Hinputs Hvalid).
        unfold first_pass. rewrite Hopen.
        by destruct (decide (col_band (cols inputs) = SELECT_COLUMN)).
      * intros f i bands Hopen Hbands Hi Hcancel Hrows.
        rewrite (run_validated _ _ _ Hexec Hinputs Hvalid).
        by rewrite Hbands, Hopen, (scan_rows_cancel _ _ _ _ _ _ 0%nat i).
Qed.
End RunExits.

Section RunExitsOnReference.
Import RefRuntime.

Lemma run_early_exits_witness :
  run 100 Scenario.unreadable_pci_world = crashes [] IOError.
Proof.
  assert (get_inputs (dialog Scenario.unreadable_pci_world)
          = Ok Scenario.pci_inputs) as Hinputs by (vm_compute; reflexivity).
  destruct (run_early_exits 100 Scenario.unreadable_pci_world)
    as [_ Hrun].
  destruct (Hrun _ eq_refl Hinputs) as (_ & _ & Hvalid).
  destruct Hvalid as [Hfile _].
  - split; [|discriminate]. intros Hin.
    repeat (apply elem_of_cons in Hin as [Hin|Hin]; [discriminate Hin|]).
    by apply elem_of_nil in Hin.
  - exact (Hfile eq_refl).
Defined.
End RunExitsOnReference.

(** ** The site column is not validated *)

Section SiteUnmapped.
Context `{Runtime}.

Lemma first_pass_readable (w : World) (inputs : Inputs) (f : CsvFile) :
  open_csv w (file_path inputs) = Some f →
  ∃ bands, first_pass w inputs = Some bands.
Proof.
  intros Hopen. unfold first_pass. rewrite Hopen.
  destruct (decide (col_band (cols inputs) = SELECT_COLUMN)); by eexists.
Qed.

(** A run in which every row raises an exception the scan catches ends
    with the "no data" warning. *)
Lemma run_all_rows_raise (fuel : nat) (w : World) (inputs : Inputs)
    (f : CsvFile) :
  dlg_exec w = true →
  get_inputs (dialog w) = Ok inputs →
  mappings_valid inputs →
  open_csv w (file_path inputs) = Some f →
  (∀ i, was_canceled w i = false) →
  (∀ bands row, row ∈ csv_rows f →
     ∃ e, process_row fuel inputs (bool_decide (active_tab inputs = 1))
            bands row = Raise e
          ∧ caught e = true) →
  run fuel w = returns [no_data_warning].
Proof.
  intros Hexec Hinputs Hvalid Hopen Hrun Hraise.
  rewrite (run_validated _ _ _ Hexec Hinputs Hvalid).
  destruct (first_pass_readable _ _ _ Hopen) as [bands ->].
  rewrite Hopen, scan_rows_processed; [|done|].
  - simpl.
    assert (valid_records fuel inputs (bool_decide (active_tab inputs = 1))
              bands (csv_rows f) = []) as ->; [|done].
    unfold valid_records.
    induction (csv_rows f) as [|row rows IH]; simpl; [done|].
    destruct (Hraise bands row) as (e & -> & _); [apply list_elem_of_here|].
    apply IH. intros bands' row' Hrow'. apply Hraise. by right.
  - apply Forall_forall. intros row Hrow. unfold row_processed.
    by destruct (Hraise bands row Hrow) as (e & -> & He).
Qed.

(** The site column is not among the mappings [run] checks.  When it is
    left at "-- Select Column --" (and no column of the file has that name),
    every row raises [KeyError] at the site lookup, so the run ends with the
    "no data" warning however good the rows are. *)
Theorem run_site_unmapped (fuel : nat) (w : World) (inputs : Inputs)
    (f : CsvFile) :
  dlg_exec w = true →
  get_inputs (dialog w) = Ok inputs →
  mappings_valid inputs →
  col_site (cols inputs) = SELECT_COLUMN →
  open_csv w (file_path inputs) = Some f →
  Forall (λ row : RawRow, row !! SELECT_COLUMN = None) (csv_rows f) →
  (∀ i, was_canceled w i = false) →
  run fuel w = returns [no_data_warning].
Proof.
  intros Hexec Hinputs Hvalid Hsite Hopen Hrows Hrun.
  apply (run_all_rows_raise fuel w inputs f); try done.
  intros bands row Hrow.
  apply malformed_row_raises.
  right. exists (col_site (cols inputs)). split; [apply list_elem_of_here|].
  rewrite Hsite. by apply (proj1 (Forall_forall _ _) Hrows).
Qed.
End SiteUnmapped.

Section SiteUnmappedOnReference.
Import RefRuntime.

Lemma run_site_unmapped_witness :
  is_ok (process_row 100 Scenario.band_inputs false ["LTE1800"; "LTE2100"]
           (Scenario.band_row "LTE2100" "65")) = true
  ∧ run 100 Scenario.no_site_world = returns [no_data_warning].
Proof.
  split; [vm_compute; reflexivity|].
  assert (∃ inputs, get_inputs (dialog Scenario.no_site_world) = Ok inputs
                    ∧ cols inputs = Scenario.no_site_cols
                    ∧ active_tab inputs = 0
                    ∧ file_path inputs = "sites.csv")
    as (inputs & Hinputs & Hcols & Htab & Hpath).
  { eexists. split; [vm_compute; reflexivity|]. by split_and!. }
  apply (run_site_unmapped _ _ inputs Scenario.good_file); try done.
  - unfold mappings_valid. rewrite Hcols, Htab. simpl. split; [|discriminate].
    intros Hin.
    repeat (apply elem_of_cons in Hin as [Hin|Hin]; [discriminate Hin|]).
    by apply elem_of_nil in Hin.
  - by rewrite Hcols.
  - simpl. by rewrite Hpath.
  - repeat constructor.
Defined.
End SiteUnmappedOnReference.

(** ** Assembly of the layer *)

Lemma mapM_is_Ok {A B : Type} (f : A → result B) (l : list A) :
  Forall (λ x, ∃ y, f x = Ok y) l →
  ∃ k, mapM f l = Ok k.
Proof.
  induction 1 as [|x l [y Hy] _ [k Hk]]; [by exists []|].
  exists (y :: k). apply mapM_Ok. constructor; [done | by apply mapM_Ok].
Qed.

(** Sorting with a key that raises on no element returns the elements in
    ascending order of their keys. *)
Lemma sort_by_key_spec {A : Type} (key : A → result Z) (l : list A) :
  Forall (λ x, ∃ k, key x = Ok k) l →
  ∃ l', sort_by_key key l = Ok l'
        ∧ l' ≡ₚ l
        ∧ StronglySorted (key_le key) l'.
Proof.
  intros Hall.
  assert (∃ dec, mapM (λ x, k ← key x; Ok (k, x)) l = Ok dec
                 ∧ snd <$> dec = l
                 ∧ Forall (λ p, key p.2 = Ok p.1) dec)
    as (dec & Hdec & Hsnd & Hkeys).
  { induction Hall as [|x l [k Hk] _ (dec & Hdec & Hsnd & Hkeys)].
    - exists []. by split_and!.
    - exists ((k, x) :: dec). split_and!.
      + simpl. rewrite Hk. simpl. by rewrite Hdec.
      + by rewrite fmap_cons, Hsnd.
      + by constructor. }
  exists (snd <$> py_sorted fst dec). split_and!.
  - unfold sort_by_key. by rewrite Hdec.
  - rewrite <- Hsnd. apply fmap_Permutation, py_sorted_perm.
  - assert (Forall (λ p, key p.2 = Ok p.1) (py_sorted fst dec)) as Hkeys'.
    { by rewrite py_sorted_perm. }
    pose proof (py_sorted_sorted fst dec) as Hsorted.
    induction Hsorted as [|p ps Hps IH Hp]; simpl; [constructor|].
    apply Forall_cons in Hkeys' as [Hp' Hps'].
    constructor; [by apply IH|].
    apply Forall_fmap, Forall_forall. intros q Hq.
    exists p.1, q.1. split_and!; [done| |].
    + by apply (proj1 (Forall_forall _ _) Hps').
    + by apply (proj1 (Forall_forall _ _) Hp).
Qed.

(** Colours recorded for distinct targets are found again. *)
Lemma final_colors_map_lookup (categories : list Category) :
  NoDup (cat_value <$> categories) →
  ∀ c, c ∈ categories →
       foldl (λ (m : gmap string string) c, <[cat_value c := cat_color c]> m)
         ∅ categories !! cat_value c = Some (cat_color c).
Proof.
  intros Hnd.
  assert (∀ (m : gmap string string) c,
            c ∈ categories ∨ (m !! cat_value c = Some (cat_color c)
                              ∧ cat_value c ∉ cat_value <$> categories) →
            foldl (λ (m : gmap string string) c,
                     <[cat_value c := cat_color c]> m) m categories
              !! cat_value c = Some (cat_color c)) as Hgen.
  { induction categories as [|d cats IH]; intros m c; simpl.
    - intros [Hc|[Hm _]]; [by apply elem_of_nil in Hc | done].
    - apply NoDup_cons in Hnd as [Hd Hnd].
      intros [Hc|[Hm Hc]].
      + apply elem_of_cons in Hc as [->|Hc].
        * apply IH; [done|]. right. by rewrite lookup_insert_eq.
        * apply IH; [done|]. by left.
      + apply not_elem_of_cons in Hc as [Hne Hc].
        apply IH; [done|]. right. by rewrite lookup_insert_ne. }
  intros c Hc. apply Hgen. by left.
Qed.

Section Assembly.
Context `{Runtime}.

Lemma col_hex_of_small (inputs : Inputs) (idx : Z) :
  0 ≤ idx ≤ 5 →
  length (pci_colors (pci_params inputs)) = 6%nat →
  ∃ c, col_hex_of inputs true (PyStr.str_int idx) = Ok c
       ∧ pci_colors (pci_params inputs) !! Z.to_nat idx = Some c.
Proof.
  intros Hidx Hlen.
  destruct (lookup_lt_is_Some_2 (pci_colors (pci_params inputs))
              (Z.to_nat idx)) as [c Hc]; [lia|].
  exists c. split; [|done].
  unfold col_hex_of, int_of_target. simpl.
  rewrite int_str_small by done. simpl.
  assert ((idx <? 6) = true) as -> by (apply Z.ltb_lt; lia).
  unfold list_getitem.
  assert ((idx <? 0) = false) as Hneg by (apply Z.ltb_ge; lia).
  by rewrite !Hneg, Hc.
Qed.

(** Nothing of the assembly can raise on a record the classifier built from
    a row that has a cell for every header; in PCI mode this needs the
    divisor 3 or 6 and the six colours the dialog gives. *)
Lemma process_row_ready (fuel : nat) (inputs : Inputs) (is_pci_mode : bool)
    (bands : list string) (row : RawRow) (row_data : RowData)
    (all_headers : list string) :
  process_row fuel inputs is_pci_mode bands row = Ok row_data →
  (∀ h, h ∈ all_headers → is_Some (row !! h)) →
  (is_pci_mode = true →
   (mod_type (pci_params inputs) = 3 ∨ mod_type (pci_params inputs) = 6)
   ∧ length (pci_colors (pci_params inputs)) = 6%nat) →
  record_ready inputs is_pci_mode all_headers row_data.
Proof.
  intros Hrow Hheaders Hpci.
  apply process_row_Ok in Hrow
    as (radius & beam & site & clat & lat & clon & lon & cazim & azim
        & target & ring & _ & _ & _ & _ & _ & _ & Htarget & _ & ->).
  set (rd := <["_geom" := _]> _).
  assert (target_val rd = Ok target) as Htv.
  { unfold target_val, getitem, rd. by lookup_entry. }
  assert (∃ k c, target_key is_pci_mode target = Ok k
                 ∧ col_hex_of inputs is_pci_mode target = Ok c
                 ∧ (is_pci_mode = true → int_of_target target = Ok k))
    as (k & c & Hk & Hc & Hint).
  { destruct is_pci_mode.
    - destruct Hpci as [Hmod Hlen]; [done|].
      apply resolve_target_pci in Htarget
        as (s & v & n & _ & _ & _ & _ & ->).
      set (idx := n `mod` mod_type (pci_params inputs)).
      assert (0 ≤ idx ≤ 5) as Hidx.
      { pose proof (Z.mod_pos_bound n (mod_type (pci_params inputs))).
        unfold idx. destruct Hmod as [Hm|Hm]; rewrite Hm in *; lia. }
      destruct (col_hex_of_small inputs idx Hidx Hlen) as (c & Hc & _).
      exists idx, c.
      assert (int_of_target (PyStr.str_int idx) = Ok idx) as Hint.
      { unfold int_of_target. by rewrite int_str_small. }
      by split_and!.
    - eexists _, _. by split_and!. }
  assert (∃ attrs,
            mapM (λ h, v ← getitem rd h; Ok (h, py_str v)) all_headers
            = Ok attrs) as [attrs Hattrs].
  { apply mapM_is_Ok, Forall_forall. intros h Hh.
    assert (is_Some (rd !! h)) as [v Hv].
    { unfold rd. rewrite !lookup_insert_is_Some', lookup_fmap.
      do 8 right. by apply fmap_is_Some, Hheaders. }
    exists (h, py_str v). unfold getitem. by rewrite Hv. }
  assert (∃ fet, make_feature inputs is_pci_mode all_headers rd = Ok fet)
    as [fet Hfet].
  { assert (∃ v, getitem rd "_radius" = Ok v) as [vr Hvr].
    { unfold getitem, rd. lookup_entry. by eexists. }
    assert (∃ v, getitem rd "_beam" = Ok v) as [vb Hvb].
    { unfold getitem, rd. lookup_entry. by eexists. }
    assert (∃ v, getitem rd "_geom" = Ok v) as [vg Hvg].
    { unfold getitem, rd. lookup_entry. by eexists. }
    unfold make_feature. rewrite Hattrs, Hvr, Hvb, Hvg. simpl.
    destruct is_pci_mode.
    - rewrite Htv. simpl. rewrite Hint by done. by eexists.
    - by eexists. }
  by exists target, k, c, fet.
Qed.

(** What the assembly makes of records that are all ready: the records in
    ascending order of their keys, one feature for each, and one category
    for each distinct target, in ascending order, with its colour entered in
    the colour map. *)
Lemma build_layer_spec (inputs : Inputs) (is_pci_mode : bool)
    (all_headers : list string) (data_list : list RowData) :
  Forall (record_ready inputs is_pci_mode all_headers) data_list →
  ∃ sorted vl cmap,
    build_layer inputs is_pci_mode all_headers data_list
      = Ok (sorted, vl, cmap)
    ∧ sorted ≡ₚ data_list
    ∧ StronglySorted (key_le (record_key is_pci_mode)) sorted
    ∧ Forall2 (λ rd fet,
                 make_feature inputs is_pci_mode all_headers rd = Ok fet)
        sorted (layer_features vl)
    ∧ NoDup (cat_value <$> layer_categories vl)
    ∧ (∀ t, t ∈ cat_value <$> layer_categories vl
            ↔ ∃ rd, rd ∈ data_list ∧ target_val rd = Ok t)
    ∧ StronglySorted (key_le (target_key is_pci_mode))
        (cat_value <$> layer_categories vl)
    ∧ Forall (λ c, col_hex_of inputs is_pci_mode (cat_value c)
                     = Ok (cat_color c)
                   ∧ cmap !! cat_value c = Some (cat_color c)
                   ∧ cat_label c
                     = (if is_pci_mode then "Mod " +:+ cat_value c
                        else cat_value c))
        (layer_categories vl)
    ∧ layer_name vl
      = (if is_pci_mode then "Site_Sector_PCI_Audit" else "Site_Sector").
Proof.
  intros Hready.
  destruct (sort_by_key_spec (record_key is_pci_mode) data_list)
    as (sorted & Hsort & Hperm & Hsorted).
  { eapply Forall_impl; [exact Hready|].
    intros rd (t & k & _ & _ & Ht & Hk & _ & _). exists k.
    unfold record_key. by rewrite Ht. }
  assert (Forall (record_ready inputs is_pci_mode all_headers) sorted)
    as Hready'.
  { apply Forall_forall. intros rd Hrd.
    rewrite Forall_forall in Hready. apply Hready. by rewrite <- Hperm. }
  destruct (mapM_is_Ok (make_feature inputs is_pci_mode all_headers) sorted)
    as [features Hfeatures].
  { eapply Forall_impl; [exact Hready'|].
    intros rd (t & k & c & fet & _ & _ & _ & Hfet). by exists fet. }
  destruct (mapM_is_Ok target_val sorted) as [targets Htargets].
  { eapply Forall_impl; [exact Hready'|].
    intros rd (t & k & c & fet & Ht & _). by exists t. }
  assert (∀ t, t ∈ targets ↔ ∃ rd, rd ∈ data_list ∧ target_val rd = Ok t)
    as Htargets_elem.
  { intros t. pose proof Htargets as HF. apply mapM_Ok in HF. split.
    - intros Ht. apply list_elem_of_lookup in Ht as [i Hi].
      destruct (Forall2_lookup_r _ _ _ _ _ HF Hi) as (rd & Hrd & Heq).
      exists rd. split; [|done].
      rewrite <- Hperm. by eapply list_elem_of_lookup_2.
    - intros (rd & Hrd & Heq). rewrite <- Hperm in Hrd.
      apply list_elem_of_lookup in Hrd as [i Hi].
      destruct (Forall2_lookup_l _ _ _ _ _ HF Hi) as (t' & Ht' & Heq').
      assert (t' = t) as -> by congruence.
      by eapply list_elem_of_lookup_2. }
  assert (∀ t, t ∈ set_list targets →
               ∃ k c, target_key is_pci_mode t = Ok k
                      ∧ col_hex_of inputs is_pci_mode t = Ok c) as Hkeys.
  { intros t Ht. apply set_list_elem, Htargets_elem in Ht
      as (rd & Hrd & Heq).
    rewrite Forall_forall in Hready.
    destruct (Hready rd Hrd) as (t' & k & c & _ & Ht' & Hk & Hc & _).
    assert (t' = t) as -> by congruence. by exists k, c. }
  destruct (sort_by_key_spec (target_key is_pci_mode) (set_list targets))
    as (unique & Hunique & Huperm & Husorted).
  { apply Forall_forall. intros t Ht.
    destruct (Hkeys t Ht) as (k & _ & Hk & _). by exists k. }
  set (opacity_float :=
         fdivc (float_of_int (if is_pci_mode
                              then pci_opacity (pci_params inputs)
                              else band_opacity (band_params inputs))) 100).
  destruct (mapM_is_Ok (make_category inputs is_pci_mode opacity_float)
              unique) as [categories Hcats].
  { apply Forall_forall. intros t Ht. rewrite Huperm in Ht.
    destruct (Hkeys t Ht) as (k & c & _ & Hc).
    eexists. unfold make_category. by rewrite Hc. }
  assert (cat_value <$> categories = unique
          ∧ Forall (λ c, col_hex_of inputs is_pci_mode (cat_value c)
                           = Ok (cat_color c)
                         ∧ cat_label c
                           = (if is_pci_mode then "Mod " +:+ cat_value c
                              else cat_value c)) categories)
    as [Hvalues Hcolors].
  { pose proof Hcats as HF. apply mapM_Ok in HF. clear -HF.
    induction HF as [|t c ts cs Hc _ [IH1 IH2]]; [by split|].
    unfold make_category in Hc. apply bind_Ok in Hc as (col & Hcol & [= <-]).
    split; [by rewrite fmap_cons, IH1 | by constructor]. }
  assert (NoDup (cat_value <$> categories)) as Hnodup.
  { rewrite Hvalues, Huperm. apply set_list_NoDup. }
  eexists sorted, _, _. split.
  { unfold build_layer. unfold record_key in Hsort. rewrite Hsort. simpl.
    rewrite Hfeatures. simpl. rewrite Htargets. simpl.
    rewrite Hunique. simpl. fold opacity_float. rewrite Hcats. simpl.
    reflexivity. }
  simpl. split_and!; try done.
  - by apply mapM_Ok.
  - intros t. rewrite Hvalues, Huperm, set_list_elem. apply Htargets_elem.
  - by rewrite Hvalues.
  - apply Forall_forall. intros c Hc.
    rewrite Forall_forall in Hcolors. destruct (Hcolors c Hc) as [Hcol Hlab].
    split_and!; [done| |done].
    by apply final_colors_map_lookup.
Qed.
End Assembly.

Section LayerFacts.
Context `{Runtime}.

Lemma sort_by_key_Ok {A : Type} (key : A → result Z) (l l' : list A) :
  sort_by_key key l = Ok l' → Forall (λ x, ∃ k, key x = Ok k) l.
Proof.
  unfold sort_by_key. intros Hs. apply bind_Ok in Hs as (dec & Hdec & _).
  apply mapM_Ok in Hdec.
  induction Hdec as [|x p l dec Hx _ IH]; constructor; [|done].
  apply bind_Ok in Hx as (k & Hk & _). by exists k.
Qed.

(** A layer is only built from records that are all ready. *)
Lemma build_layer_Ok_ready (inputs : Inputs) (is_pci_mode : bool)
    (all_headers : list string) (data_list : list RowData)
    (r : list RowData * Layer * gmap string string) :
  build_layer inputs is_pci_mode all_headers data_list = Ok r →
  Forall (record_ready inputs is_pci_mode all_headers) data_list.
Proof.
  unfold build_layer. intros Hb.
  apply bind_Ok in Hb as (sorted & Hsort & Hb).
  apply bind_Ok in Hb as (features & Hfeatures & Hb).
  apply bind_Ok in Hb as (targets & Htargets & Hb).
  apply bind_Ok in Hb as (unique & Hunique & Hb).
  apply bind_Ok in Hb as (categories & Hcats & _).
  pose proof (sort_by_key_Ok _ _ _ Hsort) as Hkeys.
  destruct (sort_by_key_spec _ _ Hkeys) as (sorted' & Hsort' & Hperm & _).
  rewrite Hsort in Hsort'. injection Hsort' as <-.
  pose proof (sort_by_key_Ok _ _ _ Hunique) as Hukeys.
  destruct (sort_by_key_spec _ _ Hukeys) as (unique' & Hunique' & Huperm & _).
  rewrite Hunique in Hunique'. injection Hunique' as <-.
  apply mapM_Ok in Hfeatures, Htargets, Hcats.
  apply Forall_forall. intros rd Hrd.
  rewrite Forall_forall in Hkeys. destruct (Hkeys rd Hrd) as [k Hk].
  apply bind_Ok in Hk as (t & Ht & Hk).
  rewrite <- Hperm in Hrd. apply list_elem_of_lookup in Hrd as [i Hi].
  destruct (Forall2_lookup_l _ _ _ _ _ Hfeatures Hi) as (fet & _ & Hfet).
  destruct (Forall2_lookup_l _ _ _ _ _ Htargets Hi) as (t' & Ht' & Heq).
  assert (t' = t) as -> by congruence.
  assert (t ∈ unique) as Hin.
  { rewrite Huperm. apply set_list_elem. by eapply list_elem_of_lookup_2. }
  apply list_elem_of_lookup in Hin as [j Hj].
  destruct (Forall2_lookup_l _ _ _ _ _ Hcats Hj) as (c & _ & Hc).
  unfold make_category in Hc. apply bind_Ok in Hc as (col & Hcol & _).
  by exists t, k, col, fet.
Qed.

(** What a layer that was built is made of. *)
Lemma build_layer_Ok (inputs : Inputs) (is_pci_mode : bool)
    (all_headers : list string) (data_list sorted : list RowData)
    (vl : Layer) (cmap : gmap string string) :
  build_layer inputs is_pci_mode all_headers data_list
    = Ok (sorted, vl, cmap) →
  sorted ≡ₚ data_list
  ∧ NoDup (cat_value <$> layer_categories vl)
  ∧ (∀ t, t ∈ cat_value <$> layer_categories vl
          ↔ ∃ rd, rd ∈ data_list ∧ target_val rd = Ok t)
  ∧ Forall (λ c, col_hex_of inputs is_pci_mode (cat_value c)
                   = Ok (cat_color c)
                 ∧ cmap !! cat_value c = Some (cat_color c)
                 ∧ cat_label c
                   = (if is_pci_mode then "Mod " +:+ cat_value c
                      else cat_value c))
      (layer_categories vl).
Proof.
  intros Hb.
  destruct (build_layer_spec inputs is_pci_mode all_headers data_list
              (build_layer_Ok_ready _ _ _ _ _ Hb))
    as (sorted' & vl' & cmap' & Hb' & Hperm & _ & _ & Hnodup & Helem & _
        & Hcolors & _).
  rewrite Hb in Hb'. injection Hb' as <- <- <-. by split_and!.
Qed.

(** The target of a record is the one the classifier resolved for its
    row. *)
Lemma process_row_target (fuel : nat) (inputs : Inputs)
    (is_pci_mode : bool) (bands : list string) (row : RawRow)
    (row_data : RowData) :
  process_row fuel inputs is_pci_mode bands row = Ok row_data →
  ∃ target, resolve_target inputs is_pci_mode row = Ok target
            ∧ target_val row_data = Ok target.
Proof.
  intros Hrow.
  apply process_row_Ok in Hrow
    as (radius & beam & site & clat & lat & clon & lon & cazim & azim
        & target & ring & _ & _ & _ & _ & _ & _ & Htarget & _ & ->).
  exists target. split; [done|].
  unfold target_val, getitem. by lookup_entry.
Qed.

Lemma valid_records_elem (fuel : nat) (inputs : Inputs)
    (is_pci_mode : bool) (bands : list string) (rows : list RawRow)
    (row_data : RowData) :
  row_data ∈ valid_records fuel inputs is_pci_mode bands rows
  ↔ ∃ row, row ∈ rows
           ∧ process_row fuel inputs is_pci_mode bands row = Ok row_data.
Proof.
  unfold valid_records. rewrite list_elem_of_omap. split.
  - intros (row & Hrow & Hrd). exists row. split; [done|].
    by destruct (process_row fuel inputs is_pci_mode bands row);
      simplify_eq.
  - intros (row & Hrow & Hrd). exists row. split; [done|]. by rewrite Hrd.
Qed.

(** A run that gets past the scan with at least one record builds one layer
    and does not raise.  For a dialog reached from the initial one, a file
    every row of which has a cell for every header, valid mappings, no
    cancellation, and rows each of which returns a record or raises an
    exception the scan catches (no row ends the run with another exception,
    and the sweep of every row ends): the run returns; its first effect is the one layer added
    to the project; the records behind the layer are the rows that went
    through the classifier, rearranged in ascending order of their sort key;
    the layer has one feature for each of them, in that order; the export
    events follow, and the last thing is the "Success" box that gives the
    number of records. *)
Theorem run_adds_sorted_layer (fuel : nat) (w : World)
    (actions : list user_action) (inputs : Inputs) (f : CsvFile)
    (bands : list string) :
  dlg_exec w = true →
  dialog w = dialog_after actions →
  get_inputs (dialog w) = Ok inputs →
  mappings_valid inputs →
  open_csv w (file_path inputs) = Some f →
  csv_well_formed f →
  (∀ i, was_canceled w i = false) →
  first_pass w inputs = Some bands →
  Forall (row_processed fuel inputs (bool_decide (active_tab inputs = 1))
            bands) (csv_rows f) →
  valid_records fuel inputs (bool_decide (active_tab inputs = 1)) bands
    (csv_rows f) ≠ [] →
  ∃ sorted vl cmap,
    run fuel w
    = returns
        ([AddMapLayer vl]
         ++ export_events inputs (bool_decide (active_tab inputs = 1))
              (fieldnames f) sorted cmap (kml_writable w)
         ++ [MsgInformation "Success"
               ("Successfully generated "
                +:+ PyStr.str_int
                      (Z.of_nat
                         (length
                            (valid_records fuel inputs
                               (bool_decide (active_tab inputs = 1)) bands
                               (csv_rows f))))
                +:+ " site sectors.")])
    ∧ sorted ≡ₚ valid_records fuel inputs
                  (bool_decide (active_tab inputs = 1)) bands (csv_rows f)
    ∧ StronglySorted
        (key_le (record_key (bool_decide (active_tab inputs = 1)))) sorted
    ∧ Forall2 (λ rd fet,
                 make_feature inputs (bool_decide (active_tab inputs = 1))
                   (fieldnames f) rd = Ok fet)
        sorted (layer_features vl).
Proof.
  intros Hexec Hdialog Hinputs Hvalid Hopen Hcsv Hrun Hfirst Hrows Hne.
  rewrite (run_validated _ _ _ Hexec Hinputs Hvalid).
  rewrite Hfirst, Hopen, scan_rows_processed by done.
  rewrite app_nil_l.
  set (mode := bool_decide (active_tab inputs = 1)) in *.
  set (valid := valid_records fuel inputs mode bands (csv_rows f)) in *.
  assert (Forall (record_ready inputs mode (fieldnames f)) valid) as Hready.
  { apply Forall_forall. intros rd Hrd.
    apply valid_records_elem in Hrd as (row & Hrow & Hrd).
    apply (process_row_ready fuel inputs mode bands row); [done| |].
    - unfold csv_well_formed in Hcsv. rewrite Forall_forall in Hcsv.
      by apply Hcsv.
    - intros _. apply (get_inputs_pci actions). by rewrite <- Hdialog. }
  destruct (build_layer_spec _ _ _ _ Hready)
    as (sorted & vl & cmap & Hb & Hperm & Hsorted & Hfeatures & _).
  exists sorted, vl, cmap. split; [|by split_and!].
  unfold after_scan. clearbody valid.
  destruct valid as [|rd rest]; [done|].
  rewrite Hb. by rewrite (Permutation_length Hperm).
Qed.

(** The categories of a PCI audit.  For a dialog reached from the initial
    one, the layer built from the records of any rows has one category for
    each distinct residue of the records: no two categories have the same
    value, the values are exactly the targets of the records, and so every
    record has its category.  There are at most [mod_type] of them (3 or
    6); each has as value the decimal text of a residue [k] with
    [0 <= k < mod_type], the label [Mod k], and the colour of the [k]-th
    colour button: the gray of an index of 6 or more is never used. *)
Theorem pci_categories_within_modulus (fuel : nat)
    (actions : list user_action) (inputs : Inputs) (bands : list string)
    (rows : list RawRow) (all_headers : list string)
    (sorted : list RowData) (vl : Layer) (cmap : gmap string string) :
  get_inputs (dialog_after actions) = Ok inputs →
  build_layer inputs true all_headers
    (valid_records fuel inputs true bands rows) = Ok (sorted, vl, cmap) →
  Z.of_nat (length (layer_categories vl)) ≤ mod_type (pci_params inputs)
  ∧ NoDup (cat_value <$> layer_categories vl)
  ∧ (∀ t, t ∈ cat_value <$> layer_categories vl
          ↔ ∃ rd, rd ∈ valid_records fuel inputs true bands rows
                  ∧ target_val rd = Ok t)
  ∧ (∀ rd, rd ∈ valid_records fuel inputs true bands rows →
           ∃ c, c ∈ layer_categories vl
                ∧ target_val rd = Ok (cat_value c))
  ∧ Forall (λ c, ∃ k,
              0 ≤ k < mod_type (pci_params inputs)
              ∧ cat_value c = PyStr.str_int k
              ∧ cat_label c = "Mod " +:+ PyStr.str_int k
              ∧ pci_colors (pci_params inputs) !! Z.to_nat k
                = Some (cat_color c))
      (layer_categories vl).
Proof.
  intros Hinputs Hb.
  destruct (get_inputs_pci _ _ Hinputs) as [Hmod Hlen].
  apply build_layer_Ok in Hb as (_ & Hnodup & Helem & Hcolors).
  assert (∀ rd, rd ∈ valid_records fuel inputs true bands rows →
                ∃ c, c ∈ layer_categories vl
                     ∧ target_val rd = Ok (cat_value c)) as Hevery.
  { intros rd Hrd. pose proof Hrd as Hvalid.
    apply valid_records_elem in Hvalid as (row & _ & Hrow).
    apply process_row_target in Hrow as (target & _ & Ht).
    assert (target ∈ cat_value <$> layer_categories vl) as Hin
      by (apply Helem; by exists rd).
    apply list_elem_of_fmap in Hin as (c & -> & Hc). by exists c. }
  assert (∀ c, c ∈ layer_categories vl →
               ∃ k, 0 ≤ k < mod_type (pci_params inputs)
                    ∧ cat_value c = PyStr.str_int k
                    ∧ cat_label c = "Mod " +:+ PyStr.str_int k
                    ∧ pci_colors (pci_params inputs) !! Z.to_nat k
                      = Some (cat_color c)) as Hcat.
  { intros c Hc.
    assert (cat_value c ∈ cat_value <$> layer_categories vl) as Hv
      by (by apply list_elem_of_fmap_2).
    apply Helem in Hv as (rd & Hrd & Ht).
    apply valid_records_elem in Hrd as (row & _ & Hrow).
    apply process_row_target in Hrow as (target & Htarget & Ht').
    assert (target = cat_value c) as -> by congruence.
    apply resolve_target_pci in Htarget as (s & v & n & _ & _ & _ & _ & Hk).
    set (k := n `mod` mod_type (pci_params inputs)) in *.
    assert (0 ≤ k < mod_type (pci_params inputs)) as Hrange
      by (apply Z.mod_pos_bound; lia).
    rewrite Forall_forall in Hcolors.
    destruct (Hcolors c Hc) as (Hcol & _ & Hlabel).
    destruct (col_hex_of_small inputs k) as (col & Hcol' & Hlookup);
      [lia|done|].
    rewrite Hk in Hcol. rewrite Hcol in Hcol'. injection Hcol' as <-.
    exists k. rewrite Hlabel, Hk. split_and!; [lia|lia|done..]. }
  split; [|by split_and!; [..|apply Forall_forall]].
  set (m := Z.to_nat (mod_type (pci_params inputs))).
  assert (cat_value <$> layer_categories vl
            ⊆+ (λ i, PyStr.str_int (Z.of_nat i)) <$> seq 0 m) as Hsub.
  { apply NoDup_submseteq; [done|]. intros t Ht.
    apply list_elem_of_fmap in Ht as (c & -> & Hc).
    destruct (Hcat c Hc) as (k & Hk & -> & _).
    apply list_elem_of_fmap. exists (Z.to_nat k).
    split; [by rewrite Z2Nat.id by lia|].
    apply elem_of_seq. unfold m. lia. }
  apply submseteq_length in Hsub.
  rewrite !length_fmap, length_seq in Hsub. unfold m in Hsub. lia.
Qed.

(** The colours of the KML polygons.  When a layer was built from records of
    the classifier, the sector loop of the KML export of these records with
    the colour map of the layer writes every placemark, and the colour of
    each is [hex_to_kml_color] of the colour of the category of its record:
    the gray of a target missing from the map is never used. *)
Theorem kml_sector_colors (fuel : nat) (inputs : Inputs)
    (is_pci_mode : bool) (bands : list string) (rows : list RawRow)
    (all_headers : list string) (sorted : list RowData) (vl : Layer)
    (cmap : gmap string string) :
  build_layer inputs is_pci_mode all_headers
    (valid_records fuel inputs is_pci_mode bands rows)
  = Ok (sorted, vl, cmap) →
  ∃ doc,
    export_to_kml sorted inputs all_headers cmap is_pci_mode = Ok doc
    ∧ Forall2
        (λ rd pm, ∃ c,
           c ∈ layer_categories vl
           ∧ target_val rd = Ok (cat_value c)
           ∧ pm_poly_color pm
             = hex_to_kml_color (cat_color c)
                 (if is_pci_mode then pci_opacity (pci_params inputs)
                  else band_opacity (band_params inputs)))
        sorted (kml_sectors doc).
Proof.
  intros Hb.
  apply build_layer_Ok in Hb as (Hperm & _ & Helem & Hcolors).
  set (opacity_val := if is_pci_mode then pci_opacity (pci_params inputs)
                      else band_opacity (band_params inputs)).
  assert (Forall (λ rd, ∃ pm c,
                    sector_placemark inputs all_headers cmap is_pci_mode
                      opacity_val rd = Ok pm
                    ∧ c ∈ layer_categories vl
                    ∧ target_val rd = Ok (cat_value c)
                    ∧ pm_poly_color pm
                      = hex_to_kml_color (cat_color c) opacity_val) sorted)
    as Hall.
  { apply Forall_forall. intros rd Hrd. rewrite Hperm in Hrd.
    pose proof Hrd as Hvalid.
    apply valid_records_elem in Hvalid as (row & _ & Hrow).
    destruct (process_row_site _ _ _ _ _ _ Hrow)
      as (site & target & ring & Hsite & Htarget & Hgeom & _).
    assert (target_val rd = Ok target) as Ht.
    { unfold target_val, getitem. by rewrite Htarget. }
    assert (target ∈ cat_value <$> layer_categories vl) as Hin
      by (apply Helem; by exists rd).
    apply list_elem_of_fmap in Hin as (c & -> & Hc).
    rewrite Forall_forall in Hcolors.
    destruct (Hcolors c Hc) as (_ & Hmap & _).
    unfold sector_placemark, getitem. rewrite Htarget, Hgeom. simpl.
    eexists _, c. split; [reflexivity|]. simpl.
    rewrite Hmap. by split_and!. }
  assert (∃ sectors,
            Forall2 (λ rd pm,
                       sector_placemark inputs all_headers cmap is_pci_mode
                         opacity_val rd = Ok pm
                       ∧ ∃ c, c ∈ layer_categories vl
                              ∧ target_val rd = Ok (cat_value c)
                              ∧ pm_poly_color pm
                                = hex_to_kml_color (cat_color c) opacity_val)
              sorted sectors) as [sectors Hsectors].
  { clear -Hall.
    induction Hall as [|rd l (pm & c & Hpm & Hc) _ [sectors IH]].
    - exists []. constructor.
    - exists (pm :: sectors). constructor; [|done].
      split; [done|]. by exists c. }
  exists {| kml_name := if is_pci_mode then "Site Sector PCI Audit"
                        else "Site Sector";
            kml_sectors := sectors |}.
  split.
  - unfold export_to_kml. fold opacity_val.
    assert (mapM (sector_placemark inputs all_headers cmap is_pci_mode
                    opacity_val) sorted = Ok sectors) as ->; [|done].
    apply mapM_Ok. eapply Forall2_impl; [exact Hsectors|].
    by intros rd pm [Hpm _].
  - simpl. eapply Forall2_impl; [exact Hsectors|].
    by intros rd pm [_ Hc].
Qed.
End LayerFacts.

Section LayerOnReference.
Import RefRuntime.

Lemma run_adds_sorted_layer_witness :
  ∃ vl,
    events (run 100 Scenario.good_band_world) !! 0%nat
    = Some (AddMapLayer vl)
    ∧ raised (run 100 Scenario.good_band_world) = None
    ∧ ended (run 100 Scenario.good_band_world) = true
    ∧ length (layer_features vl) = 2%nat.
Proof.
  set (inputs := ok_value Scenario.band_inputs
                   (get_inputs (dialog Scenario.good_band_world))).
  assert (get_inputs (dialog Scenario.good_band_world) = Ok inputs)
    as Hinputs by (apply ok_value_eq; vm_compute; reflexivity).
  assert (cols inputs = Scenario.band_cols) as Hcols
    by (vm_compute; reflexivity).
  assert (active_tab inputs = 0) as Htab by (vm_compute; reflexivity).
  assert (file_path inputs = "sites.csv") as Hpath
    by (vm_compute; reflexivity).
  assert (first_pass Scenario.good_band_world inputs
          = Some ["LTE1800"; "LTE2100"]) as Hfirst
    by (vm_compute; reflexivity).
  assert (length (valid_records 100 inputs
                    (bool_decide (active_tab inputs = 1))
                    ["LTE1800"; "LTE2100"] (csv_rows Scenario.good_file))
          = 2%nat) as Hlen by (vm_compute; reflexivity).
  assert (forallb (λ row,
                     is_ok (process_row 100 inputs
                              (bool_decide (active_tab inputs = 1))
                              ["LTE1800"; "LTE2100"] row))
            (csv_rows Scenario.good_file) = true) as Hrows
    by (vm_compute; reflexivity).
  clearbody inputs.
  destruct (run_adds_sorted_layer 100 Scenario.good_band_world
              Scenario.band_actions inputs Scenario.good_file
              ["LTE1800"; "LTE2100"])
    as (sorted & vl & cmap & Hrun & Hperm & _ & Hfeatures).
  - reflexivity.
  - reflexivity.
  - exact Hinputs.
  - unfold mappings_valid. rewrite Hcols, Htab. simpl. split; [|discriminate].
    intros Hin.
    repeat (apply elem_of_cons in Hin as [Hin|Hin]; [discriminate Hin|]).
    by apply elem_of_nil in Hin.
  - simpl. by rewrite Hpath.
  - unfold csv_well_formed, Scenario.good_file, fieldnames, csv_rows.
    repeat (constructor;
            [intros h Hh;
             repeat (apply elem_of_cons in Hh as [->|Hh];
                     [eexists; vm_compute; reflexivity|]);
             by apply elem_of_nil in Hh|]).
    constructor.
  - intros i. reflexivity.
  - exact Hfirst.
  - apply Forall_forall. intros row Hrow.
    rewrite forallb_forall in Hrows. unfold row_processed.
    assert (is_ok (process_row 100 inputs
                     (bool_decide (active_tab inputs = 1))
                     ["LTE1800"; "LTE2100"] row) = true) as Hok
      by (apply Hrows; by apply list_elem_of_In).
    by destruct (process_row _ _ _ _ _).
  - intros Hnil. rewrite Hnil in Hlen. discriminate Hlen.
  - exists vl. rewrite Hrun. split; [reflexivity|]. split; [reflexivity|].
    split; [reflexivity|].
    rewrite <- (Forall2_length _ _ _ Hfeatures), (Permutation_length Hperm).
    exact Hlen.
Defined.

Lemma pci_categories_within_modulus_witness :
  ∃ inputs sorted vl cmap,
    get_inputs (dialog_after Scenario.pci_actions) = Ok inputs
    ∧ build_layer inputs true (fieldnames Scenario.pci_file)
        (valid_records 100 inputs true [] (csv_rows Scenario.pci_file))
      = Ok (sorted, vl, cmap)
    ∧ Z.of_nat (length (layer_categories vl)) ≤ mod_type (pci_params inputs)
    ∧ NoDup (cat_value <$> layer_categories vl)
    ∧ (∀ rd, rd ∈ valid_records 100 inputs true []
                    (csv_rows Scenario.pci_file) →
             ∃ c, c ∈ layer_categories vl
                  ∧ target_val rd = Ok (cat_value c))
    ∧ Forall (λ c, ∃ k,
                0 ≤ k < mod_type (pci_params inputs)
                ∧ cat_value c = PyStr.str_int k
                ∧ cat_label c = "Mod " +:+ PyStr.str_int k
                ∧ pci_colors (pci_params inputs) !! Z.to_nat k
                  = Some (cat_color c))
        (layer_categories vl).
Proof.
  set (inputs := ok_value Scenario.pci_inputs
                   (get_inputs (dialog_after Scenario.pci_actions))).
  assert (get_inputs (dialog_after Scenario.pci_actions) = Ok inputs)
    as Hinputs by (apply ok_value_eq; vm_compute; reflexivity).
  set (r := ok_value
              ([], {| layer_name := "none"; layer_fields := [];
                      layer_features := []; layer_target_field := "none";
                      layer_categories := [] |}, ∅)
              (build_layer inputs true (fieldnames Scenario.pci_file)
                 (valid_records 100 inputs true []
                    (csv_rows Scenario.pci_file)))).
  assert (build_layer inputs true (fieldnames Scenario.pci_file)
            (valid_records 100 inputs true [] (csv_rows Scenario.pci_file))
          = Ok r) as Hr by (apply ok_value_eq; vm_compute; reflexivity).
  clearbody r. clearbody inputs. destruct r as [[sorted vl] cmap].
  exists inputs, sorted, vl, cmap.
  split; [exact Hinputs|]. split; [exact Hr|].
  destruct (pci_categories_within_modulus _ _ _ _ _ _ _ _ _ Hinputs Hr)
    as (Hcount & Hnodup & _ & Hevery & Hcats).
  split; [exact Hcount|]. split; [exact Hnodup|].
  split; [exact Hevery | exact Hcats].
Defined.

Lemma kml_sector_colors_witness :
  ∃ sorted vl cmap doc,
    build_layer Scenario.band_inputs false Scenario.headers
      (valid_records 100 Scenario.band_inputs false ["LTE1800"; "LTE2100"]
         (csv_rows Scenario.good_file)) = Ok (sorted, vl, cmap)
    ∧ export_to_kml sorted Scenario.band_inputs Scenario.headers cmap false
      = Ok doc
    ∧ Forall2
        (λ rd pm, ∃ c,
           c ∈ layer_categories vl
           ∧ target_val rd = Ok (cat_value c)
           ∧ pm_poly_color pm = hex_to_kml_color (cat_color c) 50)
        sorted (kml_sectors doc).
Proof.
  set (r := ok_value
              ([], {| layer_name := "none"; layer_fields := [];
                      layer_features := []; layer_target_field := "none";
                      layer_categories := [] |}, ∅)
              (build_layer Scenario.band_inputs false Scenario.headers
                 (valid_records 100 Scenario.band_inputs false
                    ["LTE1800"; "LTE2100"] (csv_rows Scenario.good_file)))).
  assert (build_layer Scenario.band_inputs false Scenario.headers
            (valid_records 100 Scenario.band_inputs false ["LTE1800"; "LTE2100"]
               (csv_rows Scenario.good_file)) = Ok r) as Hr
    by (apply ok_value_eq; vm_compute; reflexivity).
  clearbody r. destruct r as [[sorted vl] cmap].
  destruct (kml_sector_colors _ _ _ _ _ _ _ _ _ Hr)
    as (doc & Hdoc & Hcolors).
  exists sorted, vl, cmap, doc.
  split; [exact Hr|]. split; [exact Hdoc|]. exact Hcolors.
Defined.
End LayerOnReference.

(** ** The dialog *)

Section DialogFacts.
Context `{Runtime}.

Lemma float_or_text (a : ascii) (s : string) (dflt : float) :
  float_or (String a s) dflt
  = match py_float (String a s) with
    | Some x => Ok x
    | None => Raise ValueError
    end.
Proof. reflexivity. Qed.

(** What the manual radius and beam texts do to a run.  [get_inputs] reads
    both with [float()] before [run] validates anything: a text that is not
    empty and not a number makes the run raise [ValueError] with no message
    box, whether or not the manual values are used; otherwise the inputs are
    built, an empty text counts as 200 (radius) or 65 (beam), and any other
    text as the number it spells. *)
Theorem manual_text_read_or_raises (fuel : nat) (w : World)
    (actions : list user_action) :
  dlg_exec w = true →
  dialog w = dialog_after actions →
  ((txt_radius (dialog w) ≠ "" ∧ py_float (txt_radius (dialog w)) = None)
   ∨ (txt_beam (dialog w) ≠ "" ∧ py_float (txt_beam (dialog w)) = None) →
   run fuel w = crashes [] ValueError)
  ∧ (¬ ((txt_radius (dialog w) ≠ ""
         ∧ py_float (txt_radius (dialog w)) = None)
        ∨ (txt_beam (dialog w) ≠ ""
           ∧ py_float (txt_beam (dialog w)) = None)) →
     ∃ inputs,
       get_inputs (dialog w) = Ok inputs
       ∧ (txt_radius (dialog w) = "" →
          manual_radius (manual inputs) = Finite 200)
       ∧ (txt_radius (dialog w) ≠ "" →
          py_float (txt_radius (dialog w))
          = Some (manual_radius (manual inputs)))
       ∧ (txt_beam (dialog w) = "" →
          manual_beam (manual inputs) = Finite 65)
       ∧ (txt_beam (dialog w) ≠ "" →
          py_float (txt_beam (dialog w))
          = Some (manual_beam (manual inputs)))).
Proof.
  intros Hexec Hd.
  destruct (dialog_after_inv actions) as (_ & Hcombo & _).
  rewrite <- Hd in Hcombo.
  assert (∃ mt, list_getitem [3; 6] (combo_mod (dialog w)) = Ok mt)
    as [mt Hmt] by (destruct Hcombo as [-> | ->]; by eexists).
  split.
  - intros Hbad. unfold run. rewrite Hexec. simpl.
    assert (get_inputs (dialog w) = Raise ValueError) as ->; [|done].
    unfold get_inputs.
    destruct (txt_radius (dialog w)) as [|a s].
    + destruct Hbad as [[Hne _]|[Hne Hnone]]; [done|].
      destruct (txt_beam (dialog w)) as [|b t]; [done|].
      rewrite float_or_text, Hnone. done.
    + rewrite float_or_text.
      destruct (py_float (String a s)) as [x|]; [|done].
      destruct Hbad as [[_ Hnone]|[Hne Hnone]]; [done|].
      destruct (txt_beam (dialog w)) as [|b t]; [done|].
      rewrite float_or_text, Hnone. done.
  - intros Hgood. unfold get_inputs. rewrite Hmt.
    destruct (txt_radius (dialog w)) as [|a s].
    + destruct (txt_beam (dialog w)) as [|b t].
      * eexists. split; [reflexivity|]. by split_and!.
      * rewrite float_or_text.
        destruct (py_float (String b t)) as [y|] eqn:Hy.
        -- eexists. split; [reflexivity|]. by split_and!.
        -- destruct Hgood. by right.
    + rewrite float_or_text.
      destruct (py_float (String a s)) as [x|] eqn:Hx.
      * destruct (txt_beam (dialog w)) as [|b t].
        -- eexists. split; [reflexivity|]. by split_and!.
        -- rewrite float_or_text.
           destruct (py_float (String b t)) as [y|] eqn:Hy.
           ++ eexists. split; [reflexivity|]. by split_and!.
           ++ destruct Hgood. by right.
      * destruct Hgood. by left.
Qed.

(** The colour buttons the PCI tab shows are those the audit can use:
    button [i] is visible exactly when [i] is below the divisor that
    [get_inputs] reads from the same combo box. *)
Theorem pci_buttons_shown (actions : list user_action) (inputs : Inputs)
    (i : nat) :
  get_inputs (dialog_after actions) = Ok inputs →
  update_pci_ui (combo_mod (dialog_after actions)) !! i = Some true
  ↔ Z.of_nat i < mod_type (pci_params inputs).
Proof.
  intros (Hmod & _)%get_inputs_Ok.
  destruct (dialog_after_inv actions) as (_ & Hcombo & _).
  destruct Hcombo as [Hc|Hc]; rewrite Hc in *;
    injection Hmod as <-;
    do 6 (destruct i as [|i];
          [simpl; split; intros Hi; first [done | lia]|]);
    simpl; split; intros Hi; first [done | lia].
Qed.

(** The bands that get a colour button in the dialog: one button for each
    distinct band, in ascending order of the frequency key, and the bands
    are those the run ranks for the radius decrement, the empty string
    apart (the run also ranks the band of a cell that is only white
    space). *)
Theorem dialog_bands_are_ranked_bands (col_name : string)
    (rows : list RawRow) :
  NoDup (generate_dynamic_bands col_name rows).*1
  ∧ StronglySorted
      (λ a b, extract_numeric_freq a ≤ extract_numeric_freq b)
      (generate_dynamic_bands col_name rows).*1
  ∧ ∀ b, b ∈ (generate_dynamic_bands col_name rows).*1
         ↔ b ∈ rank_bands col_name rows ∧ b ≠ "".
Proof.
  assert (∀ (l : list string) (g : nat → string),
            (imap (λ i band, (band, g i)) l).*1 = l) as Hfst.
  { induction l as [|x l IH]; intros g; [done|].
    simpl. f_equal. apply (IH (g ∘ S)). }
  unfold generate_dynamic_bands. rewrite Hfst.
  split_and!.
  - rewrite py_sorted_perm. apply set_list_NoDup.
  - apply py_sorted_sorted.
  - intros b. unfold rank_bands. rewrite !py_sorted_perm, !set_list_elem.
    unfold dialog_band_values, band_values. rewrite !list_elem_of_omap.
    split.
    + intros (row & Hrow & Hb).
      destruct (row !! col_name) as [[[|a s]|]|] eqn:Hcell; try done.
      destruct (PyStr.strip (String a s)) as [|c t] eqn:Hstrip; [done|].
      injection Hb as <-. split; [|done].
      exists row. split; [done|]. by rewrite Hcell, Hstrip.
    + intros [(row & Hrow & Hb) Hne]. exists row. split; [done|].
      destruct (row !! col_name) as [[[|a s]|]|] eqn:Hcell; try done.
      destruct (PyStr.strip (String a s)) as [|c t] eqn:Hstrip;
        by simplify_eq.
Qed.
End DialogFacts.

(** ** The legend *)

Lemma draw_legend_rows_lookup (colors_map : gmap string string)
    (is_pci_mode : bool) (legend_items : list string) :
  ∀ (y_pos : Z) (j : nat) (row : LegendRow),
    draw_legend_rows colors_map is_pci_mode y_pos legend_items !! j
    = Some row →
    ∃ t, legend_items !! j = Some t
         ∧ row_y row = y_pos + 25 * Z.of_nat j
         ∧ row_color row = default GRAY (colors_map !! t)
         ∧ row_label row = (if is_pci_mode then "Mod " +:+ t else t).
Proof.
  induction legend_items as [|t items IH]; intros y_pos j row; [done|].
  destruct j as [|j]; simpl.
  - intros [= <-]. exists t. simpl. split_and!; [done|lia|done..].
  - intros Hrow. destruct (IH _ _ _ Hrow) as (t' & Ht' & Hy & Hrest).
    exists t'. split; [done|]. split; [lia | done].
Qed.

Lemma draw_legend_rows_length (colors_map : gmap string string)
    (is_pci_mode : bool) (legend_items : list string) :
  ∀ y_pos : Z,
    length (draw_legend_rows colors_map is_pci_mode y_pos legend_items)
    = length legend_items.
Proof.
  induction legend_items as [|t items IH]; intros y_pos; simpl; [done|].
  by rewrite IH.
Qed.

(** The legend image of the KML export.  It has one row for each of the
    first 30 targets and for no other: as many rows as there are targets,
    30 at most, and a height of 40 plus 25 for each row; the row of the
    target at position [j < 30] is row [j], drawn at height [30 + 25 j],
    its swatch of height 15 ends above the lower edge of the image, and it
    has the colour the colour map gives the target and the label of the
    target; and every row is the row of such a target. *)
Theorem legend_rows_layout (sorted_targets : list string)
    (colors_map : gmap string string) (is_pci_mode : bool) :
  let img := legend_image sorted_targets colors_map is_pci_mode in
  length (legend_rows img) = (30 `min` length sorted_targets)%nat
  ∧ img_h img = 40 + 25 * Z.of_nat (length (legend_rows img))
  ∧ (∀ (j : nat) t, (j < 30)%nat → sorted_targets !! j = Some t →
       ∃ row, legend_rows img !! j = Some row
              ∧ row_y row = 30 + 25 * Z.of_nat j
              ∧ row_y row + 15 < img_h img
              ∧ row_color row = default GRAY (colors_map !! t)
              ∧ row_label row = (if is_pci_mode then "Mod " +:+ t else t))
  ∧ (∀ (j : nat) row, legend_rows img !! j = Some row →
       (j < 30)%nat
       ∧ ∃ t, sorted_targets !! j = Some t
              ∧ row_y row = 30 + 25 * Z.of_nat j
              ∧ row_y row + 15 < img_h img
              ∧ row_color row = default GRAY (colors_map !! t)
              ∧ row_label row = (if is_pci_mode then "Mod " +:+ t else t)).
Proof.
  intros img. unfold img, legend_image. cbn [legend_rows img_h].
  assert (∀ (j : nat) row,
            draw_legend_rows colors_map is_pci_mode 30
              (take 30 sorted_targets) !! j = Some row →
            (j < 30)%nat
            ∧ ∃ t, sorted_targets !! j = Some t
                   ∧ row_y row = 30 + 25 * Z.of_nat j
                   ∧ row_y row + 15
                     < 40 + Z.of_nat (length (take 30 sorted_targets)) * 25
                   ∧ row_color row = default GRAY (colors_map !! t)
                   ∧ row_label row
                     = (if is_pci_mode then "Mod " +:+ t else t)) as Hrows.
  { intros j row Hrow.
    apply draw_legend_rows_lookup in Hrow
      as (t & Ht & Hy & Hcolor & Hlabel).
    pose proof (lookup_lt_Some _ _ _ Ht) as Hj.
    rewrite length_take in Hj.
    apply lookup_take_Some in Ht as [Ht Hlt].
    split; [done|]. exists t.
    split_and!; [done|done| |done|done].
    rewrite length_take. lia. }
  rewrite draw_legend_rows_length, length_take.
  rewrite length_take in Hrows.
  split_and!; [done|lia| |].
  - intros j t Hj Ht.
    destruct (lookup_lt_is_Some_2
                (draw_legend_rows colors_map is_pci_mode 30
                   (take 30 sorted_targets)) j) as [row Hrow].
    { rewrite draw_legend_rows_length, length_take.
      apply lookup_lt_Some in Ht. lia. }
    exists row. split; [done|].
    destruct (Hrows j row Hrow) as (_ & t' & Ht' & Hy & Hh & Hrest).
    assert (t' = t) as -> by congruence.
    split_and!; [done|lia|apply Hrest..].
  - intros j row Hrow.
    destruct (Hrows j row Hrow) as (Hj & t & Ht & Hy & Hh & Hrest).
    split; [done|]. exists t. split_and!; [done|done|lia|apply Hrest..].
Qed.

(** ** The data entries of a placemark *)

Section ExtendedData.
Context `{Runtime}.

(** The [<ExtendedData>] of the placemark of a record the classifier built:
    one entry for each header, in the order of the headers, named by the
    escaped header; for a header that is not named like a derived entry the
    value is the escaped text of the cell of the row, the text [None] for a
    cell the line did not have, and the empty text for a header the row
    does not have. *)
Theorem kml_extended_data (fuel : nat) (inputs : Inputs)
    (is_pci_mode : bool) (bands : list string) (row : RawRow)
    (row_data : RowData) (headers : list string)
    (colors_map : gmap string string) (opacity_val : Z) :
  process_row fuel inputs is_pci_mode bands row = Ok row_data →
  ∃ pm,
    sector_placemark inputs headers colors_map is_pci_mode opacity_val
      row_data = Ok pm
    ∧ (pm_data pm).*1 = (λ h, escape_xml (PStr h)) <$> headers
    ∧ ∀ (i : nat) h, headers !! i = Some h →
        h ∉ "_site" :: derived_keys →
        (pm_data pm).*2 !! i
        = Some match row !! h with
               | Some (Some s) => escape_xml (PStr s)
               | Some None => "None"
               | None => ""
               end.
Proof.
  intros Hrow.
  destruct (process_row_site _ _ _ _ _ _ Hrow)
    as (site & target & ring & _ & Htarget & Hgeom & _).
  assert (∀ h, h ∉ "_site" :: derived_keys →
               row_data !! h = of_cell <$> row !! h) as Hkeep.
  { apply process_row_Ok in Hrow
      as (radius & beam & cell & clat & lat & clon & lon & cazim & azim
          & target' & ring' & _ & _ & _ & _ & _ & _ & _ & _ & ->).
    intros h Hh. unfold derived_keys in Hh.
    rewrite !not_elem_of_cons in Hh.
    destruct Hh as (? & ? & ? & ? & ? & ? & ? & ? & _).
    rewrite !lookup_insert_ne by done. apply lookup_fmap. }
  unfold sector_placemark, getitem. rewrite Htarget, Hgeom. simpl.
  eexists. split; [reflexivity|]. simpl. split.
  - rewrite <- list_fmap_compose. by apply list_fmap_ext.
  - intros i h Hi Hh.
    rewrite <- list_fmap_compose, list_lookup_fmap, Hi. simpl.
    rewrite (Hkeep h Hh). by destruct (row !! h) as [[s|]|].
Qed.
End ExtendedData.

(** ** The further properties on the reference runtime *)

Section FurtherOnReference.
Import RefRuntime.

Lemma kml_extended_data_witness :
  ∃ row_data pm,
    process_row 100 Scenario.band_inputs false ["LTE1800"]
      Scenario.short_row = Raise TypeError
    ∧ process_row 100 Scenario.band_inputs false ["LTE1800"]
        (Scenario.band_row "LTE1800" "65") = Ok row_data
    ∧ sector_placemark Scenario.band_inputs ["azim"; "pci"] ∅ false 50
        row_data = Ok pm
    ∧ (pm_data pm).*1 = ["azim"; "pci"]
    ∧ (pm_data pm).*2 !! 0%nat = Some "90"
    ∧ (pm_data pm).*2 !! 1%nat = Some "".
Proof.
  assert (is_ok (process_row 100 Scenario.band_inputs false ["LTE1800"]
                   (Scenario.band_row "LTE1800" "65")) = true) as Hrow
    by (vm_compute; reflexivity).
  apply (ok_value_eq ∅) in Hrow.
  destruct (kml_extended_data _ _ _ _ _ _ ["azim"; "pci"] ∅ 50 Hrow)
    as (pm & Hpm & Hnames & Hvalues).
  eexists _, pm. split; [vm_compute; reflexivity|].
  split; [exact Hrow|]. split; [exact Hpm|]. split; [exact Hnames|].
  assert (∀ h, h = "azim" ∨ h = "pci" → h ∉ "_site" :: derived_keys)
    as Hout.
  { intros h Hh Hin.
    repeat (apply elem_of_cons in Hin as [Hin|Hin];
            [destruct Hh as [-> | ->]; discriminate Hin|]).
    by apply elem_of_nil in Hin. }
  split.
  - rewrite (Hvalues 0%nat "azim" eq_refl (Hout _ (or_introl eq_refl))).
    vm_compute. reflexivity.
  - rewrite (Hvalues 1%nat "pci" eq_refl (Hout _ (or_intror eq_refl))).
    vm_compute. reflexivity.
Defined.

Lemma manual_text_read_or_raises_witness :
  run 100
      {| dlg_exec := true;
         dialog := dialog_after [TypeManual "abc" "65"];
         open_csv := λ _, None;
         was_canceled := λ _, false;
         kml_writable := true |}
  = crashes [] ValueError
  ∧ ∃ inputs,
      get_inputs (dialog Scenario.good_band_world) = Ok inputs
      ∧ manual_beam (manual inputs) = Finite 65.
Proof.
  split.
  - apply (manual_text_read_or_raises _ _ [TypeManual "abc" "65"]);
      [reflexivity|reflexivity|].
    left. split; [discriminate | vm_compute; reflexivity].
  - destruct (manual_text_read_or_raises 100 Scenario.good_band_world
                Scenario.band_actions eq_refl eq_refl) as [_ Hgood].
    destruct Hgood as (inputs & Hinputs & _ & _ & Hbeam & _).
    + intros [[_ Hnone]|[Hne _]].
      * vm_compute in Hnone. discriminate Hnone.
      * apply Hne. reflexivity.
    + exists inputs. split; [exact Hinputs|]. apply Hbeam. reflexivity.
Defined.

Lemma pci_buttons_shown_witness :
  ∃ inputs,
    get_inputs (dialog_after Scenario.pci_actions) = Ok inputs
    ∧ mod_type (pci_params inputs) = 3
    ∧ (update_pci_ui (combo_mod (dialog_after Scenario.pci_actions)) !! 2%nat
       = Some true ↔ Z.of_nat 2 < mod_type (pci_params inputs))
    ∧ (update_pci_ui (combo_mod (dialog_after Scenario.pci_actions)) !! 3%nat
       = Some true ↔ Z.of_nat 3 < mod_type (pci_params inputs)).
Proof.
  set (inputs := ok_value Scenario.pci_inputs
                   (get_inputs (dialog_after Scenario.pci_actions))).
  assert (get_inputs (dialog_after Scenario.pci_actions) = Ok inputs)
    as Hinputs by (apply ok_value_eq; vm_compute; reflexivity).
  assert (mod_type (pci_params inputs) = 3) as Hmod
    by (vm_compute; reflexivity).
  clearbody inputs. exists inputs.
  split; [exact Hinputs|]. split; [exact Hmod|].
  split; exact (pci_buttons_shown _ _ _ Hinputs).
Defined.

Lemma legend_rows_layout_witness :
  length (legend_rows (legend_image ["LTE900"; "LTE1800"] ∅ false)) = 2%nat
  ∧ ∃ row,
      legend_rows (legend_image ["LTE900"; "LTE1800"] ∅ false) !! 1%nat
      = Some row
      ∧ row_y row = 55
      ∧ row_y row + 15 < img_h (legend_image ["LTE900"; "LTE1800"] ∅ false)
      ∧ row_color row = GRAY
      ∧ row_label row = "LTE1800".
Proof.
  destruct (legend_rows_layout ["LTE900"; "LTE1800"] ∅ false)
    as (Hlen & _ & Hrow & _).
  split; [exact Hlen|].
  exact (Hrow 1%nat "LTE1800" ltac:(lia) eq_refl).
Defined.
End FurtherOnReference.
